(** * rhizomatic: pagination, title recovery and CSV output

    A shallow embedding of [rhizomatic.py], the scraper that walks the
    paginated history of a Wikipedia page (or the contributions of a user)
    and writes (editor, timestamp, page) triples to a CSV file.

    Layout:
    - [Re]        the fragment of Python's backtracking [re] engine that the
                  title pattern needs, and the pattern itself;
    - [Py]        outcomes, exceptions and the state-and-exception monad in
                  which the effectful functions are written;
    - [Rhizo]     [get_page_history], [get_user_edit_history], and the one
                  loop, [paginate], that both of their loops are;
    - [Csv]       the [csv] writer and reader of the default dialect, the
                  file store and [write_tuples_to_csv];
    - [Main]      [main];
    - [Fixture]   scripted servers and small pages to run the functions on;
    - the lemmas and theorems, one group per function.

    What the program does not contain is taken as it comes: the server,
    lxml's parser and dateutil's parser are parameters of the functions;
    an HTML document is what the four XPath queries of the program return
    on it; the loops run on fuel, and [Diverge] is a loop that has spent
    it. *)

From stdpp Require Import gmap strings list.
From Stdlib Require Import ZArith Lia Ascii DecimalString.

Local Open Scope string_scope.
Local Open Scope list_scope.
Local Open Scope Z_scope.

(** stdpp keeps [String.append] folded; the proofs below compute with it. *)
#[local] Arguments String.append !s1 s2 : simpl nomatch.

(* ===================================================================== *)
(** ** Characters and strings *)
(* ===================================================================== *)

Definition slash : ascii := "/"%char.
Definition LF : ascii := ascii_of_nat 10.
Definition CR : ascii := ascii_of_nat 13.
Definition comma : ascii := ","%char.
Definition dquote : ascii := ascii_of_nat 34.

Definition ascii_eqb (a b : ascii) : bool := Ascii.eqb a b.

(** [s[:len(s) - len(rest)]]: the part of [s] in front of its suffix
    [rest]. *)
Fixpoint take_str (n : nat) (s : string) : string :=
  match n, s with
  | S n', String c s' => String c (take_str n' s')
  | _, _ => EmptyString
  end.

Definition consumed (s rest : string) : string :=
  take_str (String.length s - String.length rest) s.

(** [str(n)] for a Python [int]. *)
Definition str_of_int (n : Z) : string := NilZero.string_of_int (Z.to_int n).

(* ===================================================================== *)
(** ** The regular expressions of [re] that the program uses *)
(* ===================================================================== *)

Module Re.

(** Syntax of the fragment. [Dot] is [.] without DOTALL: every character
    but the line feed. [NotLit c] is the negated set [[^c]], which does
    match a line feed. Repetitions are greedy. *)
Inductive regex : Type :=
  | Dot
  | Lit (c : ascii)
  | NotLit (c : ascii)
  | Cat (r1 r2 : regex)
  | Star (r : regex)
  | Plus (r : regex)
  | Group (n : nat) (r : regex).

(** What a match object remembers: the text of each group that took part. *)
Abbreviation groups := (gmap nat string).

(** A continuation receives the rest of the subject and the groups so far;
    [None] makes the matcher backtrack. *)
Definition cont : Type := string -> groups -> option groups.

(** Greedy repetition: try one more round of [body] first, fall back to the
    continuation. A round that consumes nothing is not repeated, so the
    length of the subject bounds the number of rounds. *)
Fixpoint repeat_greedy (rounds : nat) (body : cont -> cont) (k : cont)
    (s : string) (g : groups) : option groups :=
  match rounds with
  | O => k s g
  | S n =>
      match body (fun s' g' =>
                    if (String.length s' <? String.length s)%nat
                    then repeat_greedy n body k s' g'
                    else None) s g with
      | Some r => Some r
      | None => k s g
      end
  end.

(** The backtracking matcher, anchored at the head of [s]. *)
Fixpoint matches (r : regex) (k : cont) (s : string) (g : groups)
    : option groups :=
  match r with
  | Dot =>
      match s with
      | String c s' => if ascii_eqb c LF then None else k s' g
      | EmptyString => None
      end
  | Lit a =>
      match s with
      | String c s' => if ascii_eqb c a then k s' g else None
      | EmptyString => None
      end
  | NotLit a =>
      match s with
      | String c s' => if ascii_eqb c a then None else k s' g
      | EmptyString => None
      end
  | Cat r1 r2 => matches r1 (matches r2 k) s g
  | Star r1 => repeat_greedy (String.length s) (matches r1) k s g
  | Plus r1 =>
      matches r1
        (fun s' g' => repeat_greedy (String.length s') (matches r1) k s' g')
        s g
  | Group n r1 =>
      matches r1 (fun s' g' => k s' (<[n := consumed s s']> g')) s g
  end.

(** [re.search(pattern, s)]: the first start position, from the left, at
    which the pattern matches; [None] when there is none. *)
Fixpoint search (r : regex) (s : string) : option groups :=
  match matches r (fun _ g => Some g) s ∅ with
  | Some g => Some g
  | None =>
      match s with
      | EmptyString => None
      | String _ s' => search r s'
      end
  end.

(** [m.group(n)]; Python's [None] for a group that took no part. *)
Definition group (m : groups) (n : nat) : option string := m !! n.

(** The pattern [r'.*/([^/]+)+'] used three times in the program. *)
Definition title_pattern : regex :=
  Cat (Star Dot) (Cat (Lit slash) (Plus (Group 1 (Plus (NotLit slash))))).

End Re.

(** *** The title pattern, read off the subject

    Plain recursive readings of what the pattern does on a subject; the
    lemmas of the section [TitleFacts] relate them to [Re.search]. *)

(** The leading run of characters other than [/], and what follows it. *)
Fixpoint span_segment (s : string) : string :=
  match s with
  | String c s' => if ascii_eqb c slash then EmptyString else String c (span_segment s')
  | EmptyString => EmptyString
  end.

Fixpoint after_segment (s : string) : string :=
  match s with
  | String c s' => if ascii_eqb c slash then s else after_segment s'
  | EmptyString => EmptyString
  end.

(** [s] starts with a [/] that a character other than [/] follows. *)
Definition segment_here (s : string) : bool :=
  match s with
  | String c (String d _) => ascii_eqb c slash && negb (ascii_eqb d slash)
  | _ => false
  end.

(** Somewhere in [s] a [/] is followed by a character other than [/]: [s]
    has a non-empty segment behind a [/]. *)
Fixpoint has_segment (s : string) : bool :=
  match s with
  | String c s' => segment_here s || has_segment s'
  | EmptyString => false
  end.

Fixpoint all_chars (p : ascii -> bool) (s : string) : bool :=
  match s with
  | String c s' => p c && all_chars p s'
  | EmptyString => true
  end.

Definition no_line_feed (s : string) : bool :=
  all_chars (fun c => negb (ascii_eqb c LF)) s.
Definition no_slash (s : string) : bool :=
  all_chars (fun c => negb (ascii_eqb c slash)) s.
Definition only_slashes (s : string) : bool :=
  all_chars (fun c => ascii_eqb c slash) s.

(** Greedy runs of [[^/]] and of [.], written as recursions on the
    subject: the longest run is tried first. *)
Fixpoint greedy_not_slash (k : Re.cont) (s : string) (g : Re.groups) : option Re.groups :=
  match s with
  | String c s' =>
      if ascii_eqb c slash then k s g
      else match greedy_not_slash k s' g with
           | Some r => Some r
           | None => k s g
           end
  | EmptyString => k s g
  end.

Fixpoint greedy_dot (k : Re.cont) (s : string) (g : Re.groups) : option Re.groups :=
  match s with
  | String c s' =>
      if ascii_eqb c LF then k s g
      else match greedy_dot k s' g with
           | Some r => Some r
           | None => k s g
           end
  | EmptyString => k s g
  end.

(* ===================================================================== *)
(** ** Python outcomes: exceptions, logging, the effect monad *)
(* ===================================================================== *)

Module Py.

(** What [requests] reports of a failed exchange: [e.strerror] and
    [str(e)]. *)
Record request_error : Type := RequestError { strerror : string; message : string }.

(** The exceptions the program can meet. [RequestException] stands for
    the whole class of that name ([ConnectionError], [Timeout],
    [HTTPError], ...), which is what the [except] clauses test. *)
Inductive exn : Type :=
  | RequestException (e : request_error)
  | ValueError (msg : string)
  | AttributeError
  | IndexError
  | ParserError
  | OSError
  | SystemExit (code : Z).

Definition is_RequestException (e : exn) : option request_error :=
  match e with
  | RequestException r => Some r
  | _ => None
  end.

(** How running a piece of code ends. [Diverge] is a loop that is still
    running when the fuel of the model is spent; no handler sees it. *)
Inductive outcome (A : Type) : Type :=
  | Return (a : A)
  | Raise (e : exn)
  | Diverge.
Arguments Return {A} a.
Arguments Raise {A} e.
Arguments Diverge {A}.

(** State and exceptions. A raised exception leaves the state as it was
    when it was raised. *)
Definition M (S A : Type) : Type := S -> outcome A * S.

Definition ret {S A} (a : A) : M S A := fun s => (Return a, s).

Definition bind {S A B} (m : M S A) (f : A -> M S B) : M S B :=
  fun s =>
    match m s with
    | (Return a, s') => f a s'
    | (Raise e, s') => (Raise e, s')
    | (Diverge, s') => (Diverge, s')
    end.

Definition raise {S A} (e : exn) : M S A := fun s => (Raise e, s).
Definition diverge {S A} : M S A := fun s => (Diverge, s).
Definition gets {S A} (f : S -> A) : M S A := fun s => (Return (f s), s).
Definition modify {S} (f : S -> S) : M S unit := fun s => (Return tt, f s).

(** Lift an optional value, raising [e] for [None]. *)
Definition or_raise {S A} (e : exn) (o : option A) : M S A :=
  match o with
  | Some a => ret a
  | None => raise e
  end.

(** [try: body / except RequestException as e: handler(e) / finally:
    return final].  The [return] of the [finally] block replaces whatever
    the [try] statement was about to do: a normal completion, a handled
    exception, or an exception still in flight. *)
Definition try_except_finally_return {S A B}
    (body : M S A) (handler : request_error -> M S unit) (final : M S B)
    : M S B :=
  fun s =>
    match body s with
    | (Return _, s') => final s'
    | (Raise e, s') =>
        match is_RequestException e with
        | Some r =>
            match handler r s' with
            | (Diverge, s'') => (Diverge, s'')
            | (_, s'') => final s''
            end
        | None => final s'
        end
    | (Diverge, s') => (Diverge, s')
    end.

End Py.

Import Py.

(** The monad is used through stdpp's notations: [x ← m; k] and [m;; k]. *)
#[global] Instance M_ret {S} : MRet (M S) := fun A a => Py.ret a.
#[global] Instance M_bind {S} : MBind (M S) := fun A B f m => Py.bind m f.

(* ===================================================================== *)
(** ** The outside world: HTTP, lxml, dateutil, the logger *)
(* ===================================================================== *)

(** A value interpolated into the URL: [offset] starts as a [str] and is
    rebound to an [int] by the loop. *)
Inductive pyval : Type :=
  | PStr (s : string)
  | PInt (n : Z).

(** [f'{v}'] *)
Definition fmt (v : pyval) : string :=
  match v with
  | PStr s => s
  | PInt n => str_of_int n
  end.

(** A [requests.Response]: the fields the program and [raise_for_status]
    read. *)
Record response : Type := Response {
  status_code : Z;
  reason : string;
  resp_url : string;
  content : string
}.

(** What [requests.get] does: raise, or hand back a response. *)
Inductive fetch_result : Type :=
  | Fault (e : request_error)
  | Answer (r : response).

(** A server: what the [k]-th request of the run (from 0) gets when it asks
    for [url]. *)
Definition server : Type := nat -> string -> fetch_result.

(** A parsed HTML document, seen through the four XPath queries the
    program runs on it. *)
Record document : Type := Document {
  (** [//ul[contains(@class,"mw-contributions-list")]//bdi/text()] *)
  xp_list_bdi : list string;
  (** [//ul[@class="mw-contributions-list"]//a[contains(@class,"mw-changeslist-date")]/text()] *)
  xp_list_dates : list string;
  (** [//a[contains(@class,"mw-changeslist-date")]/text()] *)
  xp_dates : list string;
  (** [//a[contains(@class,"mw-contributions-title")]/@href] *)
  xp_title_hrefs : list string
}.

(** A [datetime.datetime], without its sub-second and zone parts, which the
    format string does not print. *)
Record datetime : Type := Datetime {
  year : Z; month : Z; day : Z; hour : Z; minute : Z; second : Z
}.

Inductive level : Type := INFO | ERROR.

(** The part of the world a run changes: the URLs requested so far, oldest
    first, and the log. *)
Record world : Type := World {
  sent : list string;
  log : list (level * string)
}.

Definition fresh : world := World [] [].

(** An entry of the result: [(editor, timestamp, page)]. *)
Definition entry : Type := string * string * string.


(* ===================================================================== *)
(** ** Dates: [strftime('%Y%m%d%H%M%S')] and [int] *)
(* ===================================================================== *)

Fixpoint zeros (n : nat) : string :=
  match n with
  | O => EmptyString
  | S n' => String "0"%char (zeros n')
  end.

(** A decimal field of [strftime], padded with zeros on the left to width
    [w]: [%m], [%d], [%H], [%M], [%S] with [w = 2], [%Y] with [w = 4]. *)
Definition zfill (w : nat) (n : Z) : string :=
  let digits := str_of_int n in
  zeros (w - String.length digits) +:+ digits.

(** [d.strftime('%Y%m%d%H%M%S')].  C libraries differ on the padding of
    [%Y] for years below 1000; [int] drops leading zeros, so the program
    sees the same number either way. *)
Definition strftime_YmdHMS (d : datetime) : string :=
  zfill 4 (year d) +:+ zfill 2 (month d) +:+ zfill 2 (day d) +:+
  zfill 2 (hour d) +:+ zfill 2 (minute d) +:+ zfill 2 (second d).

Definition digit_value (c : ascii) : option Z :=
  let n := nat_of_ascii c in
  if (48 <=? n)%nat && (n <=? 57)%nat then Some (Z.of_nat (n - 48)) else None.

Fixpoint int_digits (acc : Z) (s : string) : option Z :=
  match s with
  | EmptyString => Some acc
  | String c s' =>
      match digit_value c with
      | Some d => int_digits (10 * acc + d) s'
      | None => None
      end
  end.

(** [int(s)] on a string of decimal digits; [None] is the [ValueError] of
    a string that is empty or holds another character. *)
Definition int_of_str (s : string) : option Z :=
  match s with
  | EmptyString => None
  | _ => int_digits 0 s
  end.

(** One date and time before another. *)
Definition earlier (a b : datetime) : Prop :=
  year a < year b \/ year a = year b /\
  (month a < month b \/ month a = month b /\
   (day a < day b \/ day a = day b /\
    (hour a < hour b \/ hour a = hour b /\
     (minute a < minute b \/ minute a = minute b /\ second a < second b)))).

(** [zfill w] prints every number below [bound] on exactly [w] digits that
    [int] reads back; a check to be run once for the two widths in use. *)
Definition zfill_reads_back (w : nat) (bound : Z) : bool :=
  forallb (fun k =>
             match int_digits 0 (zfill w (Z.of_nat k)) with
             | Some v => (v =? Z.of_nat k) && (String.length (zfill w (Z.of_nat k)) =? w)%nat
             | None => false
             end) (seq 0 (Z.to_nat bound)).

(** The ranges the [datetime] type itself enforces. *)
Definition valid_datetime (d : datetime) : Prop :=
  1 <= year d <= 9999 /\ 1 <= month d <= 12 /\ 1 <= day d <= 31 /\
  0 <= hour d <= 23 /\ 0 <= minute d <= 59 /\ 0 <= second d <= 59.

(** The numeral yyyyMMddHHmmss. *)
Definition numeral_yyyyMMddHHmmss (d : datetime) : Z :=
  year d * 10000000000 + month d * 100000000 + day d * 1000000 +
  hour d * 10000 + minute d * 100 + second d.

(* ===================================================================== *)
(** ** [get_page_history] and [get_user_edit_history] *)
(* ===================================================================== *)

Module Rhizo.

(** The local variables the loops rebind. *)
Record frame : Type := Frame {
  offset : pyval;
  url : string;
  all_entries : list entry
}.

(** A call in progress: the world and the locals of the call. *)
Record machine : Type := Machine { env : world; vars : frame }.

Definition set_offset (v : pyval) (m : machine) : machine :=
  Machine (env m) (Frame v (url (vars m)) (all_entries (vars m))).
Definition set_url (u : string) (m : machine) : machine :=
  Machine (env m) (Frame (offset (vars m)) u (all_entries (vars m))).
Definition set_all_entries (es : list entry) (m : machine) : machine :=
  Machine (env m) (Frame (offset (vars m)) (url (vars m)) es).

Definition log_line (l : level) (msg : string) (w : world) : world :=
  World (sent w) (log w ++ [(l, msg)]).

(** [logger.info], [logger.error] outside and inside a call. *)
Definition logger_w (l : level) (msg : string) : M world unit :=
  modify (log_line l msg).
Definition logger (l : level) (msg : string) : M machine unit :=
  modify (fun m => Machine (log_line l msg (env m)) (vars m)).

(** Run the body of a call on fresh locals. *)
Definition with_frame {A} (f : frame) (body : M machine A) : M world A :=
  fun w => let '(r, m) := body (Machine w f) in (r, env m).

(** [zip] of two columns against a fixed page title. *)
Definition zip_page (title : string) (editors edit_times : list string)
    : list entry :=
  (fun et : string * string => (et.1, et.2, title)) <$> zip editors edit_times.

(** [zip] of two columns against a fixed editor. *)
Definition zip_user (username : string) (edit_times titles : list string)
    : list entry :=
  (fun tt : string * string => (username, tt.1, tt.2)) <$> zip edit_times titles.

(** [re.search(title_from_url_pattern, url).group(1)]: calling [group] on
    the [None] of a failed search is an [AttributeError]. A group that took
    no part would give Python's [None]; the outer [option] is the search,
    the inner one the group. *)
Definition search_group1 (s : string) : option (option string) :=
  (fun m => Re.group m 1) <$> Re.search Re.title_pattern s.

(** [str(x)] of a value that may be [None]. *)
Definition str_or_None (o : option string) : string := default "None" o.

(** The list comprehension over the hrefs of a contributions page. *)
Fixpoint titles_of_hrefs (hrefs : list string) : option (list string) :=
  match hrefs with
  | [] => Some []
  | h :: hrefs' =>
      match search_group1 h with
      | None => None
      | Some t =>
          match titles_of_hrefs hrefs' with
          | None => None
          | Some ts => Some (str_or_None t :: ts)
          end
      end
  end.

Definition history_url (title : string) (offset : pyval) (limit : Z) : string :=
  "https://en.wikipedia.org/w/index.php?title=" +:+ title +:+
  "&action=history&offset=" +:+ fmt offset +:+ "&limit=" +:+ str_of_int limit.

Definition base_url : string := "https://en.wikipedia.org/w/index.php".
Definition contributions_url : string := "Special:Contributions".

Definition contributions_wiki_url (username : string) (offset : pyval)
    (limit : Z) : string :=
  base_url +:+ "?title=" +:+ contributions_url +:+ "&target=" +:+ username +:+
  "&limit=" +:+ str_of_int limit +:+ "&offset=" +:+ fmt offset.

(** [Response.raise_for_status]: an [HTTPError], which is a
    [RequestException], for a status from 400 to 599. *)
Definition http_error_msg (r : response) : option string :=
  if ((400 <=? status_code r) && (status_code r <? 500))%Z then
    Some (str_of_int (status_code r) +:+ " Client Error: " +:+ reason r +:+
          " for url: " +:+ resp_url r)
  else if ((500 <=? status_code r) && (status_code r <? 600))%Z then
    Some (str_of_int (status_code r) +:+ " Server Error: " +:+ reason r +:+
          " for url: " +:+ resp_url r)
  else None.

Definition raise_for_status {S} (r : response) : M S unit :=
  match http_error_msg r with
  | Some msg => raise (RequestException (RequestError "None" msg))
  | None => mret tt
  end.

(** What one round of a loop makes of what the server sent:
    - [Abort e]: [e] is raised before any entry of the page is kept;
    - [Final es]: a short page, the loop ends;
    - [Broken es e]: a full page whose entries are kept, then [e] is raised
      while the next offset is computed;
    - [More es off]: a full page, the loop goes on from offset [off]. *)
Inductive verdict : Type :=
  | Abort (e : exn)
  | Final (es : list entry)
  | Broken (es : list entry) (e : exn)
  | More (es : list entry) (off : Z).

(** The entries a round appends to [all_entries]. *)
Definition kept (v : verdict) : list entry :=
  match v with
  | Abort _ => []
  | Final es | Broken es _ | More es _ => es
  end.

Definition is_more (v : verdict) : bool :=
  match v with More _ _ => true | _ => false end.
Definition is_final (v : verdict) : bool :=
  match v with Final _ => true | _ => false end.

(** The exception a round ends the loop with, if it does. *)
Definition raised (v : verdict) : option exn :=
  match v with
  | Abort e | Broken _ e => Some e
  | Final _ | More _ _ => None
  end.

(** What tells one loop from the other: its first log line, its URL, and
    its reading of an answer. *)
Record mode : Type := Mode {
  announce : pyval -> string;
  listing_url : pyval -> string;
  judge : fetch_result -> verdict
}.

(** The entries a loop keeps from a list of answers. *)
Definition records (md : mode) (rs : list fetch_result) : list entry :=
  flat_map (fun r => kept (judge md r)) rs.

(** How a loop ends on a round that is not [More]. *)
Definition ending (v : verdict) : outcome unit :=
  match raised v with
  | Some e => Raise e
  | None => Return tt
  end.

Section Run.

(** The server answering this run, lxml's [html.document_fromstring]
    ([None]: the parser rejects the body) and dateutil's [parser.parse]
    ([None]: it rejects the string). *)
Variable srv : server.
Variable document_fromstring : string -> option document.
Variable parser_parse : string -> option datetime.

(** [requests.get(u)]: the request goes out, then the server's answer
    decides between a response and an exception. *)
Definition get (u : string) : M machine response :=
  fun m =>
    let k := length (sent (env m)) in
    let m' := Machine (World (sent (env m) ++ [u]) (log (env m))) (vars m) in
    match srv k u with
    | Fault e => (Raise (RequestException e), m')
    | Answer r => (Return r, m')
    end.

(** [int(parser.parse(edit_times[-1]).strftime('%Y%m%d%H%M%S'))] *)
Definition next_offset (edit_times : list string) : M machine Z :=
  last_time ← or_raise IndexError (last edit_times);
  last_page_date ← or_raise ParserError (parser_parse last_time);
  or_raise (ValueError "invalid literal for int()")
    (int_of_str (strftime_YmdHMS last_page_date)).

(** The [while True] loop of [get_page_history]. *)
Fixpoint page_history_loop (fuel : nat) (title : string) (limit : Z)
    : M machine unit :=
  match fuel with
  | O => diverge
  | S fuel' =>
      offset_now ← gets (fun m => offset (vars m));
      logger INFO ("fetching history for page " +:+ title +:+ ", " +:+
                   str_of_int limit +:+ " entries starting at " +:+
                   fmt offset_now);;
      history_url_now ← gets (fun m => url (vars m));
      logger INFO ("Sending request to " +:+ history_url_now);;
      response ← get history_url_now;
      document ← or_raise ParserError (document_fromstring (content response));
      let editors := xp_list_bdi document in
      let edit_times := xp_list_dates document in
      let page_entries := zip_page title editors edit_times in
      so_far ← gets (fun m => all_entries (vars m));
      modify (set_all_entries (so_far ++ page_entries));;
      if (Z.of_nat (length page_entries) <? limit)%Z then mret tt
      else
        new_offset ← next_offset edit_times;
        modify (set_offset (PInt new_offset));;
        modify (set_url (history_url title (PInt new_offset) limit));;
        page_history_loop fuel' title limit
  end.

Definition get_page_history (fuel : nat) (wiki_url : string)
    (offset : pyval) (limit : Z) : M world (list entry) :=
  match Re.search Re.title_pattern wiki_url with
  | None =>
      logger_w ERROR "No title found";;
      raise (ValueError "No title found")
  | Some page_match =>
      let title := str_or_None (Re.group page_match 1) in
      with_frame (Frame offset (history_url title offset limit) [])
        (try_except_finally_return
           (page_history_loop fuel title limit)
           (fun e =>
              logger ERROR (strerror e);;
              logger ERROR "error fetching page, restart at last offset")
           (gets (fun m => all_entries (vars m))))
  end.

(** The [while True] loop of [get_user_edit_history]. *)
Fixpoint user_history_loop (fuel : nat) (username : string) (limit : Z)
    : M machine unit :=
  match fuel with
  | O => diverge
  | S fuel' =>
      offset_now ← gets (fun m => offset (vars m));
      logger INFO ("fetching history for " +:+ username +:+ ", " +:+
                   str_of_int limit +:+ " entries starting at " +:+
                   fmt offset_now);;
      wiki_url_now ← gets (fun m => url (vars m));
      logger INFO ("Sending request to " +:+ wiki_url_now);;
      response ← get wiki_url_now;
      raise_for_status response;;
      document ← or_raise ParserError (document_fromstring (content response));
      let edit_times := xp_dates document in
      edit_page_titles ←
        or_raise AttributeError (titles_of_hrefs (xp_title_hrefs document));
      let page_entries := zip_user username edit_times edit_page_titles in
      so_far ← gets (fun m => all_entries (vars m));
      modify (set_all_entries (so_far ++ page_entries));;
      if (Z.of_nat (length page_entries) <? limit)%Z then mret tt
      else
        new_offset ← next_offset edit_times;
        modify (set_offset (PInt new_offset));;
        modify (set_url (contributions_wiki_url username (PInt new_offset) limit));;
        user_history_loop fuel' username limit
  end.

Definition get_user_edit_history (fuel : nat) (username : string)
    (offset : pyval) (limit : Z) : M world (list entry) :=
  with_frame (Frame offset (contributions_wiki_url username offset limit) [])
    (try_except_finally_return
       (user_history_loop fuel username limit)
       (fun e =>
          logger ERROR "error fetching page, restart at last offset";;
          logger ERROR (message e))
       (gets (fun m => all_entries (vars m)))).

(** *** The two loops as one

    Both loops have the same shape. [paginate] is that shape, with the
    round read off as a [verdict]; the lemmas [page_history_loop_paginate]
    and [user_history_loop_paginate] show that each loop of the source is
    an instance of it. *)

Definition offset_after (edit_times : list string) : exn + Z :=
  match last edit_times with
  | None => inl IndexError
  | Some last_time =>
      match parser_parse last_time with
      | None => inl ParserError
      | Some d =>
          match int_of_str (strftime_YmdHMS d) with
          | None => inl (ValueError "invalid literal for int()")
          | Some n => inr n
          end
      end
  end.

Definition judge_entries (limit : Z) (page_entries : list entry)
    (edit_times : list string) : verdict :=
  if (Z.of_nat (length page_entries) <? limit)%Z then Final page_entries
  else
    match offset_after edit_times with
    | inl e => Broken page_entries e
    | inr off => More page_entries off
    end.

Definition page_verdict (title : string) (limit : Z) (r : fetch_result)
    : verdict :=
  match r with
  | Fault e => Abort (RequestException e)
  | Answer resp =>
      match document_fromstring (content resp) with
      | None => Abort ParserError
      | Some doc =>
          judge_entries limit
            (zip_page title (xp_list_bdi doc) (xp_list_dates doc))
            (xp_list_dates doc)
      end
  end.

Definition user_verdict (username : string) (limit : Z) (r : fetch_result)
    : verdict :=
  match r with
  | Fault e => Abort (RequestException e)
  | Answer resp =>
      match http_error_msg resp with
      | Some msg => Abort (RequestException (RequestError "None" msg))
      | None =>
          match document_fromstring (content resp) with
          | None => Abort ParserError
          | Some doc =>
              match titles_of_hrefs (xp_title_hrefs doc) with
              | None => Abort AttributeError
              | Some titles =>
                  judge_entries limit
                    (zip_user username (xp_dates doc) titles) (xp_dates doc)
              end
          end
      end
  end.

Definition page_mode (title : string) (limit : Z) : mode :=
  Mode (fun off => "fetching history for page " +:+ title +:+ ", " +:+
                   str_of_int limit +:+ " entries starting at " +:+ fmt off)
       (fun off => history_url title off limit)
       (page_verdict title limit).

Definition user_mode (username : string) (limit : Z) : mode :=
  Mode (fun off => "fetching history for " +:+ username +:+ ", " +:+
                   str_of_int limit +:+ " entries starting at " +:+ fmt off)
       (fun off => contributions_wiki_url username off limit)
       (user_verdict username limit).

(** The state after the two log lines and the request of a round. *)
Definition requested (md : mode) (m : machine) : world :=
  World (sent (env m) ++ [url (vars m)])
        ((log (env m) ++ [(INFO, announce md (offset (vars m)))]) ++
         [(INFO, "Sending request to " +:+ url (vars m))]).

Fixpoint paginate (md : mode) (fuel : nat) (m : machine)
    : outcome unit * machine :=
  match fuel with
  | O => (Diverge, m)
  | S fuel' =>
      let w := requested md m in
      let f := vars m in
      match judge md (srv (length (sent (env m))) (url f)) with
      | Abort e => (Raise e, Machine w f)
      | Final es =>
          (Return tt, Machine w (Frame (offset f) (url f) (all_entries f ++ es)))
      | Broken es e =>
          (Raise e, Machine w (Frame (offset f) (url f) (all_entries f ++ es)))
      | More es off =>
          paginate md fuel'
            (Machine w (Frame (PInt off) (listing_url md (PInt off))
                              (all_entries f ++ es)))
      end
  end.

(** The answers to the requests [us], the first of which is request
    number [k] of the run. *)
Fixpoint answers (k : nat) (us : list string) : list fetch_result :=
  match us with
  | [] => []
  | u :: us' => srv k u :: answers (S k) us'
  end.

(** The answers the requests of a run got, oldest first. *)
Definition fetched (w : world) : list fetch_result := answers 0 (sent w).

End Run.

(** What the [except] clause of each function leaves in the log. *)
Definition page_handled (e : exn) (w : world) : world :=
  match is_RequestException e with
  | Some r =>
      log_line ERROR "error fetching page, restart at last offset"
        (log_line ERROR (strerror r) w)
  | None => w
  end.

Definition user_handled (e : exn) (w : world) : world :=
  match is_RequestException e with
  | Some r =>
      log_line ERROR (message r)
        (log_line ERROR "error fetching page, restart at last offset" w)
  | None => w
  end.

(** What the [try] statement makes of the way its loop ended. *)
Definition finish (handled : exn -> world -> world)
    (rm : outcome unit * machine) : outcome (list entry) * world :=
  match rm with
  | (Return _, m) => (Return (all_entries (vars m)), env m)
  | (Raise e, m) => (Return (all_entries (vars m)), handled e (env m))
  | (Diverge, m) => (Diverge, env m)
  end.

(** The title a successful search gives. *)
Definition page_title (page_match : Re.groups) : string :=
  str_or_None (Re.group page_match 1).

(** [requests.get] raised. *)
Definition is_fault (r : fetch_result) : bool :=
  match r with
  | Fault _ => true
  | Answer _ => false
  end.

(** [requests.get] raised, or [raise_for_status] did. *)
Definition is_http_fault (r : fetch_result) : bool :=
  match r with
  | Fault _ => true
  | Answer resp =>
      match http_error_msg resp with
      | Some _ => true
      | None => false
      end
  end.

(** The two columns a round extracts from an answer, when it gets that
    far: editors and timestamps in page mode, timestamps and page titles in
    user mode. *)
Definition page_columns (document_fromstring : string -> option document)
    (r : fetch_result) : option (list string * list string) :=
  match r with
  | Fault _ => None
  | Answer resp =>
      match document_fromstring (content resp) with
      | None => None
      | Some doc => Some (xp_list_bdi doc, xp_list_dates doc)
      end
  end.

Definition user_columns (document_fromstring : string -> option document)
    (r : fetch_result) : option (list string * list string) :=
  match r with
  | Fault _ => None
  | Answer resp =>
      match http_error_msg resp with
      | Some _ => None
      | None =>
          match document_fromstring (content resp) with
          | None => None
          | Some doc =>
              match titles_of_hrefs (xp_title_hrefs doc) with
              | None => None
              | Some titles => Some (xp_dates doc, titles)
              end
          end
      end
  end.

(** The length of the shorter column; 0 when no columns were extracted. *)
Definition common_length (columns : option (list string * list string)) : nat :=
  match columns with
  | Some (a, b) => Nat.min (length a) (length b)
  | None => 0%nat
  end.

(** A contributions page that answers and parses, with a link in which the
    title pattern finds nothing. *)
Definition link_astray (document_fromstring : string -> option document)
    (r : fetch_result) : bool :=
  match r with
  | Fault _ => false
  | Answer resp =>
      match http_error_msg resp with
      | Some _ => false
      | None =>
          match document_fromstring (content resp) with
          | None => false
          | Some doc =>
              existsb (fun href => negb (has_segment href)) (xp_title_hrefs doc)
          end
      end
  end.

(** Two answers with the same body: both are the same exception, or both
    are responses with the same content, whatever their status lines. *)
Definition same_body (r r' : fetch_result) : Prop :=
  match r, r' with
  | Fault e, Fault e' => e = e'
  | Answer a, Answer a' => content a = content a'
  | _, _ => False
  end.

(** The number of entries a round keeps. *)
Definition count (md : mode) (r : fetch_result) : Z :=
  Z.of_nat (length (kept (judge md r))).

(** A round goes on only after a page of at least [limit] entries, and
    ends normally only on a page of fewer. *)
Definition counts_by_limit (md : mode) (limit : Z) : Prop :=
  forall r,
    (is_more (judge md r) = true -> limit <= count md r) /\
    (is_final (judge md r) = true -> count md r < limit).

(** The locals a call starts from. *)
Definition start (md : mode) (offset : pyval) (w : world) : machine :=
  Machine w (Frame offset (listing_url md offset) []).

End Rhizo.

Import Rhizo.

(* ===================================================================== *)
(** ** The [csv] module, default dialect, and the file store *)
(* ===================================================================== *)

Module Csv.

(** [csv] is Python's own module, not a part of the program: the writer
    and the reader below follow what CPython's [_csv] does for the default
    dialect.  The program only writes; the reader is here to say what
    reading the file back, from a file opened with [newline=''], gives. *)

(** The dialect is [excel]: delimiter [,], quote character the double
    quote, quotes doubled inside a quoted field, minimal quoting, line
    terminator CR LF, no escape character, no skipping of spaces, not
    strict. *)

(** *** Writing *)

(** The characters that make the writer quote a field: the delimiter, the
    quote character and the characters of the line terminator. *)
Definition special (c : ascii) : bool :=
  ascii_eqb c comma || ascii_eqb c dquote || ascii_eqb c CR || ascii_eqb c LF.

Fixpoint has_special (s : string) : bool :=
  match s with
  | EmptyString => false
  | String c s' => special c || has_special s'
  end.

(** The characters of a field as they are copied out, each quote
    character doubled. *)
Fixpoint doubled (s : string) : string :=
  match s with
  | EmptyString => EmptyString
  | String c s' =>
      if ascii_eqb c dquote then String dquote (String dquote (doubled s'))
      else String c (doubled s')
  end.

(** Whether a field goes out in quotes: it holds a special character, or
    it is empty and the only field of its row. *)
Definition quoted (quote_empty : bool) (field : string) : bool :=
  has_special field ||
  match field with
  | EmptyString => quote_empty
  | _ => false
  end.

Definition join_append_data (quote_empty : bool) (field : string) : string :=
  if quoted quote_empty field
  then String dquote (doubled field +:+ String dquote EmptyString)
  else doubled field.

Fixpoint join_append (quote_empty : bool) (fields : list string) : string :=
  match fields with
  | [] => EmptyString
  | [f] => join_append_data quote_empty f
  | f :: fields' =>
      join_append_data quote_empty f +:+ String comma (join_append quote_empty fields')
  end.

Definition lineterminator : string := String CR (String LF EmptyString).

(** The text [writer.writerow(row)] hands to the file. *)
Definition writerow (row : list string) : string :=
  join_append (length row =? 1)%nat row +:+ lineterminator.

(** The text [writer.writerows(rows)] hands to the file, row after row. *)
Fixpoint writerows (rows : list (list string)) : string :=
  match rows with
  | [] => EmptyString
  | row :: rows' => writerow row +:+ writerows rows'
  end.

(** *** Reading *)

(** The states of the parser that a dialect without escape character can
    reach. *)
Inductive state : Type :=
  | START_RECORD
  | START_FIELD
  | IN_FIELD
  | IN_QUOTED_FIELD
  | QUOTE_IN_QUOTED_FIELD
  | EAT_CRNL.

Definition state_eqb (a b : state) : bool :=
  match a, b with
  | START_RECORD, START_RECORD | START_FIELD, START_FIELD | IN_FIELD, IN_FIELD
  | IN_QUOTED_FIELD, IN_QUOTED_FIELD
  | QUOTE_IN_QUOTED_FIELD, QUOTE_IN_QUOTED_FIELD | EAT_CRNL, EAT_CRNL => true
  | _, _ => false
  end.

(** The parser: its state, the field it is collecting and the fields of
    the record collected so far. *)
Record parser : Type := Parser {
  st : state;
  field : string;
  fields : list string
}.

(** What the parser is fed: a character of a line, or the end-of-line mark
    that follows the last character of each line. *)
Inductive token : Type :=
  | Ch (c : ascii)
  | EOL.

Definition parse_reset : parser := Parser START_RECORD EmptyString [].

Definition parse_save_field (p : parser) (next : state) : parser :=
  Parser next EmptyString (fields p ++ [field p]).

Definition parse_add_char (p : parser) (c : ascii) (next : state) : parser :=
  Parser next (field p +:+ String c EmptyString) (fields p).

Definition is_newline (c : ascii) : bool := ascii_eqb c LF || ascii_eqb c CR.

(** The case [START_FIELD] of the parser, into which [START_RECORD] falls
    through on an ordinary character. *)
Definition start_field (p : parser) (t : token) : parser :=
  match t with
  | EOL => parse_save_field p START_RECORD
  | Ch c =>
      if is_newline c then parse_save_field p EAT_CRNL
      else if ascii_eqb c dquote then Parser IN_QUOTED_FIELD (field p) (fields p)
      else if ascii_eqb c comma then parse_save_field p START_FIELD
      else parse_add_char p c IN_FIELD
  end.

(** One step of the parser; [None] is the [csv.Error] of a character
    behind the end of a record. *)
Definition parse_process_char (p : parser) (t : token) : option parser :=
  match st p with
  | START_RECORD =>
      match t with
      | EOL => Some p
      | Ch c =>
          if is_newline c then Some (Parser EAT_CRNL (field p) (fields p))
          else Some (start_field p t)
      end
  | START_FIELD => Some (start_field p t)
  | IN_FIELD =>
      match t with
      | EOL => Some (parse_save_field p START_RECORD)
      | Ch c =>
          if is_newline c then Some (parse_save_field p EAT_CRNL)
          else if ascii_eqb c comma then Some (parse_save_field p START_FIELD)
          else Some (parse_add_char p c IN_FIELD)
      end
  | IN_QUOTED_FIELD =>
      match t with
      | EOL => Some p
      | Ch c =>
          if ascii_eqb c dquote
          then Some (Parser QUOTE_IN_QUOTED_FIELD (field p) (fields p))
          else Some (parse_add_char p c IN_QUOTED_FIELD)
      end
  | QUOTE_IN_QUOTED_FIELD =>
      match t with
      | EOL => Some (parse_save_field p START_RECORD)
      | Ch c =>
          if ascii_eqb c dquote then Some (parse_add_char p c IN_QUOTED_FIELD)
          else if ascii_eqb c comma then Some (parse_save_field p START_FIELD)
          else if is_newline c then Some (parse_save_field p EAT_CRNL)
          else Some (parse_add_char p c IN_FIELD)
      end
  | EAT_CRNL =>
      match t with
      | EOL => Some (Parser START_RECORD (field p) (fields p))
      | Ch c => if is_newline c then Some p else None
      end
  end.

(** What the separator behind a field makes of it: the field is saved, and
    the parser waits for the next field, or for the end of the line. *)
Definition after_separator (d : ascii) : state :=
  if ascii_eqb d comma then START_FIELD else EAT_CRNL.

(** Whether [c] is the last character of a line of a file opened with
    [newline='']: a line ends behind LF, behind a CR that no LF follows,
    and at the end of the file. *)
Definition ends_line (c : ascii) (rest : string) : bool :=
  ascii_eqb c LF ||
  match rest with
  | EmptyString => true
  | String d _ => ascii_eqb c CR && negb (ascii_eqb d LF)
  end.

(** The reader at work on what is left of the file: each character goes
    to the parser, the end-of-line mark follows the last character of a
    line, and a parser back in [START_RECORD] behind that mark has a record
    to hand over. *)
Fixpoint feed (text : string) (p : parser) (records : list (list string))
    : option (parser * list (list string)) :=
  match text with
  | EmptyString => Some (p, records)
  | String c text' =>
      match parse_process_char p (Ch c) with
      | None => None
      | Some p1 =>
          if ends_line c text' then
            match parse_process_char p1 EOL with
            | None => None
            | Some p2 =>
                if state_eqb (st p2) START_RECORD
                then feed text' parse_reset (records ++ [fields p2])
                else feed text' p2 records
            end
          else feed text' p1 records
      end
  end.

(** The end of the input: a field under way, or an open quote, still
    makes a record. *)
Definition end_of_input (p : parser) (records : list (list string))
    : list (list string) :=
  match field p, st p with
  | String _ _, _ | _, IN_QUOTED_FIELD =>
      records ++ [fields (parse_save_field p START_RECORD)]
  | _, _ => records
  end.

(** [list(csv.reader(f))] for a file [f] of content [text]. *)
Definition reader (text : string) : option (list (list string)) :=
  match feed text parse_reset [] with
  | Some (p, records) => Some (end_of_input p records)
  | None => None
  end.

(** *** Files *)

(** The files, by path, and the paths that cannot be opened for writing
    (directories, paths under a missing directory, protected files). *)
Record filesystem : Type := Filesystem {
  files : gmap string string;
  unwritable : gset string
}.

(** [open(path, mode='w', newline='')]: the file is created or cut to
    length 0. *)
Definition open_w (path : string) : M filesystem unit :=
  fun fs =>
    if decide (path ∈ unwritable fs) then (Raise OSError, fs)
    else (Return tt, Filesystem (<[path := EmptyString]> (files fs)) (unwritable fs)).

(** [file.write(text)] on the file opened at [path]. *)
Definition file_write (path text : string) : M filesystem unit :=
  modify (fun fs =>
            Filesystem (<[path := default EmptyString (files fs !! path) +:+ text]>
                          (files fs))
                       (unwritable fs)).

Definition writer_writerow (path : string) (row : list string)
    : M filesystem unit :=
  file_write path (writerow row).

Fixpoint writer_writerows (path : string) (rows : list (list string))
    : M filesystem unit :=
  match rows with
  | [] => mret tt
  | row :: rows' => writer_writerow path row;; writer_writerows path rows'
  end.

(** A tuple of the history as the row the writer sees. *)
Definition row_of (e : entry) : list string := [e.1.1; e.1.2; e.2].

Definition headers : list string := ["editor"; "timestamp"; "page"].

Definition write_tuples_to_csv (editing_history : list entry)
    (output_file : string) : M filesystem unit :=
  open_w output_file;;
  writer_writerow output_file headers;;
  writer_writerows output_file (row_of <$> editing_history).

(** An entry none of whose fields needs quotes, and the line it makes when
    its fields are joined by commas as they are. *)
Definition plain_entry (e : entry) : bool :=
  negb (has_special e.1.1) && negb (has_special e.1.2) && negb (has_special e.2).

Definition plain_line (e : entry) : string :=
  e.1.1 +:+ String comma (e.1.2 +:+ String comma (e.2 +:+ lineterminator)).

Fixpoint plain_lines (es : list entry) : string :=
  match es with
  | [] => EmptyString
  | e :: es' => plain_line e +:+ plain_lines es'
  end.

(** Reading the file at [path] back. *)
Definition read_back (fs : filesystem) (path : string)
    : option (list (list string)) :=
  files fs !! path ≫= reader.

End Csv.

(* ===================================================================== *)
(** ** [main] *)
(* ===================================================================== *)

Module Main.

(** The namespace [parse_args] returns: an option that was not given is
    [None]. *)
Record namespace : Type := Namespace {
  user : option string;
  page : option string;
  output : option string
}.

(** The truth value of an option's value: [None] and the empty string are
    false. *)
Definition truthy (o : option string) : bool :=
  match o with
  | Some (String _ _) => true
  | _ => false
  end.

(** What goes to standard output: the argument of a [print], or the help
    text of argparse. *)
Inductive printed : Type :=
  | Line (msg : string)
  | Help.

(** The process: the network side, the files, the standard output. *)
Record process : Type := Process {
  web : world;
  disk : Csv.filesystem;
  stdout : list printed
}.

Definition in_web {A} (m : M world A) : M process A :=
  fun p => let '(r, w) := m (web p) in (r, Process w (disk p) (stdout p)).

Definition on_disk {A} (m : M Csv.filesystem A) : M process A :=
  fun p => let '(r, d) := m (disk p) in (r, Process (web p) d (stdout p)).

Definition print (x : printed) : M process unit :=
  modify (fun p => Process (web p) (disk p) (stdout p ++ [x])).

(** [sys.exit(code)] and the builtin [exit(code)] *)
Definition sys_exit {A} (code : Z) : M process A := raise (SystemExit code).

Definition bombout {A} (msg : string) : M process A :=
  in_web (logger_w ERROR msg);; sys_exit 1.

Section Main.

Variable srv : server.
Variable document_fromstring : string -> option document.
Variable parser_parse : string -> option datetime.

(** The last three statements of [main]. *)
Definition write_out (edit_history_tuples : list entry)
    (output_filename : string) : M process unit :=
  in_web (logger_w INFO
            ("fetched " +:+ str_of_int (Z.of_nat (length edit_history_tuples)) +:+
             " entries"));;
  in_web (logger_w INFO ("writing to " +:+ output_filename));;
  on_disk (Csv.write_tuples_to_csv edit_history_tuples output_filename).

(** [main()], given what [parse_args] returned.  [args.page] and
    [args.user] stand for the empty string where the branch taken has
    already found them true. *)
Definition main (fuel : nat) (args : namespace) : M process unit :=
  if negb (truthy (page args) || truthy (user args)) then
    print (Line ("Must specify either an Editor or Page" +:+ String LF EmptyString));;
    print Help;;
    sys_exit 1
  else if truthy (user args) && truthy (page args) then
    print (Line "Must specify a user OR a Page, not both!");;
    print Help;;
    sys_exit 1
  else if truthy (page args) then
    let wiki_url := default EmptyString (page args) in
    output_filename ←
      (if truthy (output args) then mret (default EmptyString (output args))
       else
         match search_group1 wiki_url with
         | Some title =>
             mret ("wiki_page_" +:+ str_or_None title +:+ "_history.csv")
         | None =>
             in_web (logger_w ERROR "Could not extract title from url");;
             sys_exit 1
         end);
    edit_history_tuples ←
      in_web (get_page_history srv document_fromstring parser_parse fuel
                wiki_url (PStr EmptyString) 500);
    write_out edit_history_tuples output_filename
  else if truthy (user args) then
    let username := default EmptyString (user args) in
    output_filename ←
      (if truthy (output args) then mret (default EmptyString (output args))
       else mret ("wiki_page_" +:+ username +:+ "_history.csv"));
    edit_history_tuples ←
      in_web (get_user_edit_history srv document_fromstring parser_parse fuel
                username (PStr EmptyString) 500);
    write_out edit_history_tuples output_filename
  else bombout "How did you even get here?".

End Main.

End Main.

(* ===================================================================== *)
(** ** Synthetic servers *)
(* ===================================================================== *)

Module Fixture.

(** A server that plays a script: the [k]-th request gets the [k]-th
    answer whatever it asks for, and a refused connection once the script
    is over. *)
Definition refused : request_error :=
  RequestError "None" "Connection refused".

Definition serve (script : list fetch_result) : server :=
  fun k _ => default (Fault refused) (script !! k).

(** Bodies are looked up by name in a table of parsed documents; a name
    that is not in the table does not parse. *)
Fixpoint html (table : list (string * document)) (body : string)
    : option document :=
  match table with
  | [] => None
  | (name, doc) :: table' =>
      if String.eqb name body then Some doc else html table' body
  end.

(** Timestamps are looked up in a table, too. *)
Fixpoint dates (table : list (string * datetime)) (text : string)
    : option datetime :=
  match table with
  | [] => None
  | (t, d) :: table' => if String.eqb t text then Some d else dates table' text
  end.

Definition ok (body : string) : fetch_result :=
  Answer (Response 200 "OK" "https://en.wikipedia.org/w/index.php" body).

Definition status (code : Z) (why body : string) : fetch_result :=
  Answer (Response code why "https://en.wikipedia.org/w/index.php" body).

(** A listing of [count] edits, all of one editor, time and page. *)
Definition listing (count : nat) : document :=
  Document (replicate count "Editor")
           (replicate count "13:02, 4 May 2011")
           (replicate count "13:02, 4 May 2011")
           (replicate count "/wiki/Some_Page").

Definition may2011 : datetime := Datetime 2011 5 4 13 2 0.
Definition jan2010 : datetime := Datetime 2010 1 1 0 0 0.

Definition calendar : list (string * datetime) :=
  [("13:02, 4 May 2011", may2011); ("00:00, 1 January 2010", jan2010)].

(** The pages of sizes 500, 500 and 137. *)
Definition pages_500_500_137 : list fetch_result :=
  [ok "p500"; ok "p500"; ok "p137"].
Definition bodies_500_137 : list (string * document) :=
  [("p500", listing 500); ("p137", listing 137)].

(** Small pages for a limit of 2. [lopsided] has one editor and two
    timestamps; [stale] has timestamps dateutil rejects; [astray] has a
    link without a segment. *)
Definition full : document :=
  Document ["Ann"; "Bob"]
           ["13:02, 4 May 2011"; "00:00, 1 January 2010"]
           ["13:02, 4 May 2011"; "00:00, 1 January 2010"]
           ["/wiki/Foo"; "/wiki/Bar"].
Definition short : document :=
  Document ["Cyd"] ["00:00, 1 January 2010"] ["00:00, 1 January 2010"]
           ["/wiki/Baz"].
Definition lopsided : document :=
  Document ["Ann"]
           ["13:02, 4 May 2011"; "00:00, 1 January 2010"]
           ["13:02, 4 May 2011"; "00:00, 1 January 2010"]
           ["/wiki/Foo"].
Definition stale : document :=
  Document ["Ann"; "Bob"] ["yesterday"; "some time ago"]
           ["yesterday"; "some time ago"] ["/wiki/Foo"; "/wiki/Bar"].
Definition astray : document :=
  Document ["Ann"; "Bob"]
           ["13:02, 4 May 2011"; "00:00, 1 January 2010"]
           ["13:02, 4 May 2011"; "00:00, 1 January 2010"]
           ["/wiki/Foo"; "Bar"].

Definition bodies : list (string * document) :=
  [("full", full); ("short", short); ("lopsided", lopsided);
   ("stale", stale); ("astray", astray)].

Definition troublesome : string :=
  "https://en.wikipedia.org/wiki/A_Troublesome_Inheritance".

End Fixture.

(* ===================================================================== *)
(** * Facts about the loops *)
(* ===================================================================== *)

Section LoopFacts.

Variable srv : server.
Variable document_fromstring : string -> option document.
Variable parser_parse : string -> option datetime.

Local Abbreviation page_md := (page_mode document_fromstring parser_parse).
Local Abbreviation user_md := (user_mode document_fromstring parser_parse).

Lemma next_offset_offset_after edit_times (m : machine) :
  next_offset parser_parse edit_times m =
  match offset_after parser_parse edit_times with
  | inl e => (Raise e, m)
  | inr off => (Return off, m)
  end.
Proof.
  unfold next_offset, offset_after, mbind, M_bind, Py.bind, or_raise.
  destruct (last edit_times) as [t|]; simpl; [|reflexivity].
  destruct (parser_parse t) as [d|]; simpl; [|reflexivity].
  destruct (int_of_str (strftime_YmdHMS d)); reflexivity.
Qed.

(** The loop of [get_page_history] is [paginate] in page mode. *)
Lemma page_history_loop_paginate fuel title limit m :
  page_history_loop srv document_fromstring parser_parse fuel title limit m =
  paginate srv (page_md title limit) fuel m.
Proof.
  revert m. induction fuel as [|fuel IH]; intros m; [reflexivity|].
  destruct m as [[snt lg] [off u acc]].
  cbn [page_history_loop paginate].
  unfold mbind, M_bind, Py.bind, gets, logger, modify, get, requested, log_line.
  cbn [env vars sent log offset url all_entries page_mode judge page_verdict
       announce listing_url].
  destruct (srv (length snt) u) as [e|resp]; [reflexivity|].
  cbn [page_verdict].
  destruct (document_fromstring (content resp)) as [doc|]; [|reflexivity].
  cbn [or_raise Py.ret Py.raise set_all_entries env vars offset url all_entries].
  unfold judge_entries.
  destruct (Z.of_nat _ <? limit)%Z; [reflexivity|].
  rewrite next_offset_offset_after.
  destruct (offset_after parser_parse (xp_list_dates doc)) as [e|n]; [reflexivity|].
  cbn [set_offset set_url env vars offset url all_entries].
  apply IH.
Qed.

(** The loop of [get_user_edit_history] is [paginate] in user mode. *)
Lemma user_history_loop_paginate fuel username limit m :
  user_history_loop srv document_fromstring parser_parse fuel username limit m =
  paginate srv (user_md username limit) fuel m.
Proof.
  revert m. induction fuel as [|fuel IH]; intros m; [reflexivity|].
  destruct m as [[snt lg] [off u acc]].
  cbn [user_history_loop paginate].
  unfold mbind, M_bind, Py.bind, gets, logger, modify, get, requested, log_line.
  cbn [env vars sent log offset url all_entries user_mode judge user_verdict
       announce listing_url].
  destruct (srv (length snt) u) as [e|resp]; [reflexivity|].
  cbn [user_verdict]. unfold raise_for_status.
  destruct (http_error_msg resp) as [msg|]; [reflexivity|].
  cbn [mret M_ret Py.ret].
  destruct (document_fromstring (content resp)) as [doc|]; [|reflexivity].
  cbn [or_raise Py.ret Py.raise].
  destruct (titles_of_hrefs (xp_title_hrefs doc)) as [titles|]; [|reflexivity].
  cbn [or_raise Py.ret set_all_entries env vars offset url all_entries].
  unfold judge_entries.
  destruct (Z.of_nat _ <? limit)%Z; [reflexivity|].
  rewrite next_offset_offset_after.
  destruct (offset_after parser_parse (xp_dates doc)) as [e|n]; [reflexivity|].
  cbn [set_offset set_url env vars offset url all_entries].
  apply IH.
Qed.

End LoopFacts.

Section PaginateFacts.

Variable srv : server.
Variable md : mode.

Lemma answers_app k us vs :
  answers srv k (us ++ vs) = answers srv k us ++ answers srv (k + length us) vs.
Proof.
  revert k. induction us as [|u us IH]; intros k; simpl.
  - f_equal. lia.
  - rewrite IH. do 3 f_equal. lia.
Qed.

Lemma length_answers k us : length (answers srv k us) = length us.
Proof. revert k. induction us as [|u us IH]; intros k; simpl; [|rewrite IH]; reflexivity. Qed.

Lemma lookup_answers k us i :
  answers srv k us !! i = srv (k + i)%nat <$> us !! i.
Proof.
  revert k i. induction us as [|u us IH]; intros k [|i]; simpl; try reflexivity.
  - do 2 f_equal. lia.
  - rewrite IH. destruct (us !! i); simpl; [|reflexivity]. do 2 f_equal. lia.
Qed.

Lemma records_app rs1 rs2 :
  records md (rs1 ++ rs2) = records md rs1 ++ records md rs2.
Proof. unfold records. apply flat_map_app. Qed.

(** One round that is not [More] ends the loop. *)
Lemma paginate_stop fuel m :
  is_more (judge md (srv (length (sent (env m))) (url (vars m)))) = false ->
  paginate srv md (S fuel) m =
  (ending (judge md (srv (length (sent (env m))) (url (vars m)))),
   Machine (requested md m)
     (Frame (offset (vars m)) (url (vars m))
        (all_entries (vars m) ++
         kept (judge md (srv (length (sent (env m))) (url (vars m))))))).
Proof.
  intros Hv. cbn [paginate].
  destruct (judge md _) as [e|es|es e|es off]; try discriminate; simpl;
    rewrite ?app_nil_r; destruct m as [w []]; reflexivity.
Qed.

(** [n] rounds on full pages: the loop is where it started, [n] requests
    and their entries later. *)
Lemma paginate_more n : forall fuel m,
  (forall i u, (i < n)%nat ->
     is_more (judge md (srv (length (sent (env m)) + i)%nat u)) = true) ->
  exists m_n us,
    paginate srv md (n + fuel) m = paginate srv md fuel m_n /\
    length us = n /\
    sent (env m_n) = sent (env m) ++ us /\
    all_entries (vars m_n) =
      all_entries (vars m) ++
      records md (answers srv (length (sent (env m))) us).
Proof.
  induction n as [|n IH]; intros fuel m Hfull.
  - exists m, []. simpl. rewrite !app_nil_r. auto.
  - cbn [Nat.add paginate].
    pose proof (Hfull 0%nat (url (vars m)) ltac:(lia)) as H0.
    rewrite Nat.add_0_r in H0.
    destruct (judge md (srv (length (sent (env m))) (url (vars m))))
      as [e|es|es e|es off] eqn:Hj; try discriminate.
    set (m1 := Machine _ _).
    destruct (IH fuel m1) as (m_n & us & Hrun & Hlen & Hsent & Hall).
    { intros i u Hi. subst m1. cbn [env requested sent].
      rewrite length_app. cbn [length].
      replace (length (sent (env m)) + 1 + i)%nat
        with (length (sent (env m)) + S i)%nat by lia.
      apply Hfull. lia. }
    exists m_n, (url (vars m) :: us). split; [exact Hrun|].
    split; [simpl; lia|].
    subst m1. cbn [env vars requested sent all_entries] in Hsent, Hall.
    split.
    + rewrite Hsent, <- app_assoc. reflexivity.
    + rewrite Hall, <- app_assoc. f_equal.
      cbn [answers]. unfold records at 2. cbn [flat_map].
      rewrite Hj. cbn [kept]. f_equal.
      rewrite length_app. cbn [length].
      replace (length (sent (env m)) + 1)%nat with (S (length (sent (env m)))) by lia.
      reflexivity.
Qed.

(** What any run of the loop leaves behind: the requests [us] it sent,
    the entries it kept, how much fuel it used, how each URL follows from
    the page before it, and how it ended. *)
Lemma paginate_trace fuel : forall m r m',
  paginate srv md fuel m = (r, m') ->
  exists us,
    sent (env m') = sent (env m) ++ us /\
    all_entries (vars m') =
      all_entries (vars m) ++
      records md (answers srv (length (sent (env m))) us) /\
    (length us <= fuel)%nat /\
    (r = Diverge -> length us = fuel) /\
    (forall u, us !! 0%nat = Some u -> u = url (vars m)) /\
    (forall i u u', us !! i = Some u -> us !! S i = Some u' ->
       exists es off,
         judge md (srv (length (sent (env m)) + i)%nat u) = More es off /\
         u' = listing_url md (PInt off)) /\
    (r <> Diverge ->
       exists u, last us = Some u /\
         is_more (judge md (srv (length (sent (env m)) + length us - 1)%nat u))
           = false /\
         r = ending (judge md (srv (length (sent (env m)) + length us - 1)%nat u))).
Proof.
  induction fuel as [|fuel IH]; intros m r m' Hrun.
  - cbn [paginate] in Hrun. inversion Hrun; subst. exists [].
    rewrite !app_nil_r. repeat split; auto; try discriminate; try congruence.
  - destruct (is_more (judge md (srv (length (sent (env m))) (url (vars m)))))
      eqn:Hmore.
    + cbn [paginate] in Hrun.
      destruct (judge md (srv (length (sent (env m))) (url (vars m))))
        as [e|es|es e|es off] eqn:Hj; try discriminate.
      set (m1 := Machine _ _) in Hrun.
      destruct (IH m1 r m' Hrun)
        as (us & Hsent & Hall & Hle & Hdiv & Hhead & Hnext & Hlast).
      assert (Hk : length (sent (env m1)) = S (length (sent (env m)))).
      { subst m1. cbn [env requested sent]. rewrite length_app. simpl. lia. }
      rewrite Hk in Hall, Hnext, Hlast.
      subst m1. cbn [env vars requested sent all_entries url] in Hsent, Hall, Hhead.
      exists (url (vars m) :: us). repeat split.
      * rewrite Hsent, <- app_assoc. reflexivity.
      * rewrite Hall, <- app_assoc. f_equal.
        cbn [answers]. unfold records at 2. cbn [flat_map].
        rewrite Hj. reflexivity.
      * simpl. lia.
      * intros Hd. simpl. rewrite (Hdiv Hd). reflexivity.
      * intros u Hu. simpl in Hu. congruence.
      * intros [|i] u u' Hu Hu'; simpl in Hu, Hu'.
        -- inversion Hu; subst u. exists es, off.
           rewrite Nat.add_0_r. split; [exact Hj|]. apply Hhead, Hu'.
        -- destruct (Hnext i u u' Hu Hu') as (es' & off' & Hj' & Hu'').
           exists es', off'. split; [|exact Hu''].
           replace (length (sent (env m)) + S i)%nat
             with (S (length (sent (env m))) + i)%nat by lia. exact Hj'.
      * intros Hnd. destruct (Hlast Hnd) as (u & Hl & Hnm & Hr).
        exists u. cbn [length].
        replace (length (sent (env m)) + S (length us) - 1)%nat
          with (S (length (sent (env m))) + length us - 1)%nat by lia.
        split; [|split; assumption].
        destruct us as [|u0 us]; [discriminate|]. exact Hl.
    + rewrite paginate_stop in Hrun by exact Hmore.
      inversion Hrun; subst; clear Hrun.
      exists [url (vars m)]. cbn [env vars requested sent all_entries length].
      replace (length (sent (env m)) + 1 - 1)%nat with (length (sent (env m))) by lia.
      repeat split.
      * unfold records. simpl. rewrite app_nil_r. reflexivity.
      * lia.
      * intros Hd. unfold ending in Hd.
        destruct (raised _); discriminate.
      * intros u Hu. simpl in Hu. congruence.
      * intros [|i] u u' Hu Hu'; simpl in Hu'; discriminate.
      * intros _. exists (url (vars m)). auto.
Qed.

End PaginateFacts.

(* ===================================================================== *)
(** * Facts about the title pattern *)
(* ===================================================================== *)

Section TitleFacts.

Import Re.

Local Abbreviation k_done := (fun (_ : string) (g : groups) => Some g).
Local Abbreviation seg_re := (Plus (NotLit slash)).
Local Abbreviation tail_re :=
  (Cat (Lit slash) (Plus (Group 1 (Plus (NotLit slash))))).

Lemma ascii_eqb_eq a b : ascii_eqb a b = true <-> a = b.
Proof. apply Ascii.eqb_eq. Qed.

Lemma length_take_str_app a b :
  take_str (String.length (a +:+ b) - String.length b) (a +:+ b) = a.
Proof.
  induction a as [|c a IH]; simpl.
  - rewrite Nat.sub_diag. destruct b; reflexivity.
  - assert (H : (S (String.length (a +:+ b)) - String.length b =
                 S (String.length (a +:+ b) - String.length b))%nat).
    { clear. assert (String.length b <= String.length (a +:+ b))%nat.
      { induction a; simpl; lia. }
      lia. }
    rewrite H. simpl. rewrite IH. reflexivity.
Qed.

Lemma span_after s : span_segment s +:+ after_segment s = s.
Proof.
  induction s as [|c s IH]; simpl; [reflexivity|].
  destruct (ascii_eqb c slash); simpl; [reflexivity|]. rewrite IH. reflexivity.
Qed.

Lemma consumed_span c s :
  consumed (String c s) (after_segment s) = String c (span_segment s).
Proof.
  unfold consumed.
  rewrite <- (span_after s) at 1 3.
  apply (length_take_str_app (String c (span_segment s)) (after_segment s)).
Qed.

Lemma repeat_not_slash n : forall k s g,
  (String.length s <= n)%nat ->
  repeat_greedy n (matches (NotLit slash)) k s g = greedy_not_slash k s g.
Proof.
  induction n as [|n IH]; intros k s g Hn.
  - destruct s; [reflexivity|simpl in Hn; lia].
  - destruct s as [|c s]; [reflexivity|].
    cbn [repeat_greedy matches greedy_not_slash].
    destruct (ascii_eqb c slash); [reflexivity|].
    assert (Hlt : (String.length s <? String.length (String c s))%nat = true).
    { apply Nat.ltb_lt. simpl. lia. }
    rewrite Hlt, IH by (simpl in Hn; lia). reflexivity.
Qed.

Lemma repeat_dot n : forall k s g,
  (String.length s <= n)%nat ->
  repeat_greedy n (matches Dot) k s g = greedy_dot k s g.
Proof.
  induction n as [|n IH]; intros k s g Hn.
  - destruct s; [reflexivity|simpl in Hn; lia].
  - destruct s as [|c s]; [reflexivity|].
    cbn [repeat_greedy matches greedy_dot].
    destruct (ascii_eqb c LF); [reflexivity|].
    assert (Hlt : (String.length s <? String.length (String c s))%nat = true).
    { apply Nat.ltb_lt. simpl. lia. }
    rewrite Hlt, IH by (simpl in Hn; lia). reflexivity.
Qed.

(** The longest run wins as soon as the continuation accepts it. *)
Lemma greedy_not_slash_longest k s g r :
  k (after_segment s) g = Some r ->
  greedy_not_slash k s g = Some r.
Proof.
  induction s as [|c s IH]; simpl; [auto|].
  destruct (ascii_eqb c slash); [auto|].
  intros H. rewrite (IH H). reflexivity.
Qed.

Lemma after_segment_head s c t :
  after_segment s = String c t -> ascii_eqb c slash = true.
Proof.
  induction s as [|d s IH]; simpl; [discriminate|].
  destruct (ascii_eqb d slash) eqn:Ed; [|exact IH].
  intros E. inversion E; subst. exact Ed.
Qed.

(** The pattern behind [.*], anchored: a [/], then the whole segment,
    which is what group 1 holds. *)
Lemma tail_re_spec s g :
  matches tail_re k_done s g =
  if segment_here s then
    match s with
    | String _ (String d s'') => Some (<[1%nat := String d (span_segment s'')]> g)
    | _ => None
    end
  else None.
Proof.
  destruct s as [|c [|d s'']]; cbn [matches segment_here].
  - reflexivity.
  - destruct (ascii_eqb c slash); reflexivity.
  - destruct (ascii_eqb c slash); [|reflexivity].
    destruct (ascii_eqb d slash) eqn:Ed; [reflexivity|].
    cbn [andb negb].
    rewrite repeat_not_slash by lia.
    erewrite greedy_not_slash_longest; [reflexivity|].
    cbv beta.
    rewrite consumed_span.
    destruct (String.length (after_segment s'')) eqn:El; cbn [repeat_greedy].
    + reflexivity.
    + destruct (after_segment s'') as [|c0 t] eqn:E; [discriminate El|].
      rewrite (after_segment_head _ _ _ E). reflexivity.
Qed.

Lemma title_pattern_anchored s g :
  matches title_pattern k_done s g = greedy_dot (matches tail_re k_done) s g.
Proof. cbn [matches title_pattern]. apply repeat_dot. lia. Qed.

Lemma greedy_dot_none s g :
  has_segment s = false -> greedy_dot (matches tail_re k_done) s g = None.
Proof.
  induction s as [|c s IH]; intros H.
  - cbn [greedy_dot]. rewrite tail_re_spec. reflexivity.
  - cbn [has_segment] in H. apply orb_false_iff in H as [Hh Ht].
    cbn [greedy_dot]. rewrite (IH Ht), tail_re_spec, Hh.
    destruct (ascii_eqb c LF); reflexivity.
Qed.

(** Whatever [.*] settles on, the match holds a group 1. *)
Lemma greedy_dot_group s g m :
  greedy_dot (matches tail_re k_done) s g = Some m ->
  exists t, m !! 1%nat = Some t.
Proof.
  assert (Hk : forall s, matches tail_re k_done s g = Some m ->
                         exists t, m !! 1%nat = Some t).
  { intros s0. rewrite tail_re_spec.
    destruct (segment_here s0); [|discriminate].
    destruct s0 as [|c [|d s'']]; try discriminate.
    intros [= <-]. rewrite lookup_insert_eq. eauto. }
  induction s as [|c s IH]; cbn [greedy_dot].
  - apply Hk.
  - destruct (ascii_eqb c LF); [apply Hk|].
    destruct (greedy_dot _ s g) as [r|] eqn:E.
    + intros [= <-]. apply IH. reflexivity.
    + apply Hk.
Qed.

Lemma search_group s m :
  search title_pattern s = Some m -> exists t, m !! 1%nat = Some t.
Proof.
  induction s as [|c s IH]; cbn [search]; rewrite title_pattern_anchored.
  - destruct (greedy_dot _ _ _) eqn:E; [|discriminate].
    intros [= <-]. eapply greedy_dot_group, E.
  - destruct (greedy_dot _ _ _) eqn:E; [|exact IH].
    intros [= <-]. eapply greedy_dot_group, E.
Qed.

(** The search fails exactly on the subjects without a segment. *)
Lemma search_none_iff s :
  search title_pattern s = None <-> has_segment s = false.
Proof.
  induction s as [|c s IH]; cbn [search]; rewrite title_pattern_anchored.
  - cbn [greedy_dot]. rewrite tail_re_spec. simpl. tauto.
  - cbn [has_segment]. destruct (segment_here (String c s)) eqn:Hh.
    + cbn [orb]. split; [|discriminate]. intros H. exfalso.
      cbn [greedy_dot] in H. rewrite tail_re_spec, Hh in H.
      destruct s as [|d s]; [discriminate|].
      destruct (ascii_eqb c LF); [discriminate|].
      destruct (greedy_dot _ _ _); discriminate.
    + cbn [orb]. rewrite <- IH.
      destruct (greedy_dot _ (String c s) ∅) as [r|] eqn:E; [|tauto].
      split; [discriminate|]. intros Hs. exfalso.
      cbn [greedy_dot] in E. rewrite tail_re_spec, Hh in E.
      apply IH in Hs.
      rewrite (greedy_dot_none s ∅ Hs) in E.
      destruct (ascii_eqb c LF); discriminate.
Qed.

Lemma has_segment_slashes t : only_slashes t = true -> has_segment t = false.
Proof.
  induction t as [|c t IH]; [reflexivity|].
  cbn [only_slashes all_chars]. intros H. apply andb_true_iff in H as [Hc Ht].
  cbn [has_segment]. rewrite (IH Ht), orb_false_r.
  destruct t as [|d t]; simpl; [reflexivity|].
  cbn [only_slashes all_chars] in Ht. apply andb_true_iff in Ht as [Hd _].
  rewrite Hd. apply andb_false_r.
Qed.

Lemma has_segment_tail seg t :
  no_slash seg = true -> only_slashes t = true ->
  has_segment (seg +:+ t) = false.
Proof.
  intros Hs Ht. induction seg as [|c seg IH]; simpl.
  - apply has_segment_slashes, Ht.
  - cbn [no_slash all_chars] in Hs. apply andb_true_iff in Hs as [Hc Hs].
    rewrite (IH Hs), orb_false_r.
    apply negb_true_iff in Hc.
    destruct (seg +:+ t); simpl; rewrite ?Hc; reflexivity.
Qed.

Lemma span_segment_tail seg t :
  no_slash seg = true -> only_slashes t = true ->
  span_segment (seg +:+ t) = seg.
Proof.
  intros Hs Ht. induction seg as [|c seg IH]; simpl.
  - destruct t as [|d t]; [reflexivity|]. simpl.
    cbn [only_slashes all_chars] in Ht. apply andb_true_iff in Ht as [Hd _].
    rewrite Hd. reflexivity.
  - cbn [no_slash all_chars] in Hs. apply andb_true_iff in Hs as [Hc Hs].
    apply negb_true_iff in Hc. rewrite Hc, (IH Hs). reflexivity.
Qed.

Lemma greedy_dot_prefix (k : cont) pre t g r :
  no_line_feed pre = true ->
  greedy_dot k t g = Some r -> greedy_dot k (pre +:+ t) g = Some r.
Proof.
  intros Hp Hr. induction pre as [|c pre IH]; simpl; [exact Hr|].
  cbn [no_line_feed all_chars] in Hp. apply andb_true_iff in Hp as [Hc Hp].
  apply negb_true_iff in Hc. rewrite Hc, (IH Hp). reflexivity.
Qed.

Lemma search_anchored s m :
  matches title_pattern k_done s ∅ = Some m -> search title_pattern s = Some m.
Proof. intros H. destruct s; cbn [search]; rewrite H; reflexivity. Qed.

(** The segment behind the last [/] that has one: what the search
    returns on a subject whose part in front of that [/] has no line
    feed. *)
Lemma search_last_segment pre c seg t :
  no_line_feed pre = true ->
  no_slash (String c seg) = true ->
  only_slashes t = true ->
  exists m,
    search title_pattern (pre +:+ String slash (String c seg) +:+ t) = Some m /\
    group m 1 = Some (String c seg).
Proof.
  intros Hp Hs Ht.
  assert (Hm : greedy_dot (matches tail_re k_done)
                 (pre +:+ String slash (String c seg +:+ t)) ∅
               = Some (<[1%nat := String c seg]> ∅)).
  { apply greedy_dot_prefix; [exact Hp|].
    cbn [greedy_dot]. change (ascii_eqb slash LF) with false. cbv iota.
    rewrite greedy_dot_none by (apply has_segment_tail; assumption).
    rewrite tail_re_spec.
    assert (Hc : ascii_eqb c slash = false).
    { cbn [no_slash all_chars] in Hs. apply andb_true_iff in Hs as [Hc _].
      apply negb_true_iff in Hc. exact Hc. }
    simpl. change (ascii_eqb slash slash) with true. rewrite Hc. simpl.
    rewrite span_segment_tail; [reflexivity| |exact Ht].
    cbn [no_slash all_chars] in Hs. apply andb_true_iff in Hs as [_ Hs]. exact Hs. }
  exists (<[1%nat := String c seg]> ∅). split.
  - apply search_anchored. rewrite title_pattern_anchored. exact Hm.
  - unfold group. apply lookup_insert_eq.
Qed.

End TitleFacts.

Section CallFacts.

Variable srv : server.
Variable document_fromstring : string -> option document.
Variable parser_parse : string -> option datetime.

Local Abbreviation page_md := (page_mode document_fromstring parser_parse).
Local Abbreviation user_md := (user_mode document_fromstring parser_parse).

(** [get_page_history], once the title is found, is its loop and the
    [try] statement around it. *)
Lemma get_page_history_finish fuel wiki_url offset limit w page_match :
  Re.search Re.title_pattern wiki_url = Some page_match ->
  get_page_history srv document_fromstring parser_parse fuel wiki_url offset limit w =
  finish page_handled
    (paginate srv (page_md (page_title page_match) limit) fuel
       (start (page_md (page_title page_match) limit) offset w)).
Proof.
  intros Hs. unfold get_page_history. rewrite Hs.
  unfold with_frame, try_except_finally_return, start, finish, page_title.
  cbn [listing_url page_mode].
  rewrite page_history_loop_paginate.
  destruct (paginate _ _ _ _) as [[[]|e|] m']; try reflexivity.
  unfold page_handled. destruct (is_RequestException e); reflexivity.
Qed.

Lemma get_user_edit_history_finish fuel username offset limit w :
  get_user_edit_history srv document_fromstring parser_parse fuel username offset limit w =
  finish user_handled
    (paginate srv (user_md username limit) fuel
       (start (user_md username limit) offset w)).
Proof.
  unfold get_user_edit_history.
  unfold with_frame, try_except_finally_return, start, finish.
  cbn [listing_url user_mode].
  rewrite user_history_loop_paginate.
  destruct (paginate _ _ _ _) as [[[]|e|] m']; try reflexivity.
  unfold user_handled. destruct (is_RequestException e); reflexivity.
Qed.

Lemma sent_page_handled e w : sent (page_handled e w) = sent w.
Proof. unfold page_handled. destruct (is_RequestException e); reflexivity. Qed.

Lemma sent_user_handled e w : sent (user_handled e w) = sent w.
Proof. unfold user_handled. destruct (is_RequestException e); reflexivity. Qed.

End CallFacts.

Section FinishFacts.

Variable srv : server.
Variable md : mode.
Variable handled : exn -> world -> world.
Hypothesis sent_handled : forall e w, sent (handled e w) = sent w.

(** Any call: it returns the entries of the pages it was sent, or it is
    still running with all its fuel turned into requests. It never
    raises. *)
Lemma finish_any fuel off0 :
  exists r w',
    finish handled (paginate srv md fuel (start md off0 fresh)) = (r, w') /\
    (r = Return (records md (fetched srv w')) \/
     r = Diverge /\ length (sent w') = fuel).
Proof.
  destruct (paginate srv md fuel (start md off0 fresh)) as [r m'] eqn:Hrun.
  destruct (paginate_trace srv md fuel _ _ _ Hrun)
    as (us & Hsent & Hall & _ & Hdiv & _).
  cbn [start fresh env vars sent all_entries length app] in Hsent, Hall.
  unfold finish, fetched.
  destruct r as [[]|e|]; eexists _, _; (split; [reflexivity|]).
  - left. rewrite Hall, Hsent. reflexivity.
  - left. rewrite sent_handled, Hall, Hsent. reflexivity.
  - right. split; [reflexivity|]. rewrite Hsent. auto.
Qed.

(** [n] full pages and then a page that ends the loop, in whatever way:
    the call returns the entries kept from these [n + 1] answers, and has
    sent [n + 1] requests. *)
Lemma finish_until_stop n fuel off0 :
  (n < fuel)%nat ->
  (forall i u, (i < n)%nat -> is_more (judge md (srv i u)) = true) ->
  (forall u, is_more (judge md (srv n u)) = false) ->
  exists w' m' u,
    paginate srv md fuel (start md off0 fresh) =
      (ending (judge md (srv n u)), m') /\
    finish handled (paginate srv md fuel (start md off0 fresh)) =
      (Return (records md (fetched srv w')), w') /\
    sent w' = sent (env m') /\
    all_entries (vars m') = records md (fetched srv w') /\
    length (sent w') = S n /\
    sent w' !! n = Some u /\
    records md (fetched srv w') =
      records md (take n (fetched srv w')) ++ kept (judge md (srv n u)).
Proof.
  intros Hfuel Hfull Hstop.
  replace fuel with (n + S (fuel - S n))%nat by lia.
  destruct (paginate_more srv md n (S (fuel - S n)) (start md off0 fresh))
    as (m_n & us & Hrun & Hlen & Hsent & Hall).
  { intros i u Hi. cbn [start fresh env sent length Nat.add]. auto. }
  cbn [start fresh env vars sent all_entries length app] in Hsent, Hall.
  assert (Hk : length (sent (env m_n)) = n) by (rewrite Hsent; exact Hlen).
  rewrite Hrun, paginate_stop by (rewrite Hk; apply Hstop).
  rewrite Hk.
  set (u := url (vars m_n)). set (v := judge md (srv n u)).
  assert (Hrec : records md (answers srv 0 (us ++ [u])) =
                 records md (answers srv 0 us) ++ kept v).
  { rewrite answers_app, records_app. f_equal.
    cbn [answers Nat.add]. rewrite Hlen. unfold records. simpl.
    apply app_nil_r. }
  assert (Htake : take n (answers srv 0 (us ++ [u])) = answers srv 0 us).
  { rewrite answers_app, take_app_length'; [reflexivity|].
    rewrite length_answers. symmetry. exact Hlen. }
  assert (Hfin : exists w',
    finish handled
      (ending v,
       Machine (requested md m_n)
         (Frame (offset (vars m_n)) u (all_entries (vars m_n) ++ kept v))) =
    (Return (all_entries (vars m_n) ++ kept v), w') /\
    sent w' = us ++ [u]).
  { unfold finish, ending. destruct (raised v);
      eexists; (split; [reflexivity|]);
      rewrite ?sent_handled; cbn [env requested sent]; rewrite Hsent; reflexivity. }
  destruct Hfin as (w' & Hfin & Hw').
  exists w', (Machine (requested md m_n)
                (Frame (offset (vars m_n)) u (all_entries (vars m_n) ++ kept v))), u.
  unfold fetched. rewrite Hw', Hrec, Htake, <- Hall.
  split; [reflexivity|]. split; [exact Hfin|].
  split; [cbn [env requested sent]; rewrite Hsent; reflexivity|].
  split; [reflexivity|].
  split; [rewrite length_app; simpl; lia|].
  split; [|reflexivity].
  rewrite lookup_app_r by lia. rewrite Hlen, Nat.sub_diag. reflexivity.
Qed.

End FinishFacts.

Section VerdictFacts.

Variable document_fromstring : string -> option document.
Variable parser_parse : string -> option datetime.

Local Abbreviation page_md := (page_mode document_fromstring parser_parse).
Local Abbreviation user_md := (user_mode document_fromstring parser_parse).

Lemma kept_judge_entries limit es ts :
  kept (judge_entries parser_parse limit es ts) = es.
Proof.
  unfold judge_entries. destruct (_ <? _)%Z; [reflexivity|].
  destruct (offset_after _ _); reflexivity.
Qed.

Lemma judge_entries_more limit es ts :
  is_more (judge_entries parser_parse limit es ts) = true ->
  limit <= Z.of_nat (length es).
Proof.
  unfold judge_entries. destruct (Z.ltb_spec (Z.of_nat (length es)) limit);
    [discriminate|auto].
Qed.

Lemma judge_entries_final limit es ts :
  is_final (judge_entries parser_parse limit es ts) = true ->
  Z.of_nat (length es) < limit.
Proof.
  unfold judge_entries. destruct (Z.ltb_spec (Z.of_nat (length es)) limit);
    [auto|]. destruct (offset_after _ _); discriminate.
Qed.

Lemma page_counts title limit : counts_by_limit (page_md title limit) limit.
Proof.
  intros r. unfold count. cbn [judge page_mode].
  destruct r as [e|resp]; cbn [page_verdict]; [split; discriminate|].
  destruct (document_fromstring (content resp)); [|split; discriminate].
  rewrite kept_judge_entries.
  split; [apply judge_entries_more|apply judge_entries_final].
Qed.

Lemma user_counts username limit : counts_by_limit (user_md username limit) limit.
Proof.
  intros r. unfold count. cbn [judge user_mode].
  destruct r as [e|resp]; cbn [user_verdict]; [split; discriminate|].
  destruct (http_error_msg resp); [split; discriminate|].
  destruct (document_fromstring (content resp)); [|split; discriminate].
  destruct (titles_of_hrefs _); [|split; discriminate].
  rewrite kept_judge_entries.
  split; [apply judge_entries_more|apply judge_entries_final].
Qed.

Lemma page_fault title limit r :
  is_fault r = true ->
  exists e, judge (page_md title limit) r = Abort (RequestException e).
Proof. destruct r as [e|]; [eauto|discriminate]. Qed.

Lemma user_fault username limit r :
  is_http_fault r = true ->
  exists e, judge (user_md username limit) r = Abort (RequestException e).
Proof.
  destruct r as [e|resp]; cbn [is_http_fault judge user_mode user_verdict];
    [eauto|].
  destruct (http_error_msg resp); [eauto|discriminate].
Qed.

End VerdictFacts.

Section StopFacts.

Variable srv : server.
Variable md : mode.
Variable handled : exn -> world -> world.
Hypothesis sent_handled : forall e w, sent (handled e w) = sent w.

Lemma fetched_lookup w i r :
  fetched srv w !! i = Some r ->
  exists u, sent w !! i = Some u /\ r = srv i u.
Proof.
  unfold fetched. rewrite lookup_answers.
  destruct (sent w !! i) as [u|]; [|discriminate].
  intros [= <-]. eauto.
Qed.

(** [n] full pages, then a short one: [n + 1] requests, and the entries
    of all [n + 1] pages. *)
Lemma finish_until_short n fuel off0 limit :
  counts_by_limit md limit ->
  (n < fuel)%nat ->
  (forall i u, (i < n)%nat -> is_more (judge md (srv i u)) = true) ->
  (forall u, is_final (judge md (srv n u)) = true) ->
  exists w',
    finish handled (paginate srv md fuel (start md off0 fresh)) =
      (Return (records md (fetched srv w')), w') /\
    length (sent w') = S n /\
    (forall i r, (i < n)%nat -> fetched srv w' !! i = Some r ->
                 limit <= count md r) /\
    (forall r, fetched srv w' !! n = Some r -> count md r < limit).
Proof.
  intros Hc Hfuel Hfull Hshort.
  destruct (finish_until_stop srv md handled sent_handled n fuel off0 Hfuel Hfull)
    as (w' & m' & u & _ & Hfin & _ & _ & Hlen & _).
  { intros u. specialize (Hshort u).
    destruct (judge md (srv n u)); try discriminate; reflexivity. }
  exists w'. split; [exact Hfin|]. split; [exact Hlen|]. split.
  - intros i r Hi Hr. apply fetched_lookup in Hr as (u' & _ & ->).
    apply Hc, Hfull, Hi.
  - intros r Hr. apply fetched_lookup in Hr as (u' & _ & ->).
    apply Hc, Hshort.
Qed.

(** [n] full pages, then a round that raises before it keeps anything:
    [n + 1] requests, and the entries of the first [n] pages. *)
Lemma finish_until_abort n fuel off0 :
  (n < fuel)%nat ->
  (forall i u, (i < n)%nat -> is_more (judge md (srv i u)) = true) ->
  (forall u, exists e, judge md (srv n u) = Abort e) ->
  exists w' m' e,
    paginate srv md fuel (start md off0 fresh) = (Raise e, m') /\
    (exists u, sent w' !! n = Some u /\ judge md (srv n u) = Abort e) /\
    all_entries (vars m') = records md (take n (fetched srv w')) /\
    finish handled (paginate srv md fuel (start md off0 fresh)) =
      (Return (records md (take n (fetched srv w'))), w') /\
    length (sent w') = S n.
Proof.
  intros Hfuel Hfull Habort.
  destruct (finish_until_stop srv md handled sent_handled n fuel off0 Hfuel Hfull)
    as (w' & m' & u & Hrun & Hfin & _ & Hall & Hlen & Hu & Hrec).
  { intros u. destruct (Habort u) as [e ->]. reflexivity. }
  destruct (Habort u) as [e He].
  rewrite He in Hrun, Hrec. cbn [ending raised kept] in Hrun, Hrec.
  rewrite app_nil_r in Hrec.
  exists w', m', e. rewrite <- Hrec.
  split; [exact Hrun|]. split; [eauto|]. auto.
Qed.

End StopFacts.

(* ===================================================================== *)
(** * The pagination loop *)
(* ===================================================================== *)

Lemma search_troublesome :
  exists page_match,
    Re.search Re.title_pattern Fixture.troublesome = Some page_match /\
    page_title page_match = "A_Troublesome_Inheritance".
Proof.
  destruct (search_last_segment "https://en.wikipedia.org/wiki"
              "A"%char "_Troublesome_Inheritance" "")
    as (m & Hs & Hg); try reflexivity.
  exists m. split; [exact Hs|]. unfold page_title. rewrite Hg. reflexivity.
Qed.

(** Claim C1. In both functions the loop ends on the first page that
    yields fewer than [limit] entries: if the first [n] pages are full
    (at least [limit] entries, and a last timestamp from which the next
    offset is computed) and the page after them is short, the call sends
    exactly [n + 1] requests and returns the entries of these [n + 1]
    pages, whatever fuel above [n] the model is given.  On pages of 500,
    500 and 137 entries with a limit of 500 that is 3 requests and 1137
    entries. *)
Theorem pagination_stops_after_first_short_page :
  (forall (srv : server) dfs pp (n fuel : nat) (limit : Z) (off0 : pyval),
     (n < fuel)%nat ->
     (forall wiki_url page_match,
        Re.search Re.title_pattern wiki_url = Some page_match ->
        let md := page_mode dfs pp (page_title page_match) limit in
        (forall i u, (i < n)%nat -> is_more (judge md (srv i u)) = true) ->
        (forall u, is_final (judge md (srv n u)) = true) ->
        exists w',
          get_page_history srv dfs pp fuel wiki_url off0 limit fresh =
            (Return (records md (fetched srv w')), w') /\
          length (sent w') = S n /\
          (forall i r, (i < n)%nat -> fetched srv w' !! i = Some r ->
                       limit <= count md r) /\
          (forall r, fetched srv w' !! n = Some r -> count md r < limit)) /\
     (forall username,
        let md := user_mode dfs pp username limit in
        (forall i u, (i < n)%nat -> is_more (judge md (srv i u)) = true) ->
        (forall u, is_final (judge md (srv n u)) = true) ->
        exists w',
          get_user_edit_history srv dfs pp fuel username off0 limit fresh =
            (Return (records md (fetched srv w')), w') /\
          length (sent w') = S n /\
          (forall i r, (i < n)%nat -> fetched srv w' !! i = Some r ->
                       limit <= count md r) /\
          (forall r, fetched srv w' !! n = Some r -> count md r < limit))) /\
  (forall fuel, (3 <= fuel)%nat ->
     (exists es w',
        get_page_history (Fixture.serve Fixture.pages_500_500_137)
          (Fixture.html Fixture.bodies_500_137) (Fixture.dates Fixture.calendar)
          fuel Fixture.troublesome (PStr "") 500 fresh = (Return es, w') /\
        length es = 1137%nat /\ length (sent w') = 3%nat) /\
     (exists es w',
        get_user_edit_history (Fixture.serve Fixture.pages_500_500_137)
          (Fixture.html Fixture.bodies_500_137) (Fixture.dates Fixture.calendar)
          fuel "Editor" (PStr "") 500 fresh = (Return es, w') /\
        length es = 1137%nat /\ length (sent w') = 3%nat)).
Proof.
  match goal with |- ?A /\ _ => assert (General : A) end.
  2: { split; [exact General|].
       intros fuel Hfuel.
       destruct (General (Fixture.serve Fixture.pages_500_500_137)
                   (Fixture.html Fixture.bodies_500_137)
                   (Fixture.dates Fixture.calendar) 2%nat fuel 500 (PStr "")
                   ltac:(lia)) as [Hpage Huser].
       destruct search_troublesome as (pm & Hs & Ht).
       split.
       - destruct (Hpage _ _ Hs) as (w' & Hrun & Hlen & _).
         + rewrite Ht. intros [|[|i]] u Hi; [vm_compute; reflexivity..|lia].
         + rewrite Ht. intros u. vm_compute. reflexivity.
         + eexists _, w'. split; [exact Hrun|]. split; [|exact Hlen].
           rewrite Ht. unfold fetched.
           destruct (sent w') as [|u0 [|u1 [|u2 [|]]]]; try discriminate.
           vm_compute. reflexivity.
       - destruct (Huser "Editor") as (w' & Hrun & Hlen & _).
         + intros [|[|i]] u Hi; [vm_compute; reflexivity..|lia].
         + intros u. vm_compute. reflexivity.
         + eexists _, w'. split; [exact Hrun|]. split; [|exact Hlen].
           unfold fetched.
           destruct (sent w') as [|u0 [|u1 [|u2 [|]]]]; try discriminate.
           vm_compute. reflexivity. }
  intros srv dfs pp n fuel limit off0 Hfuel. split.
  - intros wiki_url page_match Hs md Hfull Hshort.
    rewrite (get_page_history_finish _ _ _ _ _ _ _ _ _ Hs).
    apply (finish_until_short srv md page_handled sent_page_handled n fuel off0 limit);
      [apply page_counts|exact Hfuel|exact Hfull|exact Hshort].
  - intros username md Hfull Hshort.
    rewrite get_user_edit_history_finish.
    apply (finish_until_short srv md user_handled sent_user_handled n fuel off0 limit);
      [apply user_counts|exact Hfuel|exact Hfull|exact Hshort].
Qed.

Lemma pagination_stops_witness :
  let srv := Fixture.serve [Fixture.ok "full"; Fixture.ok "full"; Fixture.ok "short"] in
  let md := page_mode (Fixture.html Fixture.bodies) (Fixture.dates Fixture.calendar)
              "A_Troublesome_Inheritance" 2 in
  exists w',
    get_page_history srv (Fixture.html Fixture.bodies) (Fixture.dates Fixture.calendar)
      4 Fixture.troublesome (PStr "") 2 fresh =
      (Return (records md (fetched srv w')), w') /\
    length (sent w') = 3%nat.
Proof.
  intros srv md.
  destruct (proj1 pagination_stops_after_first_short_page srv
              (Fixture.html Fixture.bodies) (Fixture.dates Fixture.calendar)
              2%nat 4%nat 2 (PStr "") ltac:(lia)) as [Hpage _].
  destruct (Hpage Fixture.troublesome (<[1%nat := "A_Troublesome_Inheritance"]> ∅))
    as (w' & Hrun & Hlen & _).
  - vm_compute. reflexivity.
  - intros [|[|i]] u Hi; [vm_compute; reflexivity..|lia].
  - intros u. vm_compute. reflexivity.
  - exists w'. split; [exact Hrun|exact Hlen].
Defined.


(** Claim C2. A fault of the network or HTTP layer on request [n + 1]
    (the claim's fetch N, with N - 1 = [n] full pages before it) ends the
    call with exactly the entries of the first [n] pages, returned and not
    raised.  In page mode the fault is an exception of [requests.get]; in
    user mode it is that or the [HTTPError] of [raise_for_status]. *)
Theorem fault_returns_earlier_pages :
  forall (srv : server) dfs pp (n fuel : nat) (limit : Z) (off0 : pyval),
    (n < fuel)%nat ->
    (forall wiki_url page_match,
       Re.search Re.title_pattern wiki_url = Some page_match ->
       let md := page_mode dfs pp (page_title page_match) limit in
       (forall i u, (i < n)%nat -> is_more (judge md (srv i u)) = true) ->
       (forall u, is_fault (srv n u) = true) ->
       exists w',
         get_page_history srv dfs pp fuel wiki_url off0 limit fresh =
           (Return (records md (take n (fetched srv w'))), w') /\
         length (sent w') = S n) /\
    (forall username,
       let md := user_mode dfs pp username limit in
       (forall i u, (i < n)%nat -> is_more (judge md (srv i u)) = true) ->
       (forall u, is_http_fault (srv n u) = true) ->
       exists w',
         get_user_edit_history srv dfs pp fuel username off0 limit fresh =
           (Return (records md (take n (fetched srv w'))), w') /\
         length (sent w') = S n).
Proof.
  intros srv dfs pp n fuel limit off0 Hfuel. split.
  - intros wiki_url page_match Hs md Hfull Hfault.
    rewrite (get_page_history_finish _ _ _ _ _ _ _ _ _ Hs).
    destruct (finish_until_abort srv md page_handled sent_page_handled n fuel off0
                Hfuel Hfull) as (w' & m' & e & _ & _ & _ & Hfin & Hlen).
    { intros u. destruct (page_fault dfs pp (page_title page_match) limit _ (Hfault u))
        as [e He]. eauto. }
    eauto.
  - intros username md Hfull Hfault.
    rewrite get_user_edit_history_finish.
    destruct (finish_until_abort srv md user_handled sent_user_handled n fuel off0
                Hfuel Hfull) as (w' & m' & e & _ & _ & _ & Hfin & Hlen).
    { intros u. destruct (user_fault dfs pp username limit _ (Hfault u))
        as [e He]. eauto. }
    eauto.
Qed.

Lemma fault_returns_witness :
  let srv := Fixture.serve [Fixture.ok "full"; Fault Fixture.refused] in
  let md := user_mode (Fixture.html Fixture.bodies) (Fixture.dates Fixture.calendar)
              "Ann" 2 in
  exists w',
    get_user_edit_history srv (Fixture.html Fixture.bodies)
      (Fixture.dates Fixture.calendar) 3 "Ann" (PStr "") 2 fresh =
      (Return (records md (take 1 (fetched srv w'))), w') /\
    length (sent w') = 2%nat.
Proof.
  intros srv md.
  destruct (fault_returns_earlier_pages srv
              (Fixture.html Fixture.bodies) (Fixture.dates Fixture.calendar)
              1%nat 3%nat 2 (PStr "") ltac:(lia)) as [_ Huser].
  apply (Huser "Ann").
  - intros [|i] u Hi; [vm_compute; reflexivity|lia].
  - intros u. vm_compute. reflexivity.
Defined.


(* ===================================================================== *)
(** * The next offset *)
(* ===================================================================== *)

Lemma int_digits_app a b : forall acc,
  int_digits acc (a +:+ b) =
  match int_digits acc a with
  | Some x => int_digits x b
  | None => None
  end.
Proof.
  induction a as [|c a IH]; intros acc; simpl; [reflexivity|].
  destruct (digit_value c); [apply IH|reflexivity].
Qed.

(** A number read with a carry is the number read without, shifted. *)
Lemma int_digits_shift s : forall acc,
  int_digits acc s =
  (fun v => acc * 10 ^ Z.of_nat (String.length s) + v) <$> int_digits 0 s.
Proof.
  induction s as [|c s IH]; intros acc.
  - simpl. f_equal. lia.
  - cbn [int_digits String.length]. destruct (digit_value c) as [d|]; [|reflexivity].
    rewrite (IH (10 * acc + d)), (IH (10 * 0 + d)).
    destruct (int_digits 0 s) as [v|]; [|reflexivity].
    simpl. f_equal. rewrite Nat2Z.inj_succ, Z.pow_succ_r by lia. ring.
Qed.

Lemma zfill_reads_back_spec w bound n :
  zfill_reads_back w bound = true ->
  0 <= n < bound ->
  int_digits 0 (zfill w n) = Some n /\ String.length (zfill w n) = w.
Proof.
  intros Hcheck Hn. unfold zfill_reads_back in Hcheck.
  rewrite forallb_forall in Hcheck.
  specialize (Hcheck (Z.to_nat n)).
  rewrite Z2Nat.id in Hcheck by lia.
  destruct (int_digits 0 (zfill w n)) as [v|].
  - assert (Hin : In (Z.to_nat n) (seq 0 (Z.to_nat bound))) by (apply in_seq; lia).
    apply Hcheck in Hin. apply andb_true_iff in Hin as [Hv Hl].
    apply Z.eqb_eq in Hv. apply Nat.eqb_eq in Hl. subst v. auto.
  - assert (Hin : In (Z.to_nat n) (seq 0 (Z.to_nat bound))) by (apply in_seq; lia).
    apply Hcheck in Hin. discriminate.
Qed.

Lemma zfill2_reads_back : zfill_reads_back 2 100 = true.
Proof. vm_compute. reflexivity. Qed.

Lemma zfill4_reads_back : zfill_reads_back 4 10000 = true.
Proof. vm_compute. reflexivity. Qed.

Lemma int_digits_zfill w bound n acc :
  zfill_reads_back w bound = true ->
  0 <= n < bound ->
  int_digits acc (zfill w n) = Some (acc * 10 ^ Z.of_nat w + n).
Proof.
  intros Hcheck Hn.
  destruct (zfill_reads_back_spec w bound n Hcheck Hn) as [Hv Hl].
  rewrite int_digits_shift, Hv, Hl. reflexivity.
Qed.

(** [int(d.strftime('%Y%m%d%H%M%S'))] is the numeral yyyyMMddHHmmss. *)
Lemma int_strftime d :
  valid_datetime d ->
  int_of_str (strftime_YmdHMS d) = Some (numeral_yyyyMMddHHmmss d).
Proof.
  intros (Hy & Hm & Hd & HH & HM & HS).
  assert (Hne : int_of_str (strftime_YmdHMS d) = int_digits 0 (strftime_YmdHMS d)).
  { unfold strftime_YmdHMS.
    destruct (zfill_reads_back_spec 4 10000 (year d) zfill4_reads_back) as [_ Hl];
      [lia|].
    destruct (zfill 4 (year d)); [discriminate|reflexivity]. }
  rewrite Hne. unfold strftime_YmdHMS.
  rewrite int_digits_app.
  rewrite (int_digits_zfill 4 10000) by (apply zfill4_reads_back || lia).
  do 4 (rewrite int_digits_app;
        rewrite (int_digits_zfill 2 100) by (apply zfill2_reads_back || lia)).
  rewrite (int_digits_zfill 2 100) by (apply zfill2_reads_back || lia).
  f_equal. unfold numeral_yyyyMMddHHmmss. simpl Z.of_nat. lia.
Qed.

Section NextUrlFacts.

Variable srv : server.
Variable md : mode.
Variable handled : exn -> world -> world.
Hypothesis sent_handled : forall e w, sent (handled e w) = sent w.

Lemma sent_finish rm : sent (finish handled rm).2 = sent (env rm.2).
Proof.
  destruct rm as [[[]|e|] m]; cbn [finish fst snd]; rewrite ?sent_handled; reflexivity.
Qed.

(** In any call, each request after the first asks for the page that
    starts at the offset a full page before it gave. *)
Lemma finish_next_url fuel off0 r w' :
  finish handled (paginate srv md fuel (start md off0 fresh)) = (r, w') ->
  forall i u u', sent w' !! i = Some u -> sent w' !! S i = Some u' ->
  exists es off,
    judge md (srv i u) = More es off /\ u' = listing_url md (PInt off).
Proof.
  intros Hfin i u u' Hu Hu'.
  pose proof (sent_finish (paginate srv md fuel (start md off0 fresh))) as Hsent.
  rewrite Hfin in Hsent. cbn [snd] in Hsent.
  destruct (paginate srv md fuel (start md off0 fresh)) as [r0 m'] eqn:Hrun.
  destruct (paginate_trace srv md fuel _ _ _ Hrun)
    as (us & Hus & _ & _ & _ & _ & Hnext & _).
  cbn [start fresh env vars sent length app snd] in Hus, Hnext, Hsent.
  rewrite Hsent, Hus in Hu, Hu'.
  exact (Hnext i u u' Hu Hu').
Qed.

(** A loop with fuel left sends the request it is about to send. *)
Lemma paginate_sends_first fuel m r m' :
  paginate srv md (S fuel) m = (r, m') ->
  exists us, sent (env m') = sent (env m) ++ url (vars m) :: us.
Proof.
  destruct (is_more (judge md (srv (length (sent (env m))) (url (vars m)))))
    eqn:Hmore.
  - cbn [paginate].
    destruct (judge md (srv (length (sent (env m))) (url (vars m))))
      as [e|es|es e|es off]; try discriminate.
    intros Hrun. apply paginate_trace in Hrun as (us & Hus & _).
    cbn [env requested sent] in Hus. exists us.
    rewrite Hus, <- app_assoc. reflexivity.
  - rewrite paginate_stop by exact Hmore. intros [= _ <-].
    exists []. reflexivity.
Qed.

(** After [n] full pages a call with more fuel than [n] does send request
    number [n]. *)
Lemma finish_reaches n fuel off0 r w' :
  finish handled (paginate srv md fuel (start md off0 fresh)) = (r, w') ->
  (n < fuel)%nat ->
  (forall i u, (i < n)%nat -> is_more (judge md (srv i u)) = true) ->
  (n < length (sent w'))%nat.
Proof.
  intros Hfin Hfuel Hfull.
  pose proof (sent_finish (paginate srv md fuel (start md off0 fresh))) as Hsent.
  rewrite Hfin in Hsent. cbn [snd] in Hsent. rewrite Hsent. clear Hsent Hfin.
  replace fuel with (n + S (fuel - S n))%nat by lia.
  destruct (paginate_more srv md n (S (fuel - S n)) (start md off0 fresh))
    as (m_n & us & Hrun & Hlen & Hus & _).
  { intros i u Hi. cbn [start fresh env sent length Nat.add]. auto. }
  rewrite Hrun.
  destruct (paginate srv md (S (fuel - S n)) m_n) as [r0 m'] eqn:Hrest.
  apply paginate_sends_first in Hrest as (us' & Hus').
  cbn [snd]. rewrite Hus', Hus, !length_app. simpl. lia.
Qed.

End NextUrlFacts.

Section MoreFacts.

Variable document_fromstring : string -> option document.
Variable parser_parse : string -> option datetime.

Lemma judge_entries_More limit es ts es' off :
  judge_entries parser_parse limit es ts = More es' off ->
  es' = es /\ limit <= Z.of_nat (length es) /\
  exists t d, last ts = Some t /\ parser_parse t = Some d /\
              int_of_str (strftime_YmdHMS d) = Some off.
Proof.
  unfold judge_entries, offset_after.
  destruct (Z.ltb_spec (Z.of_nat (length es)) limit); [discriminate|].
  destruct (last ts) as [t|]; [|discriminate].
  destruct (parser_parse t) as [d|] eqn:Hp; [|discriminate].
  destruct (int_of_str (strftime_YmdHMS d)) as [n|] eqn:Hi; [|discriminate].
  intros [= <- <-]. split; [reflexivity|]. split; [assumption|].
  exists t, d. auto.
Qed.

Lemma page_verdict_More title limit r es off :
  page_verdict document_fromstring parser_parse title limit r = More es off ->
  exists resp doc ts d,
    r = Answer resp /\ document_fromstring (content resp) = Some doc /\
    limit <= Z.of_nat (length (zip_page title (xp_list_bdi doc) (xp_list_dates doc))) /\
    last (xp_list_dates doc) = Some ts /\ parser_parse ts = Some d /\
    int_of_str (strftime_YmdHMS d) = Some off.
Proof.
  destruct r as [e|resp]; cbn [page_verdict]; [discriminate|].
  destruct (document_fromstring (content resp)) as [doc|] eqn:Hd; [|discriminate].
  intros H. apply judge_entries_More in H as (_ & Hl & t & d & Ht & Hp & Hi).
  exists resp, doc, t, d. repeat split; assumption || reflexivity.
Qed.

Lemma user_verdict_More username limit r es off :
  user_verdict document_fromstring parser_parse username limit r = More es off ->
  exists resp doc titles ts d,
    r = Answer resp /\ http_error_msg resp = None /\
    document_fromstring (content resp) = Some doc /\
    titles_of_hrefs (xp_title_hrefs doc) = Some titles /\
    limit <= Z.of_nat (length (zip_user username (xp_dates doc) titles)) /\
    last (xp_dates doc) = Some ts /\ parser_parse ts = Some d /\
    int_of_str (strftime_YmdHMS d) = Some off.
Proof.
  destruct r as [e|resp]; cbn [user_verdict]; [discriminate|].
  destruct (http_error_msg resp) eqn:Hh; [discriminate|].
  destruct (document_fromstring (content resp)) as [doc|] eqn:Hd; [|discriminate].
  destruct (titles_of_hrefs (xp_title_hrefs doc)) as [titles|] eqn:Ht; [|discriminate].
  intros H. apply judge_entries_More in H as (_ & Hl & t & d & Hlast & Hp & Hi).
  exists resp, doc, titles, t, d. repeat split; assumption || reflexivity.
Qed.

End MoreFacts.

(** The last pair of a [zip] holds the last element of the second column
    when that column is not the longer one... *)
Lemma last_zip_page title editors : forall times ts,
  last times = Some ts -> (length times <= length editors)%nat ->
  exists e, last (zip_page title editors times) = Some (e, ts, title).
Proof.
  induction editors as [|e editors IH]; intros [|t times] ts Hlast Hlen;
    simpl in Hlen; try discriminate; try lia.
  destruct times as [|t' times].
  - simpl in Hlast. injection Hlast as <-. exists e.
    destruct editors; reflexivity.
  - destruct editors as [|e' editors]; [simpl in Hlen; lia|].
    destruct (IH (t' :: times) ts) as [e0 He0]; [exact Hlast|simpl in *; lia|].
    exists e0. exact He0.
Qed.

(** ... and the last element of the first column when that one is not the
    longer. *)
Lemma last_zip_user username titles : forall times ts,
  last times = Some ts -> (length times <= length titles)%nat ->
  exists t, last (zip_user username times titles) = Some (username, ts, t).
Proof.
  induction titles as [|p titles IH]; intros [|t times] ts Hlast Hlen;
    simpl in Hlen; try discriminate; try lia.
  destruct times as [|t' times].
  - simpl in Hlast. injection Hlast as <-. exists p.
    destruct titles; reflexivity.
  - destruct titles as [|p' titles]; [simpl in Hlen; lia|].
    destruct (IH (t' :: times) ts) as [p0 Hp0]; [exact Hlast|simpl in *; lia|].
    exists p0. exact Hp0.
Qed.

(** Claim C3, as amended. In either function, every request after the
    first asks for the listing that starts at the offset computed from the
    page before it: that page had at least [limit] entries, the last
    element of its timestamp column was parsed by dateutil, and the offset
    is [int] of the [%Y%m%d%H%M%S] rendering of the parsed date, which for
    every [datetime] is the numeral yyyyMMddHHmmss; 2011-05-04T13:02:00
    gives 20110504130200.  After [n] full pages, a call with fuel left does
    send the next request.  The last element of the timestamp column is the
    timestamp of the last entry kept from the page whenever the timestamp
    column is not the longer of the two columns. *)
Theorem next_offset_from_last_timestamp :
  (forall (srv : server) dfs pp (fuel : nat) (limit : Z) (off0 : pyval),
     (forall wiki_url page_match r w',
        Re.search Re.title_pattern wiki_url = Some page_match ->
        get_page_history srv dfs pp fuel wiki_url off0 limit fresh = (r, w') ->
        (forall i u u', sent w' !! i = Some u -> sent w' !! S i = Some u' ->
           exists resp doc ts d off,
             srv i u = Answer resp /\ dfs (content resp) = Some doc /\
             limit <= Z.of_nat (length (zip_page (page_title page_match)
                                          (xp_list_bdi doc) (xp_list_dates doc))) /\
             last (xp_list_dates doc) = Some ts /\ pp ts = Some d /\
             int_of_str (strftime_YmdHMS d) = Some off /\
             u' = history_url (page_title page_match) (PInt off) limit) /\
        (forall n, (n < fuel)%nat ->
           (forall i u, (i < n)%nat ->
              is_more (judge (page_mode dfs pp (page_title page_match) limit)
                         (srv i u)) = true) ->
           (n < length (sent w'))%nat)) /\
     (forall username r w',
        get_user_edit_history srv dfs pp fuel username off0 limit fresh = (r, w') ->
        (forall i u u', sent w' !! i = Some u -> sent w' !! S i = Some u' ->
           exists resp doc titles ts d off,
             srv i u = Answer resp /\ http_error_msg resp = None /\
             dfs (content resp) = Some doc /\
             titles_of_hrefs (xp_title_hrefs doc) = Some titles /\
             limit <= Z.of_nat (length (zip_user username (xp_dates doc) titles)) /\
             last (xp_dates doc) = Some ts /\ pp ts = Some d /\
             int_of_str (strftime_YmdHMS d) = Some off /\
             u' = contributions_wiki_url username (PInt off) limit) /\
        (forall n, (n < fuel)%nat ->
           (forall i u, (i < n)%nat ->
              is_more (judge (user_mode dfs pp username limit) (srv i u)) = true) ->
           (n < length (sent w'))%nat))) /\
  (forall d, valid_datetime d ->
     int_of_str (strftime_YmdHMS d) = Some (numeral_yyyyMMddHHmmss d)) /\
  (int_of_str (strftime_YmdHMS (Datetime 2011 5 4 13 2 0)) = Some 20110504130200 /\
   fmt (PInt 20110504130200) = "20110504130200") /\
  (forall title editors times ts,
     last times = Some ts -> (length times <= length editors)%nat ->
     exists e, last (zip_page title editors times) = Some (e, ts, title)) /\
  (forall username times titles ts,
     last times = Some ts -> (length times <= length titles)%nat ->
     exists t, last (zip_user username times titles) = Some (username, ts, t)).
Proof.
  split; [|split; [exact int_strftime|split; [split; reflexivity|split]]].
  - intros srv dfs pp fuel limit off0. split.
    + intros wiki_url page_match r w' Hs Hrun.
      rewrite (get_page_history_finish _ _ _ _ _ _ _ _ _ Hs) in Hrun. split.
      * intros i u u' Hu Hu'.
        destruct (finish_next_url srv _ page_handled sent_page_handled
                    fuel off0 r w' Hrun i u u' Hu Hu') as (es & off & Hj & ->).
        apply page_verdict_More in Hj
          as (resp & doc & ts & d & Hr & Hd & Hl & Hlast & Hp & Hi).
        exists resp, doc, ts, d, off. repeat split; assumption || reflexivity.
      * intros n Hn Hfull.
        exact (finish_reaches srv _ page_handled sent_page_handled
                 n fuel off0 r w' Hrun Hn Hfull).
    + intros username r w' Hrun.
      rewrite get_user_edit_history_finish in Hrun. split.
      * intros i u u' Hu Hu'.
        destruct (finish_next_url srv _ user_handled sent_user_handled
                    fuel off0 r w' Hrun i u u' Hu Hu') as (es & off & Hj & ->).
        apply user_verdict_More in Hj
          as (resp & doc & titles & ts & d & Hr & Hh & Hd & Ht & Hl & Hlast & Hp & Hi).
        exists resp, doc, titles, ts, d, off.
        repeat split; assumption || reflexivity.
      * intros n Hn Hfull.
        exact (finish_reaches srv _ user_handled sent_user_handled
                 n fuel off0 r w' Hrun Hn Hfull).
  - intros title editors times ts. apply last_zip_page.
  - intros username times titles ts. apply last_zip_user.
Qed.

Lemma next_offset_witness :
  let srv := Fixture.serve [Fixture.ok "full"; Fixture.ok "short"] in
  let dfs := Fixture.html Fixture.bodies in
  let pp := Fixture.dates Fixture.calendar in
  let run := get_user_edit_history srv dfs pp 3 "Ann" (PStr "") 2 fresh in
  sent run.2 !! 1%nat =
    Some "https://en.wikipedia.org/w/index.php?title=Special:Contributions&target=Ann&limit=2&offset=20100101000000" /\
  exists resp doc titles ts d off,
    srv 0%nat "https://en.wikipedia.org/w/index.php?title=Special:Contributions&target=Ann&limit=2&offset="
      = Answer resp /\
    http_error_msg resp = None /\
    dfs (content resp) = Some doc /\
    titles_of_hrefs (xp_title_hrefs doc) = Some titles /\
    2 <= Z.of_nat (length (zip_user "Ann" (xp_dates doc) titles)) /\
    last (xp_dates doc) = Some ts /\ pp ts = Some d /\
    int_of_str (strftime_YmdHMS d) = Some off /\
    "https://en.wikipedia.org/w/index.php?title=Special:Contributions&target=Ann&limit=2&offset=20100101000000"
      = contributions_wiki_url "Ann" (PInt off) 2.
Proof.
  intros srv dfs pp run.
  split; [vm_compute; reflexivity|].
  destruct (proj1 next_offset_from_last_timestamp srv dfs pp 3%nat 2 (PStr ""))
    as [_ Huser].
  destruct (Huser "Ann" run.1 run.2) as [Hnext _].
  - vm_compute. reflexivity.
  - apply (Hnext 0%nat); vm_compute; reflexivity.
Defined.

(** The claim as first stated: the offset comes from the timestamp of the
    last entry kept from the page.  A page with one editor and two
    timestamps, read with a limit of 1, keeps the entry of the first
    timestamp and moves on to the offset of the second. *)
Lemma next_offset_not_from_last_entry :
  ~ (forall (srv : server) dfs pp (fuel : nat) wiki_url page_match (limit : Z)
            (off0 : pyval) r w',
       Re.search Re.title_pattern wiki_url = Some page_match ->
       get_page_history srv dfs pp fuel wiki_url off0 limit fresh = (r, w') ->
       forall u u' resp doc e ts d,
         sent w' !! 0%nat = Some u -> sent w' !! 1%nat = Some u' ->
         srv 0%nat u = Answer resp -> dfs (content resp) = Some doc ->
         Z.of_nat (length (zip_page (page_title page_match)
                             (xp_list_bdi doc) (xp_list_dates doc))) = limit ->
         last (zip_page (page_title page_match) (xp_list_bdi doc) (xp_list_dates doc))
           = Some (e, ts, page_title page_match) ->
         pp ts = Some d ->
         u' = history_url (page_title page_match)
                (PInt (numeral_yyyyMMddHHmmss d)) limit).
Proof.
  intros H.
  specialize (H (Fixture.serve [Fixture.ok "lopsided"; Fixture.ok "short"])
                (Fixture.html Fixture.bodies) (Fixture.dates Fixture.calendar)
                3%nat Fixture.troublesome
                (<[1%nat := "A_Troublesome_Inheritance"]> ∅) 1 (PStr "")).
  destruct (get_page_history _ _ _ _ _ _ _ _) as [r w'] eqn:Hrun.
  specialize (H r w' ltac:(vm_compute; reflexivity) eq_refl).
  vm_compute in Hrun. injection Hrun as _ <-.
  specialize (H _ _ _ Fixture.lopsided "Ann" "13:02, 4 May 2011" Fixture.may2011
                eq_refl eq_refl eq_refl eq_refl eq_refl eq_refl eq_refl).
  vm_compute in H. discriminate H.
Qed.


(* ===================================================================== *)
(** * Columns of unequal length *)
(* ===================================================================== *)

Lemma length_records md rs :
  length (records md rs) = sum_list ((fun r => length (kept (judge md r))) <$> rs).
Proof.
  induction rs as [|r rs IH]; [reflexivity|].
  unfold records in *. cbn [flat_map fmap list_fmap sum_list].
  rewrite length_app, IH. reflexivity.
Qed.

Lemma zip_page_lookup title editors times i e t :
  editors !! i = Some e -> times !! i = Some t ->
  zip_page title editors times !! i = Some (e, t, title).
Proof.
  intros He Ht. unfold zip_page.
  rewrite list_lookup_fmap.
  rewrite (proj2 (lookup_zip_with_Some pair editors times i (e, t)));
    [reflexivity|eauto].
Qed.

Lemma zip_user_lookup username times titles i t p :
  times !! i = Some t -> titles !! i = Some p ->
  zip_user username times titles !! i = Some (username, t, p).
Proof.
  intros Ht Hp. unfold zip_user.
  rewrite list_lookup_fmap.
  rewrite (proj2 (lookup_zip_with_Some pair times titles i (t, p)));
    [reflexivity|eauto].
Qed.

Lemma length_zip_page title editors times :
  length (zip_page title editors times) = Nat.min (length editors) (length times).
Proof. unfold zip_page. rewrite length_fmap. apply length_zip_with. Qed.

Lemma length_zip_user username times titles :
  length (zip_user username times titles) = Nat.min (length times) (length titles).
Proof. unfold zip_user. rewrite length_fmap. apply length_zip_with. Qed.

Lemma page_columns_kept dfs pp title limit r :
  match page_columns dfs r with
  | Some (a, b) => kept (judge (page_mode dfs pp title limit) r) = zip_page title a b
  | None => kept (judge (page_mode dfs pp title limit) r) = []
  end.
Proof.
  destruct r as [e|resp]; cbn [page_columns judge page_mode page_verdict];
    [reflexivity|].
  destruct (dfs (content resp)) as [doc|]; [|reflexivity].
  apply kept_judge_entries.
Qed.

Lemma user_columns_kept dfs pp username limit r :
  match user_columns dfs r with
  | Some (a, b) => kept (judge (user_mode dfs pp username limit) r) = zip_user username a b
  | None => kept (judge (user_mode dfs pp username limit) r) = []
  end.
Proof.
  destruct r as [e|resp]; cbn [user_columns judge user_mode user_verdict];
    [reflexivity|].
  destruct (http_error_msg resp); [reflexivity|].
  destruct (dfs (content resp)) as [doc|]; [|reflexivity].
  destruct (titles_of_hrefs (xp_title_hrefs doc)); [|reflexivity].
  apply kept_judge_entries.
Qed.

Lemma length_records_page dfs pp title limit rs :
  length (records (page_mode dfs pp title limit) rs) =
  sum_list ((fun r => common_length (page_columns dfs r)) <$> rs).
Proof.
  rewrite length_records. f_equal. apply list_fmap_ext. intros _ r _.
  pose proof (page_columns_kept dfs pp title limit r) as H.
  destruct (page_columns dfs r) as [[a b]|]; rewrite H; cbn [common_length];
    [apply length_zip_page|reflexivity].
Qed.

Lemma length_records_user dfs pp username limit rs :
  length (records (user_mode dfs pp username limit) rs) =
  sum_list ((fun r => common_length (user_columns dfs r)) <$> rs).
Proof.
  rewrite length_records. f_equal. apply list_fmap_ext. intros _ r _.
  pose proof (user_columns_kept dfs pp username limit r) as H.
  destruct (user_columns dfs r) as [[a b]|]; rewrite H; cbn [common_length];
    [apply length_zip_user|reflexivity].
Qed.

(** Claim C4. [zip] pairs the two columns up to the length of the shorter
    one and raises nothing: the entries kept from a page are the pairs of
    the common prefix.  Every call that returns, returns the entries kept
    from the pages it was sent, in order, so their number is the sum over
    these pages of the length of the shorter column (a page from which no
    columns were extracted counts for 0); a call that has not returned has
    spent all its fuel on requests. *)
Theorem mismatched_columns_are_truncated :
  (forall title editors times,
     length (zip_page title editors times) = Nat.min (length editors) (length times) /\
     forall i e t, editors !! i = Some e -> times !! i = Some t ->
                   zip_page title editors times !! i = Some (e, t, title)) /\
  (forall username times titles,
     length (zip_user username times titles) = Nat.min (length times) (length titles) /\
     forall i t p, times !! i = Some t -> titles !! i = Some p ->
                   zip_user username times titles !! i = Some (username, t, p)) /\
  (forall (srv : server) dfs pp (fuel : nat) (limit : Z) (off0 : pyval),
     (forall wiki_url page_match,
        Re.search Re.title_pattern wiki_url = Some page_match ->
        let md := page_mode dfs pp (page_title page_match) limit in
        (forall r a b, page_columns dfs r = Some (a, b) ->
                       kept (judge md r) = zip_page (page_title page_match) a b) /\
        exists r w',
          get_page_history srv dfs pp fuel wiki_url off0 limit fresh = (r, w') /\
          (r = Return (records md (fetched srv w')) \/
           r = Diverge /\ length (sent w') = fuel) /\
          length (records md (fetched srv w')) =
            sum_list ((fun r => common_length (page_columns dfs r)) <$> fetched srv w')) /\
     (forall username,
        let md := user_mode dfs pp username limit in
        (forall r a b, user_columns dfs r = Some (a, b) ->
                       kept (judge md r) = zip_user username a b) /\
        exists r w',
          get_user_edit_history srv dfs pp fuel username off0 limit fresh = (r, w') /\
          (r = Return (records md (fetched srv w')) \/
           r = Diverge /\ length (sent w') = fuel) /\
          length (records md (fetched srv w')) =
            sum_list ((fun r => common_length (user_columns dfs r)) <$> fetched srv w'))).
Proof.
  split; [|split].
  - intros title editors times. split;
      [apply length_zip_page|intros i e t; apply zip_page_lookup].
  - intros username times titles. split;
      [apply length_zip_user|intros i t p; apply zip_user_lookup].
  - intros srv dfs pp fuel limit off0. split.
    + intros wiki_url page_match Hs md. split.
      * intros r a b Hc.
        pose proof (page_columns_kept dfs pp (page_title page_match) limit r) as H.
        rewrite Hc in H. exact H.
      * rewrite (get_page_history_finish _ _ _ _ _ _ _ _ _ Hs).
        destruct (finish_any srv md page_handled sent_page_handled fuel off0)
          as (r & w' & Hrun & Hr).
        exists r, w'. split; [exact Hrun|]. split; [exact Hr|].
        apply length_records_page.
    + intros username md. split.
      * intros r a b Hc.
        pose proof (user_columns_kept dfs pp username limit r) as H.
        rewrite Hc in H. exact H.
      * rewrite get_user_edit_history_finish.
        destruct (finish_any srv md user_handled sent_user_handled fuel off0)
          as (r & w' & Hrun & Hr).
        exists r, w'. split; [exact Hrun|]. split; [exact Hr|].
        apply length_records_user.
Qed.

Lemma mismatched_columns_witness :
  let srv := Fixture.serve [Fixture.ok "full"; Fixture.ok "lopsided"] in
  let dfs := Fixture.html Fixture.bodies in
  let pp := Fixture.dates Fixture.calendar in
  let md := page_mode dfs pp "A_Troublesome_Inheritance" 2 in
  kept (judge md (Fixture.ok "lopsided")) =
    [("Ann", "13:02, 4 May 2011", "A_Troublesome_Inheritance")] /\
  exists r w',
    get_page_history srv dfs pp 3 Fixture.troublesome (PStr "") 2 fresh = (r, w') /\
    (r = Return (records md (fetched srv w')) \/
     r = Diverge /\ length (sent w') = 3%nat) /\
    length (records md (fetched srv w')) =
      sum_list ((fun r => common_length (page_columns dfs r)) <$> fetched srv w').
Proof.
  intros srv dfs pp md.
  destruct (proj2 (proj2 mismatched_columns_are_truncated) srv dfs pp 3%nat 2 (PStr ""))
    as [Hpage _].
  destruct (Hpage Fixture.troublesome (<[1%nat := "A_Troublesome_Inheritance"]> ∅))
    as [Hkept Hrun]; [vm_compute; reflexivity|].
  split; [|exact Hrun].
  apply (Hkept (Fixture.ok "lopsided") ["Ann"]
           ["13:02, 4 May 2011"; "00:00, 1 January 2010"]).
  reflexivity.
Defined.


(* ===================================================================== *)
(** * Title recovery *)
(* ===================================================================== *)

Lemma search_group1_none s : search_group1 s = None <-> has_segment s = false.
Proof.
  unfold search_group1. rewrite <- search_none_iff.
  destruct (Re.search Re.title_pattern s); simpl; split; congruence.
Qed.

Lemma titles_of_hrefs_none hrefs :
  titles_of_hrefs hrefs = None <->
  existsb (fun href => negb (has_segment href)) hrefs = true.
Proof.
  induction hrefs as [|h hrefs IH]; cbn [titles_of_hrefs existsb].
  - split; discriminate.
  - destruct (search_group1 h) as [t|] eqn:Hh.
    + assert (Hs : has_segment h = true).
      { destruct (has_segment h) eqn:E; [reflexivity|].
        apply search_group1_none in E. congruence. }
      rewrite Hs. cbn [negb orb]. rewrite <- IH.
      destruct (titles_of_hrefs hrefs); split; congruence.
    + apply search_group1_none in Hh. rewrite Hh. cbn [negb orb]. tauto.
Qed.

(** Claim C5. A URL in which no [/] is followed by another character has
    no segment for the title pattern to find: the search fails, and
    [get_page_history] logs the error and raises [ValueError] with no
    request sent and no entry produced.  The search fails on no other
    URL.  The caller, [main], stops there: invoked for such a page it ends
    with exit status 1 from its own search of the title, or with the
    [ValueError] of [get_page_history] when an output path was given, and
    in both cases with no request sent and no file written. *)
Theorem no_title_raises_before_any_fetch :
  (forall (srv : server) dfs pp (fuel : nat) wiki_url (off0 : pyval) (limit : Z)
          (w : world),
     (Re.search Re.title_pattern wiki_url = None <-> has_segment wiki_url = false) /\
     (has_segment wiki_url = false ->
      get_page_history srv dfs pp fuel wiki_url off0 limit w =
        (Raise (ValueError "No title found"),
         World (sent w) (log w ++ [(ERROR, "No title found")])))) /\
  (forall (srv : server) dfs pp (fuel : nat) (args : Main.namespace)
          (p : Main.process) wiki_url,
     Main.page args = Some wiki_url ->
     Main.truthy (Main.page args) = true ->
     Main.truthy (Main.user args) = false ->
     has_segment wiki_url = false ->
     exists e p',
       Main.main srv dfs pp fuel args p = (Raise e, p') /\
       (e = SystemExit 1 \/ e = ValueError "No title found") /\
       sent (Main.web p') = sent (Main.web p) /\
       Main.disk p' = Main.disk p).
Proof.
  assert (Hget : forall (srv : server) dfs pp (fuel : nat) wiki_url (off0 : pyval)
                        (limit : Z) (w : world),
            has_segment wiki_url = false ->
            get_page_history srv dfs pp fuel wiki_url off0 limit w =
              (Raise (ValueError "No title found"),
               World (sent w) (log w ++ [(ERROR, "No title found")]))).
  { intros srv dfs pp fuel wiki_url off0 limit w H.
    apply search_none_iff in H.
    unfold get_page_history. rewrite H. reflexivity. }
  split.
  - intros srv dfs pp fuel wiki_url off0 limit w.
    split; [apply search_none_iff|apply Hget].
  - intros srv dfs pp fuel args p wiki_url Hpage Htp Htu Hseg.
    unfold Main.main. rewrite Htp, Htu, Hpage. cbn [orb negb andb default].
    unfold mbind, M_bind, Py.bind.
    destruct (Main.truthy (Main.output args)).
    + cbn [mret M_ret Py.ret]. unfold Main.in_web, id.
      rewrite (Hget srv dfs pp fuel wiki_url (PStr EmptyString) 500 (Main.web p) Hseg).
      eexists _, _. split; [reflexivity|]. cbn [Main.web Main.disk sent]. auto.
    + apply search_group1_none in Hseg. unfold id. rewrite Hseg.
      unfold Main.in_web, logger_w, modify, Main.sys_exit, raise, Py.bind.
      eexists _, _. split; [reflexivity|]. cbn [Main.web Main.disk sent log_line]. auto.
Qed.

Lemma no_title_witness :
  get_page_history (Fixture.serve []) (Fixture.html []) (Fixture.dates [])
    5 "https://" (PStr "") 500 fresh =
  (Raise (ValueError "No title found"), World [] [(ERROR, "No title found")]).
Proof.
  apply (proj1 no_title_raises_before_any_fetch (Fixture.serve []) (Fixture.html [])
           (Fixture.dates []) 5%nat "https://" (PStr "") 500 fresh).
  reflexivity.
Defined.

(** Claim C6. In user mode a link in which the title pattern finds nothing
    makes the list comprehension raise [AttributeError]: the exception
    leaves the loop, none of the entries of that page is kept, and no
    further page is requested.  After [n] full pages the locals hold, and
    the call returns, the entries of these [n] pages. *)
Theorem link_without_title_aborts_page :
  forall (srv : server) dfs pp (n fuel : nat) (limit : Z) (off0 : pyval) username,
    (n < fuel)%nat ->
    let md := user_mode dfs pp username limit in
    (forall i u, (i < n)%nat -> is_more (judge md (srv i u)) = true) ->
    (forall u, link_astray dfs (srv n u) = true) ->
    exists w' m',
      user_history_loop srv dfs pp fuel username limit (start md off0 fresh) =
        (Raise AttributeError, m') /\
      all_entries (vars m') = records md (take n (fetched srv w')) /\
      get_user_edit_history srv dfs pp fuel username off0 limit fresh =
        (Return (records md (take n (fetched srv w'))), w') /\
      length (sent w') = S n.
Proof.
  intros srv dfs pp n fuel limit off0 username Hfuel md Hfull Hastray.
  assert (Hab : forall u, judge md (srv n u) = Abort AttributeError).
  { intros u. specialize (Hastray u).
    unfold md, link_astray in *. cbn [judge user_mode]. unfold user_verdict.
    destruct (srv n u) as [e|resp]; [discriminate|].
    destruct (http_error_msg resp); [discriminate|].
    destruct (dfs (content resp)) as [doc|]; [|discriminate].
    apply titles_of_hrefs_none in Hastray. rewrite Hastray. reflexivity. }
  destruct (finish_until_abort srv md user_handled sent_user_handled n fuel off0
              Hfuel Hfull) as (w' & m' & e & Hrun & (u & _ & He) & Hall & Hfin & Hlen).
  { intros u. eauto. }
  rewrite Hab in He. injection He as <-.
  exists w', m'. rewrite user_history_loop_paginate, get_user_edit_history_finish.
  auto.
Qed.

Lemma link_without_title_witness :
  let srv := Fixture.serve [Fixture.ok "full"; Fixture.ok "astray"] in
  let dfs := Fixture.html Fixture.bodies in
  let pp := Fixture.dates Fixture.calendar in
  let md := user_mode dfs pp "Ann" 2 in
  exists w' m',
    user_history_loop srv dfs pp 3 "Ann" 2 (start md (PStr "") fresh) =
      (Raise AttributeError, m') /\
    all_entries (vars m') = records md (take 1 (fetched srv w')) /\
    get_user_edit_history srv dfs pp 3 "Ann" (PStr "") 2 fresh =
      (Return (records md (take 1 (fetched srv w'))), w') /\
    length (sent w') = 2%nat.
Proof.
  intros srv dfs pp md.
  apply (link_without_title_aborts_page srv dfs pp 1%nat 3%nat 2 (PStr "") "Ann").
  - lia.
  - intros [|i] u Hi; [vm_compute; reflexivity|lia].
  - intros u. vm_compute. reflexivity.
Defined.

(** Claim C7. The title pattern returns, as group 1, the last segment of
    the URL that is not empty and stands behind a [/]: for a URL
    [pre/segment] followed by nothing but slashes, with no line feed in
    [pre], that is [segment].  So the URL of A_Troublesome_Inheritance
    gives that title, and a link that ends in /wiki/Some_Page gives
    Some_Page, in [get_page_history] as in the list comprehension of
    [get_user_edit_history]. *)
Theorem title_is_last_segment :
  (forall pre c seg t,
     no_line_feed pre = true ->
     no_slash (String c seg) = true ->
     only_slashes t = true ->
     exists m,
       Re.search Re.title_pattern (pre +:+ String slash (String c seg) +:+ t)
         = Some m /\
       page_title m = String c seg /\
       search_group1 (pre +:+ String slash (String c seg) +:+ t)
         = Some (Some (String c seg))) /\
  (exists m,
     Re.search Re.title_pattern
       "https://en.wikipedia.org/wiki/A_Troublesome_Inheritance" = Some m /\
     page_title m = "A_Troublesome_Inheritance") /\
  (forall pre,
     no_line_feed pre = true ->
     search_group1 (pre +:+ "/wiki/Some_Page") = Some (Some "Some_Page") /\
     titles_of_hrefs [pre +:+ "/wiki/Some_Page"] = Some ["Some_Page"]).
Proof.
  assert (General : forall pre c seg t,
     no_line_feed pre = true ->
     no_slash (String c seg) = true ->
     only_slashes t = true ->
     exists m,
       Re.search Re.title_pattern (pre +:+ String slash (String c seg) +:+ t)
         = Some m /\
       page_title m = String c seg /\
       search_group1 (pre +:+ String slash (String c seg) +:+ t)
         = Some (Some (String c seg))).
  { intros pre c seg t Hp Hs Ht.
    destruct (search_last_segment pre c seg t Hp Hs Ht) as (m & Hm & Hg).
    exists m. split; [exact Hm|]. unfold page_title, search_group1.
    rewrite Hm. simpl. rewrite Hg. split; reflexivity. }
  split; [exact General|]. split.
  - destruct (General "https://en.wikipedia.org/wiki" "A"%char
                "_Troublesome_Inheritance" "") as (m & Hm & Ht & _);
      try reflexivity.
    exists m. split; [exact Hm|exact Ht].
  - intros pre Hp.
    destruct (General (pre +:+ "/wiki") "S"%char "ome_Page" "") as (m & _ & _ & Hg).
    + clear -Hp. induction pre as [|a pre IH]; [reflexivity|].
      cbn [no_line_feed all_chars] in Hp. apply andb_true_iff in Hp as [Ha Hp].
      simpl. cbn [no_line_feed all_chars]. rewrite Ha. apply IH, Hp.
    + reflexivity.
    + reflexivity.
    + assert (E : (pre +:+ "/wiki") +:+ String slash "Some_Page" +:+ ""
                  = pre +:+ "/wiki/Some_Page").
      { clear. induction pre as [|a pre IH]; [reflexivity|].
        simpl. f_equal. exact IH. }
      rewrite E in Hg. split; [exact Hg|].
      cbn [titles_of_hrefs]. rewrite Hg. reflexivity.
Qed.

Lemma title_witness :
  exists m,
    Re.search Re.title_pattern "/w/index.php/wiki/Some_Page//" = Some m /\
    page_title m = "Some_Page" /\
    search_group1 "/w/index.php/wiki/Some_Page//" = Some (Some "Some_Page").
Proof.
  apply (proj1 title_is_last_segment "/w/index.php/wiki" "S"%char "ome_Page" "//");
    reflexivity.
Defined.


(* ===================================================================== *)
(** * Exceptions and the [finally] clause *)
(* ===================================================================== *)

Lemma finish_never_raises handled rm e w : finish handled rm <> (Raise e, w).
Proof. destruct rm as [[[]|e0|] m]; discriminate. Qed.

(** Claim C9. The [return] in the [finally] clause replaces every
    exception of the loop body: a [try] statement of this shape never
    raises, so neither function, once its loop is entered, lets an
    exception reach its caller.  When the loop raises [e] with the locals
    as they are in [m'], the call returns the [all_entries] of [m']; and
    after [n] full pages, a round that ends the loop in any way, by an
    exception of any kind or not, makes the call return the entries kept
    so far, those of the round's own page included when they were kept
    before the exception. *)
Theorem loop_exceptions_never_escape :
  (forall (S A B : Type) (body : M S A) (handler : request_error -> M S unit)
          (f : S -> B) (s : S) e s',
     (forall r s0, exists s1, handler r s0 = (Return tt, s1)) ->
     try_except_finally_return body handler (gets f) s <> (Raise e, s')) /\
  (forall (srv : server) dfs pp (fuel : nat) (limit : Z) (off0 : pyval) (w : world),
     (forall wiki_url page_match,
        Re.search Re.title_pattern wiki_url = Some page_match ->
        let md := page_mode dfs pp (page_title page_match) limit in
        (forall e w',
           get_page_history srv dfs pp fuel wiki_url off0 limit w <> (Raise e, w')) /\
        (forall e m',
           page_history_loop srv dfs pp fuel (page_title page_match) limit
             (start md off0 w) = (Raise e, m') ->
           exists w',
             get_page_history srv dfs pp fuel wiki_url off0 limit w =
               (Return (all_entries (vars m')), w') /\
             sent w' = sent (env m'))) /\
     (forall username,
        let md := user_mode dfs pp username limit in
        (forall e w',
           get_user_edit_history srv dfs pp fuel username off0 limit w <> (Raise e, w')) /\
        (forall e m',
           user_history_loop srv dfs pp fuel username limit (start md off0 w)
             = (Raise e, m') ->
           exists w',
             get_user_edit_history srv dfs pp fuel username off0 limit w =
               (Return (all_entries (vars m')), w') /\
             sent w' = sent (env m')))) /\
  (forall (srv : server) dfs pp (n fuel : nat) (limit : Z) (off0 : pyval),
     (n < fuel)%nat ->
     (forall wiki_url page_match,
        Re.search Re.title_pattern wiki_url = Some page_match ->
        let md := page_mode dfs pp (page_title page_match) limit in
        (forall i u, (i < n)%nat -> is_more (judge md (srv i u)) = true) ->
        (forall u, is_more (judge md (srv n u)) = false) ->
        exists w',
          get_page_history srv dfs pp fuel wiki_url off0 limit fresh =
            (Return (records md (fetched srv w')), w') /\
          length (sent w') = S n) /\
     (forall username,
        let md := user_mode dfs pp username limit in
        (forall i u, (i < n)%nat -> is_more (judge md (srv i u)) = true) ->
        (forall u, is_more (judge md (srv n u)) = false) ->
        exists w',
          get_user_edit_history srv dfs pp fuel username off0 limit fresh =
            (Return (records md (fetched srv w')), w') /\
          length (sent w') = S n)).
Proof.
  split; [|split].
  - intros S A B body handler f s e s' Hh.
    unfold try_except_finally_return, gets.
    destruct (body s) as [[a|e0|] s0]; try discriminate.
    destruct (is_RequestException e0) as [r|]; [|discriminate].
    destruct (Hh r s0) as [s1 ->]. discriminate.
  - intros srv dfs pp fuel limit off0 w. split.
    + intros wiki_url page_match Hs md.
      rewrite (get_page_history_finish _ _ _ _ _ _ _ _ _ Hs). split.
      * intros e w'. apply finish_never_raises.
      * intros e m' Hloop. rewrite page_history_loop_paginate in Hloop.
        unfold md in *. rewrite Hloop. cbn [finish]. eexists. split; [reflexivity|].
        apply sent_page_handled.
    + intros username md.
      rewrite get_user_edit_history_finish. split.
      * intros e w'. apply finish_never_raises.
      * intros e m' Hloop. rewrite user_history_loop_paginate in Hloop.
        unfold md in *. rewrite Hloop. cbn [finish]. eexists. split; [reflexivity|].
        apply sent_user_handled.
  - intros srv dfs pp n fuel limit off0 Hfuel. split.
    + intros wiki_url page_match Hs md Hfull Hstop.
      rewrite (get_page_history_finish _ _ _ _ _ _ _ _ _ Hs).
      destruct (finish_until_stop srv md page_handled sent_page_handled n fuel off0
                  Hfuel Hfull Hstop) as (w' & m' & u & _ & Hfin & _ & _ & Hlen & _).
      eauto.
    + intros username md Hfull Hstop.
      rewrite get_user_edit_history_finish.
      destruct (finish_until_stop srv md user_handled sent_user_handled n fuel off0
                  Hfuel Hfull Hstop) as (w' & m' & u & _ & Hfin & _ & _ & Hlen & _).
      eauto.
Qed.

Lemma loop_exceptions_witness :
  let srv := Fixture.serve [Fixture.ok "full"; Fixture.ok "stale"; Fixture.ok "short"] in
  let dfs := Fixture.html Fixture.bodies in
  let pp := Fixture.dates Fixture.calendar in
  let md := page_mode dfs pp "A_Troublesome_Inheritance" 2 in
  judge md (Fixture.ok "stale") =
    Broken [("Ann", "yesterday", "A_Troublesome_Inheritance");
            ("Bob", "some time ago", "A_Troublesome_Inheritance")] ParserError /\
  exists w',
    get_page_history srv dfs pp 5 Fixture.troublesome (PStr "") 2 fresh =
      (Return (records md (fetched srv w')), w') /\
    length (sent w') = 2%nat.
Proof.
  intros srv dfs pp md. split; [vm_compute; reflexivity|].
  destruct (proj2 (proj2 loop_exceptions_never_escape) srv dfs pp 1%nat 5%nat 2
              (PStr "") ltac:(lia)) as [Hpage _].
  destruct (Hpage Fixture.troublesome (<[1%nat := "A_Troublesome_Inheritance"]> ∅))
    as (w' & Hrun & Hlen).
  - vm_compute. reflexivity.
  - intros [|i] u Hi; [vm_compute; reflexivity|lia].
  - intros u. vm_compute. reflexivity.
  - exists w'. split; [exact Hrun|exact Hlen].
Defined.

(* ===================================================================== *)
(** * The HTTP status *)
(* ===================================================================== *)

Lemma paginate_ext srv srv' md fuel : forall m,
  (forall k u, judge md (srv k u) = judge md (srv' k u)) ->
  paginate srv md fuel m = paginate srv' md fuel m.
Proof.
  induction fuel as [|fuel IH]; intros m Hj; [reflexivity|].
  cbn [paginate]. rewrite Hj.
  destruct (judge md (srv' _ _)); try reflexivity. apply IH, Hj.
Qed.

Lemma page_verdict_same_body dfs pp title limit r r' :
  same_body r r' ->
  page_verdict dfs pp title limit r = page_verdict dfs pp title limit r'.
Proof.
  destruct r as [e|a], r' as [e'|a']; cbn [same_body page_verdict];
    try contradiction; intros ->; reflexivity.
Qed.

Lemma http_error_msg_some resp :
  400 <= status_code resp < 600 -> exists msg, http_error_msg resp = Some msg.
Proof.
  intros H. unfold http_error_msg.
  destruct (Z.leb_spec 400 (status_code resp)); [|lia].
  destruct (Z.ltb_spec (status_code resp) 500); cbn [andb]; [eauto|].
  destruct (Z.leb_spec 500 (status_code resp)); [|lia].
  destruct (Z.ltb_spec (status_code resp) 600); cbn [andb]; [eauto|lia].
Qed.

(** Claim C10. [get_page_history] never looks at the status of a response:
    two servers whose answers differ in their status lines only give the
    same run, and a response of any status, 404 or 500 included, whose body
    yields fewer than [limit] entries ends the loop normally, its entries
    kept.  [get_user_edit_history] calls [raise_for_status]: a status from
    400 to 599 is a fetch fault there, which ends the loop with a
    [RequestException] and the call with the entries of the pages before
    it. *)
Theorem status_is_checked_in_user_mode_only :
  (forall (srv srv' : server) dfs pp (fuel : nat) wiki_url (off0 : pyval)
          (limit : Z) (w : world),
     (forall k u, same_body (srv k u) (srv' k u)) ->
     get_page_history srv dfs pp fuel wiki_url off0 limit w =
     get_page_history srv' dfs pp fuel wiki_url off0 limit w) /\
  (forall (srv : server) dfs pp (n fuel : nat) (limit : Z) (off0 : pyval),
     (n < fuel)%nat ->
     (forall wiki_url page_match,
        Re.search Re.title_pattern wiki_url = Some page_match ->
        let md := page_mode dfs pp (page_title page_match) limit in
        (forall i u, (i < n)%nat -> is_more (judge md (srv i u)) = true) ->
        (forall u, exists resp doc,
           srv n u = Answer resp /\ dfs (content resp) = Some doc /\
           Z.of_nat (length (zip_page (page_title page_match)
                               (xp_list_bdi doc) (xp_list_dates doc))) < limit) ->
        exists w' m',
          page_history_loop srv dfs pp fuel (page_title page_match) limit
            (start md off0 fresh) = (Return tt, m') /\
          get_page_history srv dfs pp fuel wiki_url off0 limit fresh =
            (Return (records md (fetched srv w')), w') /\
          length (sent w') = S n) /\
     (forall username,
        let md := user_mode dfs pp username limit in
        (forall i u, (i < n)%nat -> is_more (judge md (srv i u)) = true) ->
        (forall u, exists resp,
           srv n u = Answer resp /\ 400 <= status_code resp < 600) ->
        exists w' m' e,
          user_history_loop srv dfs pp fuel username limit (start md off0 fresh)
            = (Raise (RequestException e), m') /\
          get_user_edit_history srv dfs pp fuel username off0 limit fresh =
            (Return (records md (take n (fetched srv w'))), w') /\
          length (sent w') = S n)).
Proof.
  split.
  - intros srv srv' dfs pp fuel wiki_url off0 limit w Hsame.
    destruct (Re.search Re.title_pattern wiki_url) as [pm|] eqn:Hs.
    + rewrite !(get_page_history_finish _ _ _ _ _ _ _ _ _ Hs).
      f_equal. apply paginate_ext. intros k u.
      apply page_verdict_same_body, Hsame.
    + unfold get_page_history. rewrite Hs. reflexivity.
  - intros srv dfs pp n fuel limit off0 Hfuel. split.
    + intros wiki_url page_match Hs md Hfull Hshort.
      assert (Hfinal : forall u, exists es, judge md (srv n u) = Final es).
      { intros u. destruct (Hshort u) as (resp & doc & Hr & Hd & Hl).
        unfold md. cbn [judge page_mode]. rewrite Hr. cbn [page_verdict].
        rewrite Hd. unfold judge_entries.
        destruct (Z.ltb_spec (Z.of_nat (length (zip_page (page_title page_match)
                    (xp_list_bdi doc) (xp_list_dates doc)))) limit); [eauto|lia]. }
      destruct (finish_until_stop srv md page_handled sent_page_handled n fuel off0
                  Hfuel Hfull) as (w' & m' & u & Hrun & Hfin & _ & _ & Hlen & _).
      { intros u. destruct (Hfinal u) as [es ->]. reflexivity. }
      destruct (Hfinal u) as [es Hes]. rewrite Hes in Hrun.
      exists w', m'. rewrite page_history_loop_paginate.
      rewrite (get_page_history_finish _ _ _ _ _ _ _ _ _ Hs). auto.
    + intros username md Hfull Hbad.
      assert (Hab : forall u, exists e, judge md (srv n u) = Abort (RequestException e)).
      { intros u. destruct (Hbad u) as (resp & Hr & Hst).
        destruct (http_error_msg_some resp Hst) as [msg Hmsg].
        unfold md. cbn [judge user_mode]. rewrite Hr. cbn [user_verdict].
        rewrite Hmsg. eauto. }
      destruct (finish_until_abort srv md user_handled sent_user_handled n fuel off0
                  Hfuel Hfull) as (w' & m' & e & Hrun & (u & _ & He) & _ & Hfin & Hlen).
      { intros u. destruct (Hab u) as [e He]. eauto. }
      destruct (Hab u) as [e' He']. rewrite He' in He. injection He as <-.
      exists w', m', e'. rewrite user_history_loop_paginate, get_user_edit_history_finish.
      auto.
Qed.

Lemma status_witness :
  let srv := Fixture.serve [Fixture.ok "full"; Fixture.status 404 "Not Found" "short"] in
  let dfs := Fixture.html Fixture.bodies in
  let pp := Fixture.dates Fixture.calendar in
  let md := page_mode dfs pp "A_Troublesome_Inheritance" 2 in
  exists w' m',
    page_history_loop srv dfs pp 3 "A_Troublesome_Inheritance" 2
      (start md (PStr "") fresh) = (Return tt, m') /\
    get_page_history srv dfs pp 3 Fixture.troublesome (PStr "") 2 fresh =
      (Return (records md (fetched srv w')), w') /\
    length (sent w') = 2%nat.
Proof.
  intros srv dfs pp md.
  destruct (proj2 status_is_checked_in_user_mode_only srv dfs pp 1%nat 3%nat 2
              (PStr "") ltac:(lia)) as [Hpage _].
  destruct (Hpage Fixture.troublesome (<[1%nat := "A_Troublesome_Inheritance"]> ∅))
    as (w' & m' & Hloop & Hrun & Hlen).
  - vm_compute. reflexivity.
  - intros [|i] u Hi; [vm_compute; reflexivity|lia].
  - intros u. exists (Response 404 "Not Found" "https://en.wikipedia.org/w/index.php" "short"),
      Fixture.short. repeat split; vm_compute; reflexivity.
  - exists w', m'. split; [exact Hloop|]. split; [exact Hrun|exact Hlen].
Defined.


(* ===================================================================== *)
(** * The writer *)
(* ===================================================================== *)

Section CsvFacts.

Import Csv.

Lemma str_app_nil_r s : s +:+ EmptyString = s.
Proof. induction s as [|c s IH]; simpl; [|rewrite IH]; reflexivity. Qed.

Lemma str_app_assoc a b c : (a +:+ b) +:+ c = a +:+ (b +:+ c).
Proof. induction a as [|x a IH]; simpl; [|rewrite IH]; reflexivity. Qed.

Lemma str_app_cons c a b : String c a +:+ b = String c (a +:+ b).
Proof. reflexivity. Qed.

Lemma ends_line_dquote d rest : ends_line dquote (String d rest) = false.
Proof. reflexivity. Qed.

Lemma special_false c :
  special c = false ->
  ascii_eqb c comma = false /\ ascii_eqb c dquote = false /\
  ascii_eqb c CR = false /\ ascii_eqb c LF = false.
Proof.
  unfold special. intros H.
  apply orb_false_iff in H as [H HLF]. apply orb_false_iff in H as [H HCR].
  apply orb_false_iff in H as [Hc Hq]. auto.
Qed.

Lemma doubled_plain s : has_special s = false -> doubled s = s.
Proof.
  induction s as [|c s IH]; [reflexivity|]. cbn [has_special doubled].
  intros H. apply orb_false_iff in H as [Hc Hs].
  apply special_false in Hc as (_ & Hq & _). rewrite Hq, (IH Hs). reflexivity.
Qed.

(** Inside quotes: the doubled body of a field, up to the closing quote,
    leaves the parser behind that quote with the body in its buffer. *)
Lemma feed_quoted_body body : forall buf fs d rest recs,
  feed (doubled body +:+ String dquote (String d rest))
    (Parser IN_QUOTED_FIELD buf fs) recs =
  feed (String d rest) (Parser QUOTE_IN_QUOTED_FIELD (buf +:+ body) fs) recs.
Proof.
  induction body as [|c body IH]; intros buf fs d rest recs.
  - rewrite str_app_nil_r. reflexivity.
  - cbn [doubled]. destruct (ascii_eqb c dquote) eqn:Hq.
    + apply ascii_eqb_eq in Hq. subst c.
      rewrite !str_app_cons.
      cbn [feed parse_process_char st]. 
      change (ascii_eqb dquote dquote) with true. cbv iota.
      rewrite ends_line_dquote. cbv iota.
      cbn [parse_process_char st].
      change (ascii_eqb dquote dquote) with true. cbv iota.
      assert (He : ends_line dquote
                     (doubled body +:+ String dquote (String d rest)) = false).
      { destruct (doubled body); apply ends_line_dquote. }
      rewrite He. unfold parse_add_char. cbn [field fields].
      rewrite IH, str_app_assoc. reflexivity.
    + rewrite str_app_cons.
      cbn [feed parse_process_char st]. rewrite Hq.
      unfold parse_add_char. cbn [field fields].
      destruct (ends_line c _); cbn [parse_process_char st state_eqb];
        rewrite IH, str_app_assoc; reflexivity.
Qed.

(** Outside quotes: ordinary characters pile up in the buffer. *)
Lemma feed_plain_body body : forall buf fs d rest recs,
  has_special body = false ->
  feed (body +:+ String d rest) (Parser IN_FIELD buf fs) recs =
  feed (String d rest) (Parser IN_FIELD (buf +:+ body) fs) recs.
Proof.
  induction body as [|c body IH]; intros buf fs d rest recs Hs.
  - rewrite str_app_nil_r. reflexivity.
  - cbn [has_special] in Hs. apply orb_false_iff in Hs as [Hc Hs].
    apply special_false in Hc as (Hcomma & Hq & HCR & HLF).
    rewrite str_app_cons.
    cbn [feed parse_process_char st]. unfold is_newline. rewrite HLF, HCR, Hcomma.
    cbn [orb].
    assert (He : ends_line c (body +:+ String d rest) = false).
    { unfold ends_line. rewrite HLF, HCR. destruct body; reflexivity. }
    rewrite He. unfold parse_add_char. cbn [field fields].
    rewrite IH by exact Hs. rewrite str_app_assoc. reflexivity.
Qed.

Lemma feed_cons c text p p1 recs :
  parse_process_char p (Ch c) = Some p1 ->
  ends_line c text = false ->
  feed (String c text) p recs = feed text p1 recs.
Proof. intros Hp He. cbn [feed]. rewrite Hp, He. reflexivity. Qed.

Lemma ends_line_plain c text d rest :
  ascii_eqb c LF = false -> ascii_eqb c CR = false ->
  ends_line c (text +:+ String d rest) = false.
Proof.
  intros HLF HCR. unfold ends_line. rewrite HLF, HCR.
  destruct text; reflexivity.
Qed.

(** A field as the writer puts it out, and the separator behind it. *)
Lemma feed_field q f d d' rest s0 fs recs :
  s0 = START_FIELD \/ s0 = START_RECORD ->
  d = comma \/ d = CR /\ d' = LF ->
  (s0 = START_RECORD -> d = CR -> quoted q f = true \/ f <> EmptyString) ->
  feed (join_append_data q f +:+ String d (String d' rest))
    (Parser s0 EmptyString fs) recs =
  feed (String d' rest) (Parser (after_separator d) EmptyString (fs ++ [f])) recs.
Proof.
  intros Hs0 Hd Hfirst. unfold join_append_data.
  destruct (quoted q f) eqn:Hq.
  - rewrite str_app_cons, str_app_assoc, str_app_cons.
    change (EmptyString +:+ String d (String d' rest)) with (String d (String d' rest)).
    rewrite (feed_cons dquote _ _ (Parser IN_QUOTED_FIELD EmptyString fs)).
    + rewrite feed_quoted_body.
      change (EmptyString +:+ f) with f.
      destruct Hd as [->|[-> ->]]; apply feed_cons; reflexivity.
    + destruct Hs0 as [->| ->]; reflexivity.
    + destruct (doubled f); apply ends_line_dquote.
  - unfold quoted in Hq. apply orb_false_iff in Hq as [Hsp Hempty].
    rewrite doubled_plain by exact Hsp.
    destruct f as [|c f].
    + change (EmptyString +:+ ?x) with x.
      destruct Hs0 as [->| ->].
      * destruct Hd as [->|[-> ->]]; apply feed_cons; reflexivity.
      * destruct Hd as [->|[-> ->]]; [apply feed_cons; reflexivity|].
        exfalso. destruct (Hfirst eq_refl eq_refl) as [H|H];
          [|contradiction].
        unfold quoted in H. cbn [has_special orb] in H. congruence.
    + cbn [has_special] in Hsp. apply orb_false_iff in Hsp as [Hc Hsp].
      apply special_false in Hc as (Hcomma & Hdq & HCR & HLF).
      rewrite str_app_cons.
      rewrite (feed_cons c _ _ (Parser IN_FIELD (String c EmptyString) fs)).
      * rewrite feed_plain_body by exact Hsp.
        change (String c EmptyString +:+ f) with (String c f).
        destruct Hd as [->|[-> ->]]; apply feed_cons; reflexivity.
      * destruct Hs0 as [->| ->];
          cbn [parse_process_char st start_field]; unfold is_newline;
          rewrite ?HLF, ?HCR, ?Hdq, ?Hcomma; reflexivity.
      * apply ends_line_plain; assumption.
Qed.

Lemma join_append_tail q row rest :
  exists d' rest', join_append q row +:+ lineterminator +:+ rest = String d' rest'.
Proof.
  destruct (join_append q row); [|rewrite str_app_cons]; eauto.
Qed.

(** The fields of a row, from any point behind a separator or from the
    start of the record. *)
Lemma feed_fields q row : forall s0 fs recs rest,
  row <> [] ->
  s0 = START_FIELD \/ s0 = START_RECORD /\ (row = [EmptyString] -> q = true) ->
  feed (join_append q row +:+ lineterminator +:+ rest)
    (Parser s0 EmptyString fs) recs =
  feed rest parse_reset (recs ++ [fs ++ row]).
Proof.
  induction row as [|f row IH]; intros s0 fs recs rest Hne Hs0; [contradiction|].
  destruct row as [|f2 row].
  - cbn [join_append]. unfold lineterminator. rewrite !str_app_cons.
    change (EmptyString +:+ rest) with rest.
    rewrite (feed_field q f CR LF rest s0 fs recs).
    + reflexivity.
    + destruct Hs0 as [->|[-> _]]; auto.
    + right. auto.
    + intros -> _. destruct Hs0 as [Hs0|[_ Hq]]; [discriminate|].
      destruct f as [|c f]; [|right; discriminate].
      left. rewrite (Hq eq_refl). reflexivity.
  - change (join_append q (f :: f2 :: row))
      with (join_append_data q f +:+ String comma (join_append q (f2 :: row))).
    rewrite str_app_assoc, str_app_cons.
    destruct (join_append_tail q (f2 :: row) rest) as (d' & rest' & Htail).
    rewrite Htail.
    rewrite (feed_field q f comma d' rest' s0 fs recs).
    + rewrite <- Htail.
      change (after_separator comma) with START_FIELD.
      rewrite IH by (discriminate || auto).
      rewrite <- app_assoc. reflexivity.
    + destruct Hs0 as [->|[-> _]]; auto.
    + left. reflexivity.
    + intros _ H. discriminate H.
Qed.

(** A row written and read back. *)
Lemma feed_writerow row rest recs :
  feed (writerow row +:+ rest) parse_reset recs =
  feed rest parse_reset (recs ++ [row]).
Proof.
  unfold writerow. destruct row as [|f row].
  - reflexivity.
  - rewrite str_app_assoc.
    apply (feed_fields (length (f :: row) =? 1)%nat (f :: row) START_RECORD []).
    + discriminate.
    + right. split; [reflexivity|]. intros H.
      injection H as -> ->. reflexivity.
Qed.

Lemma feed_writerows rows : forall recs,
  feed (writerows rows) parse_reset recs = Some (parse_reset, recs ++ rows).
Proof.
  induction rows as [|row rows IH]; intros recs; cbn [writerows].
  - rewrite app_nil_r. reflexivity.
  - rewrite feed_writerow, IH, <- app_assoc. reflexivity.
Qed.

(** Whatever rows the writer is given, the reader gives them back. *)
Lemma reader_writerows rows : reader (writerows rows) = Some rows.
Proof. unfold reader. rewrite feed_writerows. reflexivity. Qed.

(** The writer's side effects on the file store. *)
Lemma writer_writerows_run path rows : forall fs text,
  files fs !! path = Some text ->
  writer_writerows path rows fs =
  (Return tt,
   Filesystem (<[path := text +:+ writerows rows]> (files fs)) (unwritable fs)).
Proof.
  induction rows as [|row rows IH]; intros fs text Hf.
  - cbn [writer_writerows writerows]. rewrite str_app_nil_r, insert_id by exact Hf.
    destruct fs; reflexivity.
  - cbn [writer_writerows writerows].
    unfold mbind, M_bind, Py.bind, writer_writerow, file_write, modify.
    rewrite Hf. cbn [default].
    erewrite IH by (cbn [files]; apply lookup_insert_eq).
    cbn [files unwritable]. rewrite insert_insert_eq, str_app_assoc. reflexivity.
Qed.

Lemma write_tuples_to_csv_run editing_history output_file fs :
  output_file ∉ unwritable fs ->
  write_tuples_to_csv editing_history output_file fs =
  (Return tt,
   Filesystem
     (<[output_file := writerows (headers :: (row_of <$> editing_history))]> (files fs))
     (unwritable fs)).
Proof.
  intros Hw. unfold write_tuples_to_csv, mbind, M_bind, Py.bind, open_w.
  destruct (decide (output_file ∈ unwritable fs)) as [Hin|_]; [contradiction|].
  unfold writer_writerow, file_write, modify. cbn [files unwritable].
  rewrite lookup_insert_eq. cbn [default].
  erewrite writer_writerows_run by (cbn [files]; apply lookup_insert_eq).
  cbn [files unwritable writerows]. rewrite !insert_insert_eq. reflexivity.
Qed.

End CsvFacts.


(** Claim C8. For every sequence of triples and every path that can be
    opened for writing, [write_tuples_to_csv] leaves at that path a file
    that holds the header line [editor,timestamp,page] and then one line
    per triple, in the order of the sequence; the content does not depend
    on what was at the path before, and no other file changes.  Read back
    with the reader of the same dialect, the file gives the header row and
    then the rows of the triples, in the same order. *)
Theorem writer_round_trip :
  forall (editing_history : list entry) (output_file : string)
         (fs : Csv.filesystem),
    output_file ∉ Csv.unwritable fs ->
    exists fs',
      Csv.write_tuples_to_csv editing_history output_file fs = (Return tt, fs') /\
      Csv.files fs' !! output_file =
        Some ("editor,timestamp,page" +:+ Csv.lineterminator +:+
              Csv.writerows (Csv.row_of <$> editing_history)) /\
      Csv.read_back fs' output_file =
        Some (["editor"; "timestamp"; "page"] :: (Csv.row_of <$> editing_history)) /\
      (forall other, other <> output_file ->
                     Csv.files fs' !! other = Csv.files fs !! other) /\
      Csv.unwritable fs' = Csv.unwritable fs.
Proof.
  intros editing_history output_file fs Hw.
  eexists. split; [apply write_tuples_to_csv_run, Hw|].
  cbn [Csv.files Csv.unwritable]. split; [|split; [|split]].
  - rewrite lookup_insert_eq. reflexivity.
  - unfold Csv.read_back. cbn [Csv.files]. rewrite lookup_insert_eq.
    cbn [mbind option_bind]. apply reader_writerows.
  - intros other Hne. apply lookup_insert_ne. congruence.
  - reflexivity.
Qed.

Lemma writer_round_trip_witness :
  let fs := Csv.Filesystem {["out.csv" := "stale content"]} ∅ in
  exists fs',
    Csv.write_tuples_to_csv
      [("alice", "2020-01-01T00:00:00", "Foo"); ("bob", "2020-01-02T00:00:00", "Bar")]
      "out.csv" fs = (Return tt, fs') /\
    Csv.read_back fs' "out.csv" =
      Some [["editor"; "timestamp"; "page"];
            ["alice"; "2020-01-01T00:00:00"; "Foo"];
            ["bob"; "2020-01-02T00:00:00"; "Bar"]].
Proof.
  intros fs.
  destruct (writer_round_trip
              [("alice", "2020-01-01T00:00:00", "Foo");
               ("bob", "2020-01-02T00:00:00", "Bar")] "out.csv" fs)
    as (fs' & Hrun & _ & Hread & _).
  - apply not_elem_of_empty.
  - exists fs'. split; [exact Hrun|exact Hread].
Defined.


(* ===================================================================== *)
(** * [main] *)
(* ===================================================================== *)

Lemma write_out_run es path (p : Main.process) :
  path ∉ Csv.unwritable (Main.disk p) ->
  Main.write_out es path p =
  (Return tt,
   Main.Process
     (World (sent (Main.web p))
        ((log (Main.web p) ++
          [(INFO, "fetched " +:+ str_of_int (Z.of_nat (length es)) +:+ " entries")]) ++
         [(INFO, "writing to " +:+ path)]))
     (Csv.Filesystem
        (<[path := Csv.writerows (Csv.headers :: (Csv.row_of <$> es))]>
           (Csv.files (Main.disk p)))
        (Csv.unwritable (Main.disk p)))
     (Main.stdout p)).
Proof.
  intros Hw. unfold Main.write_out, mbind, M_bind, Py.bind, Main.in_web,
    Main.on_disk, logger_w, modify, log_line.
  cbn [Main.web Main.disk Main.stdout sent log].
  rewrite write_tuples_to_csv_run by exact Hw. reflexivity.
Qed.


(** [main], lines 136-143: without a page and a user, or with both, the
    program prints a message and the help text and exits with status 1;
    it sends no request, writes no file and logs nothing.  An empty
    string counts as an option not given. *)
Theorem main_rejects_missing_or_double_target :
  forall (srv : server) dfs pp (fuel : nat) (args : Main.namespace)
         (p : Main.process),
    Main.truthy (Main.page args) = Main.truthy (Main.user args) ->
    exists msg,
      Main.main srv dfs pp fuel args p =
      (Raise (SystemExit 1),
       Main.Process (Main.web p) (Main.disk p)
         (Main.stdout p ++ [Main.Line msg; Main.Help])).
Proof.
  intros srv dfs pp fuel args p H. unfold Main.main. rewrite H.
  destruct (Main.truthy (Main.user args)); cbn [orb andb negb];
    eexists; unfold mbind, M_bind, Py.bind, Main.print, modify, Main.sys_exit, raise;
    cbn [Main.web Main.disk Main.stdout]; rewrite <- app_assoc; reflexivity.
Qed.

Lemma main_rejects_witness :
  exists msg,
    Main.main (Fixture.serve []) (Fixture.html []) (Fixture.dates []) 5
      (Main.Namespace (Some "") None (Some "out.csv"))
      (Main.Process fresh (Csv.Filesystem ∅ ∅) []) =
    (Raise (SystemExit 1),
     Main.Process fresh (Csv.Filesystem ∅ ∅) [Main.Line msg; Main.Help]).
Proof.
  apply (main_rejects_missing_or_double_target (Fixture.serve []) (Fixture.html [])
           (Fixture.dates []) 5%nat (Main.Namespace (Some "") None (Some "out.csv"))
           (Main.Process fresh (Csv.Filesystem ∅ ∅) [])).
  reflexivity.
Defined.

(** The path [main] writes to: the output option when it is given and not
    empty, the default name otherwise. *)
Lemma main_page_run srv dfs pp fuel args (p : Main.process) url t :
  Main.page args = Some url ->
  Main.truthy (Main.page args) = true ->
  Main.truthy (Main.user args) = false ->
  search_group1 url = Some t ->
  Main.main srv dfs pp fuel args p =
  (let path := if Main.truthy (Main.output args)
               then default EmptyString (Main.output args)
               else "wiki_page_" +:+ str_or_None t +:+ "_history.csv" in
   match get_page_history srv dfs pp fuel url (PStr EmptyString) 500 (Main.web p) with
   | (Return es, w') =>
       Main.write_out es path (Main.Process w' (Main.disk p) (Main.stdout p))
   | (Raise e, w') => (Raise e, Main.Process w' (Main.disk p) (Main.stdout p))
   | (Diverge, w') => (Diverge, Main.Process w' (Main.disk p) (Main.stdout p))
   end).
Proof.
  intros Hpage Htp Htu Ht. unfold Main.main.
  rewrite Htp, Htu, Hpage. cbn [orb andb negb default]. unfold id.
  rewrite Ht. unfold mbind, M_bind, Py.bind, Main.in_web.
  destruct (Main.truthy (Main.output args)); cbn [mret M_ret Py.ret];
    destruct (get_page_history _ _ _ _ _ _ _ _) as [[es|e|] w']; reflexivity.
Qed.

Lemma main_user_run srv dfs pp fuel args (p : Main.process) username :
  Main.user args = Some username ->
  Main.truthy (Main.user args) = true ->
  Main.truthy (Main.page args) = false ->
  Main.main srv dfs pp fuel args p =
  (let path := if Main.truthy (Main.output args)
               then default EmptyString (Main.output args)
               else "wiki_page_" +:+ username +:+ "_history.csv" in
   match get_user_edit_history srv dfs pp fuel username (PStr EmptyString) 500
           (Main.web p) with
   | (Return es, w') =>
       Main.write_out es path (Main.Process w' (Main.disk p) (Main.stdout p))
   | (Raise e, w') => (Raise e, Main.Process w' (Main.disk p) (Main.stdout p))
   | (Diverge, w') => (Diverge, Main.Process w' (Main.disk p) (Main.stdout p))
   end).
Proof.
  intros Huser Htu Htp. unfold Main.main.
  rewrite Htp, Htu, Huser. cbn [orb andb negb default]. unfold id.
  unfold mbind, M_bind, Py.bind, Main.in_web.
  destruct (Main.truthy (Main.output args)); cbn [mret M_ret Py.ret];
    destruct (get_user_edit_history _ _ _ _ _ _ _ _) as [[es|e|] w']; reflexivity.
Qed.

(** [main], lines 144-152 and 160-162: in page mode, when the title is
    found and [get_page_history] returns, [main] logs two lines and writes
    the returned entries, under the header, to the output path, or to
    [wiki_page_<title>_history.csv] when no output path (or an empty one)
    was given.  What is read back from that file is the header and the
    entries, in order; no other file changes and nothing is printed. *)
Theorem main_page_writes_history :
  forall (srv : server) dfs pp (fuel : nat) (args : Main.namespace)
         (p : Main.process) url t es w',
    Main.page args = Some url ->
    Main.truthy (Main.page args) = true ->
    Main.truthy (Main.user args) = false ->
    search_group1 url = Some t ->
    get_page_history srv dfs pp fuel url (PStr EmptyString) 500 (Main.web p)
      = (Return es, w') ->
    let path := if Main.truthy (Main.output args)
                then default EmptyString (Main.output args)
                else "wiki_page_" +:+ str_or_None t +:+ "_history.csv" in
    path ∉ Csv.unwritable (Main.disk p) ->
    exists p',
      Main.main srv dfs pp fuel args p = (Return tt, p') /\
      sent (Main.web p') = sent w' /\
      log (Main.web p') =
        log w' ++
        [(INFO, "fetched " +:+ str_of_int (Z.of_nat (length es)) +:+ " entries");
         (INFO, "writing to " +:+ path)] /\
      Csv.read_back (Main.disk p') path =
        Some (["editor"; "timestamp"; "page"] :: (Csv.row_of <$> es)) /\
      (forall other, other <> path ->
         Csv.files (Main.disk p') !! other = Csv.files (Main.disk p) !! other) /\
      Main.stdout p' = Main.stdout p.
Proof.
  intros srv dfs pp fuel args p url t es w' Hpage Htp Htu Ht Hget path Hw.
  rewrite (main_page_run srv dfs pp fuel args p url t Hpage Htp Htu Ht).
  rewrite Hget. fold path. rewrite write_out_run by exact Hw.
  eexists. split; [reflexivity|].
  cbn [Main.web Main.disk Main.stdout sent log Csv.files].
  split; [reflexivity|]. split; [rewrite <- app_assoc; reflexivity|].
  split; [|split; [|reflexivity]].
  - unfold Csv.read_back. cbn [Csv.files]. rewrite lookup_insert_eq.
    cbn [mbind option_bind]. apply reader_writerows.
  - intros other Hne. apply lookup_insert_ne. congruence.
Qed.

Lemma main_page_witness :
  exists p',
    Main.main (Fixture.serve [Fixture.ok "full"]) (Fixture.html Fixture.bodies)
      (Fixture.dates Fixture.calendar) 3
      (Main.Namespace None (Some Fixture.troublesome) None)
      (Main.Process fresh (Csv.Filesystem ∅ ∅) []) = (Return tt, p') /\
    Csv.read_back (Main.disk p') "wiki_page_A_Troublesome_Inheritance_history.csv" =
      Some [["editor"; "timestamp"; "page"];
            ["Ann"; "13:02, 4 May 2011"; "A_Troublesome_Inheritance"];
            ["Bob"; "00:00, 1 January 2010"; "A_Troublesome_Inheritance"]].
Proof.
  pose (run := get_page_history (Fixture.serve [Fixture.ok "full"])
                 (Fixture.html Fixture.bodies) (Fixture.dates Fixture.calendar) 3
                 Fixture.troublesome (PStr EmptyString) 500 fresh).
  destruct (main_page_writes_history (Fixture.serve [Fixture.ok "full"])
              (Fixture.html Fixture.bodies) (Fixture.dates Fixture.calendar) 3%nat
              (Main.Namespace None (Some Fixture.troublesome) None)
              (Main.Process fresh (Csv.Filesystem ∅ ∅) [])
              Fixture.troublesome (Some "A_Troublesome_Inheritance")
              [("Ann", "13:02, 4 May 2011", "A_Troublesome_Inheritance");
               ("Bob", "00:00, 1 January 2010", "A_Troublesome_Inheritance")]
              run.2)
    as (p' & Hrun & _ & _ & Hread & _);
    try (vm_compute; reflexivity).
  - apply not_elem_of_empty.
  - exists p'. split; [exact Hrun|exact Hread].
Defined.

(** [main], lines 153-156 and 160-162: the same in user mode, where the
    default name is [wiki_page_<user>_history.csv]. *)
Theorem main_user_writes_history :
  forall (srv : server) dfs pp (fuel : nat) (args : Main.namespace)
         (p : Main.process) username es w',
    Main.user args = Some username ->
    Main.truthy (Main.user args) = true ->
    Main.truthy (Main.page args) = false ->
    get_user_edit_history srv dfs pp fuel username (PStr EmptyString) 500
      (Main.web p) = (Return es, w') ->
    let path := if Main.truthy (Main.output args)
                then default EmptyString (Main.output args)
                else "wiki_page_" +:+ username +:+ "_history.csv" in
    path ∉ Csv.unwritable (Main.disk p) ->
    exists p',
      Main.main srv dfs pp fuel args p = (Return tt, p') /\
      sent (Main.web p') = sent w' /\
      log (Main.web p') =
        log w' ++
        [(INFO, "fetched " +:+ str_of_int (Z.of_nat (length es)) +:+ " entries");
         (INFO, "writing to " +:+ path)] /\
      Csv.read_back (Main.disk p') path =
        Some (["editor"; "timestamp"; "page"] :: (Csv.row_of <$> es)) /\
      (forall other, other <> path ->
         Csv.files (Main.disk p') !! other = Csv.files (Main.disk p) !! other) /\
      Main.stdout p' = Main.stdout p.
Proof.
  intros srv dfs pp fuel args p username es w' Huser Htu Htp Hget path Hw.
  rewrite (main_user_run srv dfs pp fuel args p username Huser Htu Htp).
  rewrite Hget. fold path. rewrite write_out_run by exact Hw.
  eexists. split; [reflexivity|].
  cbn [Main.web Main.disk Main.stdout sent log Csv.files].
  split; [reflexivity|]. split; [rewrite <- app_assoc; reflexivity|].
  split; [|split; [|reflexivity]].
  - unfold Csv.read_back. cbn [Csv.files]. rewrite lookup_insert_eq.
    cbn [mbind option_bind]. apply reader_writerows.
  - intros other Hne. apply lookup_insert_ne. congruence.
Qed.

Lemma main_user_witness :
  exists p',
    Main.main (Fixture.serve [Fixture.ok "short"]) (Fixture.html Fixture.bodies)
      (Fixture.dates Fixture.calendar) 3
      (Main.Namespace (Some "Cyd") None (Some "cyd.csv"))
      (Main.Process fresh (Csv.Filesystem {["cyd.csv" := "old"]} ∅) []) =
      (Return tt, p') /\
    Csv.read_back (Main.disk p') "cyd.csv" =
      Some [["editor"; "timestamp"; "page"];
            ["Cyd"; "00:00, 1 January 2010"; "Baz"]].
Proof.
  pose (run := get_user_edit_history (Fixture.serve [Fixture.ok "short"])
                 (Fixture.html Fixture.bodies) (Fixture.dates Fixture.calendar) 3
                 "Cyd" (PStr EmptyString) 500 fresh).
  destruct (main_user_writes_history (Fixture.serve [Fixture.ok "short"])
              (Fixture.html Fixture.bodies) (Fixture.dates Fixture.calendar) 3%nat
              (Main.Namespace (Some "Cyd") None (Some "cyd.csv"))
              (Main.Process fresh (Csv.Filesystem {["cyd.csv" := "old"]} ∅) [])
              "Cyd" [("Cyd", "00:00, 1 January 2010", "Baz")] run.2)
    as (p' & Hrun & _ & _ & Hread & _);
    try (vm_compute; reflexivity).
  - apply not_elem_of_empty.
  - exists p'. split; [exact Hrun|exact Hread].
Defined.




(* ===================================================================== *)
(** * More on the loops *)
(* ===================================================================== *)

Section LoopExtras.

Variable srv : server.
Variable md : mode.

Lemma paginate_no_final fuel : forall m m',
  (forall r, is_final (judge md r) = false) ->
  paginate srv md fuel m <> (Return tt, m').
Proof.
  induction fuel as [|fuel IH]; intros m m' Hnf; cbn [paginate]; [discriminate|].
  pose proof (Hnf (srv (length (sent (env m))) (url (vars m)))) as H.
  destruct (judge md _); try discriminate. apply IH, Hnf.
Qed.

Lemma paginate_log_info fuel : forall m r m',
  Forall (fun l : level * string => l.1 = INFO) (log (env m)) ->
  paginate srv md fuel m = (r, m') ->
  Forall (fun l : level * string => l.1 = INFO) (log (env m')) /\
  (length (log (env m')) - length (log (env m)) =
   2 * (length (sent (env m')) - length (sent (env m))))%nat /\
  (length (log (env m)) <= length (log (env m')))%nat /\
  (length (sent (env m)) <= length (sent (env m')))%nat.
Proof.
  induction fuel as [|fuel IH]; intros m r m' Hinfo Hrun; cbn [paginate] in Hrun.
  - injection Hrun as _ <-. repeat split; auto; lia.
  - assert (Hreq : Forall (fun l : level * string => l.1 = INFO)
                     (log (requested md m))).
    { unfold requested. cbn [log]. repeat apply Forall_app_2; auto;
        repeat constructor. }
    assert (Hlen : length (log (requested md m)) = (length (log (env m)) + 2)%nat /\
                   length (sent (requested md m)) = (length (sent (env m)) + 1)%nat).
    { unfold requested. cbn [log sent]. rewrite !length_app. simpl. lia. }
    destruct Hlen as [Hl Hs].
    destruct (judge md _) as [e|es|es e|es off].
    1-3: injection Hrun as _ <-; cbn [env]; repeat split; auto; lia.
    apply IH in Hrun; [|exact Hreq]. cbn [env] in Hrun.
    destruct Hrun as (Hi & Hd & Hle1 & Hle2).
    repeat split; auto; lia.
Qed.

(** A server whose every answer is a full page keeps the loop going as
    long as there is fuel. *)
Lemma paginate_endless fuel : forall m,
  (forall k u, is_more (judge md (srv k u)) = true) ->
  exists m', paginate srv md fuel m = (Diverge, m') /\
             length (sent (env m')) = (length (sent (env m)) + fuel)%nat.
Proof.
  intros m Hfull.
  destruct (paginate_more srv md fuel 0 m) as (m_n & us & Hrun & Hlen & Hsent & _).
  { intros i u _. apply Hfull. }
  rewrite Nat.add_0_r in Hrun. exists m_n. rewrite Hrun. cbn [paginate].
  split; [reflexivity|]. rewrite Hsent, length_app. lia.
Qed.

(** Every request of a run asks for a listing of the mode, and the first
    for the one at the offset the call was given. *)
Lemma paginate_urls fuel m r m' :
  paginate srv md fuel m = (r, m') ->
  url (vars m) = listing_url md (offset (vars m)) ->
  exists us, sent (env m') = sent (env m) ++ us /\
    Forall (fun u => exists o, u = listing_url md o) us /\
    (forall u, us !! 0%nat = Some u -> u = listing_url md (offset (vars m))) /\
    ((0 < fuel)%nat -> us <> []).
Proof.
  intros Hrun Hurl.
  destruct (paginate_trace srv md fuel m r m' Hrun)
    as (us & Hsent & _ & _ & _ & Hhead & Hnext & _).
  exists us. split; [exact Hsent|]. split; [|split].
  - apply Forall_lookup_2. intros [|i] u Hu.
    + exists (offset (vars m)). rewrite <- Hurl. apply Hhead, Hu.
    + destruct (lookup_lt_is_Some_2 us i) as [u0 Hu0].
      { apply lookup_lt_Some in Hu. lia. }
      destruct (Hnext i u0 u Hu0 Hu) as (es & off & _ & ->). eauto.
  - intros u Hu. rewrite <- Hurl. apply Hhead, Hu.
  - intros Hfuel ->. destruct fuel as [|fuel]; [lia|].
    apply paginate_sends_first in Hrun as (us' & Hus').
    rewrite Hus' in Hsent. apply app_inv_head in Hsent. discriminate.
Qed.

End LoopExtras.

Lemma judge_entries_not_final pp limit es ts :
  limit <= 0 -> is_final (judge_entries pp limit es ts) = false.
Proof.
  intros H. unfold judge_entries.
  destruct (Z.ltb_spec (Z.of_nat (length es)) limit); [lia|].
  destruct (offset_after pp ts); reflexivity.
Qed.

Lemma page_not_final dfs pp title limit r :
  limit <= 0 -> is_final (judge (page_mode dfs pp title limit) r) = false.
Proof.
  intros H. cbn [judge page_mode]. destruct r as [e|resp]; cbn [page_verdict];
    [reflexivity|].
  destruct (dfs (content resp)); [|reflexivity].
  apply judge_entries_not_final, H.
Qed.

Lemma user_not_final dfs pp username limit r :
  limit <= 0 -> is_final (judge (user_mode dfs pp username limit) r) = false.
Proof.
  intros H. cbn [judge user_mode]. destruct r as [e|resp]; cbn [user_verdict];
    [reflexivity|].
  destruct (http_error_msg resp); [reflexivity|].
  destruct (dfs (content resp)) as [doc|]; [|reflexivity].
  destruct (titles_of_hrefs (xp_title_hrefs doc)); [|reflexivity].
  apply judge_entries_not_final, H.
Qed.

(** Lines 62 and 102: with a limit of 0 or less the test
    [len(page_entries) < limit] never holds, so neither loop ever reaches
    its [break]: it ends by an exception or not at all. *)
Theorem nonpositive_limit_never_breaks :
  forall (srv : server) dfs pp (fuel : nat) (limit : Z),
    limit <= 0 ->
    (forall title m m',
       page_history_loop srv dfs pp fuel title limit m <> (Return tt, m')) /\
    (forall username m m',
       user_history_loop srv dfs pp fuel username limit m <> (Return tt, m')).
Proof.
  intros srv dfs pp fuel limit Hl. split.
  - intros title m m'. rewrite page_history_loop_paginate.
    apply paginate_no_final. intros r. apply page_not_final, Hl.
  - intros username m m'. rewrite user_history_loop_paginate.
    apply paginate_no_final. intros r. apply user_not_final, Hl.
Qed.

Lemma nonpositive_limit_witness :
  match
    (page_history_loop (Fixture.serve [Fixture.ok "short"])
       (Fixture.html Fixture.bodies) (Fixture.dates Fixture.calendar) 4
       "Foo" 0 (start (page_mode (Fixture.html Fixture.bodies)
                         (Fixture.dates Fixture.calendar) "Foo" 0) (PStr "") fresh)).1
  with
  | Return _ => False
  | Raise e => e = RequestException Fixture.refused
  | Diverge => False
  end.
Proof.
  destruct (page_history_loop _ _ _ _ _ _ _) as [[[]|e|] m'] eqn:E; cbn [fst].
  - exact (proj1 (nonpositive_limit_never_breaks (Fixture.serve [Fixture.ok "short"])
                    (Fixture.html Fixture.bodies) (Fixture.dates Fixture.calendar)
                    4%nat 0 ltac:(lia)) _ _ _ E).
  - vm_compute in E. injection E as He _. subst e. reflexivity.
  - vm_compute in E. discriminate E.
Defined.

(** Lines 45, 67, 78 and 107: every URL a call requests is the listing URL
    of its title (or user) and its limit at some offset, the first at the
    offset the call was given; a call with fuel sends at least one
    request. *)
Theorem every_request_is_a_listing_url :
  forall (srv : server) dfs pp (fuel : nat) (limit : Z) (off0 : pyval),
    (forall wiki_url page_match r w',
       Re.search Re.title_pattern wiki_url = Some page_match ->
       get_page_history srv dfs pp fuel wiki_url off0 limit fresh = (r, w') ->
       Forall (fun u => exists o, u = history_url (page_title page_match) o limit)
         (sent w') /\
       ((0 < fuel)%nat ->
        sent w' !! 0%nat = Some (history_url (page_title page_match) off0 limit))) /\
    (forall username r w',
       get_user_edit_history srv dfs pp fuel username off0 limit fresh = (r, w') ->
       Forall (fun u => exists o, u = contributions_wiki_url username o limit)
         (sent w') /\
       ((0 < fuel)%nat ->
        sent w' !! 0%nat = Some (contributions_wiki_url username off0 limit))).
Proof.
  assert (Gen : forall (srv : server) md handled (fuel : nat) (off0 : pyval) r w',
    (forall e w, sent (handled e w) = sent w) ->
    finish handled (paginate srv md fuel (start md off0 fresh)) = (r, w') ->
    Forall (fun u => exists o, u = listing_url md o) (sent w') /\
    ((0 < fuel)%nat -> sent w' !! 0%nat = Some (listing_url md off0))).
  { intros srv md handled fuel off0 r w' Hh Hfin.
    pose proof (sent_finish handled Hh (paginate srv md fuel (start md off0 fresh)))
      as Hsent.
    rewrite Hfin in Hsent. cbn [snd] in Hsent.
    destruct (paginate srv md fuel (start md off0 fresh)) as [r0 m'] eqn:Hrun.
    destruct (paginate_urls srv md fuel _ _ _ Hrun eq_refl)
      as (us & Hus & Hall & Hhead & Hne).
    cbn [start fresh env vars sent offset app snd] in Hus, Hhead, Hsent.
    rewrite Hsent, Hus. split; [exact Hall|].
    intros Hfuel. specialize (Hne Hfuel).
    destruct us as [|u us]; [contradiction|].
    cbn. f_equal. apply Hhead. reflexivity. }
  intros srv dfs pp fuel limit off0. split.
  - intros wiki_url page_match r w' Hs Hrun.
    rewrite (get_page_history_finish _ _ _ _ _ _ _ _ _ Hs) in Hrun.
    exact (Gen srv _ page_handled fuel off0 r w' sent_page_handled Hrun).
  - intros username r w' Hrun.
    rewrite get_user_edit_history_finish in Hrun.
    exact (Gen srv _ user_handled fuel off0 r w' sent_user_handled Hrun).
Qed.

Lemma every_request_witness :
  let run := get_user_edit_history
               (Fixture.serve [Fixture.ok "full"; Fixture.ok "short"])
               (Fixture.html Fixture.bodies) (Fixture.dates Fixture.calendar)
               3 "Ann" (PInt 20240101000000) 2 fresh in
  Forall (fun u => exists o, u = contributions_wiki_url "Ann" o 2) (sent run.2) /\
  ((0 < 3)%nat ->
   sent run.2 !! 0%nat =
     Some (contributions_wiki_url "Ann" (PInt 20240101000000) 2)).
Proof.
  intros run.
  apply (proj2 (every_request_is_a_listing_url
                  (Fixture.serve [Fixture.ok "full"; Fixture.ok "short"])
                  (Fixture.html Fixture.bodies) (Fixture.dates Fixture.calendar)
                  3%nat 2 (PInt 20240101000000)) "Ann" run.1 run.2).
  vm_compute. reflexivity.
Defined.

(** Line 52: the loop has no bound of its own.  Against a server whose
    every answer is a full page the call never returns: whatever fuel the
    model is given, all of it is spent on requests. *)
Theorem endless_full_pages_never_return :
  forall (srv : server) dfs pp (fuel : nat) (limit : Z) (off0 : pyval),
    (forall wiki_url page_match,
       Re.search Re.title_pattern wiki_url = Some page_match ->
       (forall k u, is_more (judge (page_mode dfs pp (page_title page_match) limit)
                               (srv k u)) = true) ->
       exists w',
         get_page_history srv dfs pp fuel wiki_url off0 limit fresh = (Diverge, w') /\
         length (sent w') = fuel) /\
    (forall username,
       (forall k u, is_more (judge (user_mode dfs pp username limit) (srv k u)) = true) ->
       exists w',
         get_user_edit_history srv dfs pp fuel username off0 limit fresh
           = (Diverge, w') /\
         length (sent w') = fuel).
Proof.
  intros srv dfs pp fuel limit off0. split.
  - intros wiki_url page_match Hs Hfull.
    rewrite (get_page_history_finish _ _ _ _ _ _ _ _ _ Hs).
    destruct (paginate_endless srv _ fuel
                (start (page_mode dfs pp (page_title page_match) limit) off0 fresh)
                Hfull) as (m' & -> & Hlen).
    cbn [finish]. eexists. split; [reflexivity|exact Hlen].
  - intros username Hfull.
    rewrite get_user_edit_history_finish.
    destruct (paginate_endless srv _ fuel
                (start (user_mode dfs pp username limit) off0 fresh) Hfull)
      as (m' & -> & Hlen).
    cbn [finish]. eexists. split; [reflexivity|exact Hlen].
Qed.

Lemma endless_witness :
  exists w',
    get_user_edit_history (fun _ _ => Fixture.ok "full")
      (Fixture.html Fixture.bodies) (Fixture.dates Fixture.calendar)
      7 "Ann" (PStr "") 2 fresh = (Diverge, w') /\
    length (sent w') = 7%nat.
Proof.
  apply (proj2 (endless_full_pages_never_return (fun _ _ => Fixture.ok "full")
                  (Fixture.html Fixture.bodies) (Fixture.dates Fixture.calendar)
                  7%nat 2 (PStr "")) "Ann").
  intros k u. vm_compute. reflexivity.
Defined.

Lemma records_forall (P : entry -> Prop) md rs :
  (forall r, Forall P (kept (judge md r))) -> Forall P (records md rs).
Proof.
  intros H. unfold records. induction rs as [|r rs IH]; cbn [flat_map];
    [constructor|]. apply Forall_app_2; [apply H|exact IH].
Qed.

(** Lines 68-72 and 109-113: only a [RequestException] is logged.  When the
    loop is ended by any other exception, the call returns what it has and
    its log holds the two INFO lines of each request and nothing else;
    after a [RequestException] two ERROR lines follow them. *)
Theorem swallowed_exceptions_are_not_logged :
  forall (srv : server) dfs pp (fuel : nat) (limit : Z) (off0 : pyval),
    (forall wiki_url page_match e m',
       Re.search Re.title_pattern wiki_url = Some page_match ->
       page_history_loop srv dfs pp fuel (page_title page_match) limit
         (start (page_mode dfs pp (page_title page_match) limit) off0 fresh)
         = (Raise e, m') ->
       exists w',
         get_page_history srv dfs pp fuel wiki_url off0 limit fresh =
           (Return (all_entries (vars m')), w') /\
         log w' =
           log (env m') ++
           match is_RequestException e with
           | Some re => [(ERROR, strerror re);
                         (ERROR, "error fetching page, restart at last offset")]
           | None => []
           end /\
         Forall (fun l : level * string => l.1 = INFO) (log (env m')) /\
         length (log (env m')) = (2 * length (sent w'))%nat) /\
    (forall username e m',
       user_history_loop srv dfs pp fuel username limit
         (start (user_mode dfs pp username limit) off0 fresh) = (Raise e, m') ->
       exists w',
         get_user_edit_history srv dfs pp fuel username off0 limit fresh =
           (Return (all_entries (vars m')), w') /\
         log w' =
           log (env m') ++
           match is_RequestException e with
           | Some re => [(ERROR, "error fetching page, restart at last offset");
                         (ERROR, message re)]
           | None => []
           end /\
         Forall (fun l : level * string => l.1 = INFO) (log (env m')) /\
         length (log (env m')) = (2 * length (sent w'))%nat).
Proof.
  intros srv dfs pp fuel limit off0. split.
  - intros wiki_url page_match e m' Hs Hloop.
    rewrite page_history_loop_paginate in Hloop.
    rewrite (get_page_history_finish _ _ _ _ _ _ _ _ _ Hs), Hloop.
    destruct (fun H => paginate_log_info srv _ fuel _ _ _ H Hloop)
      as (Hinfo & Hlen & _ & _); [constructor|].
    cbn [start fresh env log sent length] in Hlen.
    cbn [finish]. eexists. split; [reflexivity|].
    rewrite sent_page_handled. split; [|split; [exact Hinfo|lia]].
    unfold page_handled. destruct (is_RequestException e);
      cbn [log log_line]; rewrite <- ?app_assoc, ?app_nil_r; reflexivity.
  - intros username e m' Hloop.
    rewrite user_history_loop_paginate in Hloop.
    rewrite get_user_edit_history_finish, Hloop.
    destruct (fun H => paginate_log_info srv _ fuel _ _ _ H Hloop)
      as (Hinfo & Hlen & _ & _); [constructor|].
    cbn [start fresh env log sent length] in Hlen.
    cbn [finish]. eexists. split; [reflexivity|].
    rewrite sent_user_handled. split; [|split; [exact Hinfo|lia]].
    unfold user_handled. destruct (is_RequestException e);
      cbn [log log_line]; rewrite <- ?app_assoc, ?app_nil_r; reflexivity.
Qed.

Lemma swallowed_exceptions_witness :
  let srv := Fixture.serve [Fixture.ok "astray"] in
  let dfs := Fixture.html Fixture.bodies in
  let pp := Fixture.dates Fixture.calendar in
  let loop := user_history_loop srv dfs pp 3 "Ann" 2
                (start (user_mode dfs pp "Ann" 2) (PStr "") fresh) in
  loop.1 = Raise AttributeError /\
  exists w',
    get_user_edit_history srv dfs pp 3 "Ann" (PStr "") 2 fresh =
      (Return (all_entries (vars loop.2)), w') /\
    log w' = log (env loop.2) ++ [] /\
    Forall (fun l : level * string => l.1 = INFO) (log (env loop.2)) /\
    length (log (env loop.2)) = (2 * length (sent w'))%nat.
Proof.
  intros srv dfs pp loop. split; [vm_compute; reflexivity|].
  apply (proj2 (swallowed_exceptions_are_not_logged srv dfs pp 3%nat 2 (PStr ""))
           "Ann" AttributeError loop.2).
  vm_compute. reflexivity.
Defined.

(** Lines 60 and 97: every entry a call returns carries the fixed column
    of its mode: the title of the page in page mode, the user as editor
    in user mode. *)
Theorem entries_carry_the_fixed_column :
  forall (srv : server) dfs pp (fuel : nat) (limit : Z) (off0 : pyval),
    (forall wiki_url page_match es w',
       Re.search Re.title_pattern wiki_url = Some page_match ->
       get_page_history srv dfs pp fuel wiki_url off0 limit fresh = (Return es, w') ->
       Forall (fun e : entry => e.2 = page_title page_match) es) /\
    (forall username es w',
       get_user_edit_history srv dfs pp fuel username off0 limit fresh
         = (Return es, w') ->
       Forall (fun e : entry => e.1.1 = username) es).
Proof.
  intros srv dfs pp fuel limit off0. split.
  - intros wiki_url page_match es w' Hs Hrun.
    rewrite (get_page_history_finish _ _ _ _ _ _ _ _ _ Hs) in Hrun.
    destruct (finish_any srv (page_mode dfs pp (page_title page_match) limit)
                page_handled sent_page_handled fuel off0) as (r & w0 & Hfin & Hr).
    rewrite Hfin in Hrun. injection Hrun as -> ->.
    destruct Hr as [Hr|[Hr _]]; [|discriminate]. injection Hr as ->.
    apply records_forall. intros r.
    pose proof (page_columns_kept dfs pp (page_title page_match) limit r) as Hk.
    destruct (page_columns dfs r) as [[a b]|]; rewrite Hk; [|constructor].
    unfold zip_page. apply Forall_fmap, Forall_forall. intros x _. reflexivity.
  - intros username es w' Hrun.
    rewrite get_user_edit_history_finish in Hrun.
    destruct (finish_any srv (user_mode dfs pp username limit)
                user_handled sent_user_handled fuel off0) as (r & w0 & Hfin & Hr).
    rewrite Hfin in Hrun. injection Hrun as -> ->.
    destruct Hr as [Hr|[Hr _]]; [|discriminate]. injection Hr as ->.
    apply records_forall. intros r.
    pose proof (user_columns_kept dfs pp username limit r) as Hk.
    destruct (user_columns dfs r) as [[a b]|]; rewrite Hk; [|constructor].
    unfold zip_user. apply Forall_fmap, Forall_forall. intros x _. reflexivity.
Qed.

Lemma entries_carry_witness :
  let run := get_user_edit_history
               (Fixture.serve [Fixture.ok "full"; Fixture.ok "short"])
               (Fixture.html Fixture.bodies) (Fixture.dates Fixture.calendar)
               3 "Ann" (PStr "") 2 fresh in
  Forall (fun e : entry => e.1.1 = "Ann")
    [("Ann", "13:02, 4 May 2011", "Foo"); ("Ann", "00:00, 1 January 2010", "Bar");
     ("Ann", "00:00, 1 January 2010", "Baz")].
Proof.
  intros run.
  apply (proj2 (entries_carry_the_fixed_column
                  (Fixture.serve [Fixture.ok "full"; Fixture.ok "short"])
                  (Fixture.html Fixture.bodies) (Fixture.dates Fixture.calendar)
                  3%nat 2 (PStr "")) "Ann" _ run.2).
  vm_compute. reflexivity.
Defined.



(* ===================================================================== *)
(** * More on the title pattern, the offset and the writer *)
(* ===================================================================== *)

Lemma greedy_dot_suffix (k : Re.cont) s g m :
  greedy_dot k s g = Some m ->
  exists pre s', s = pre +:+ s' /\ k s' g = Some m.
Proof.
  induction s as [|c s IH]; cbn [greedy_dot].
  - intros H. exists EmptyString, EmptyString. auto.
  - destruct (ascii_eqb c LF).
    + intros H. exists EmptyString, (String c s). auto.
    + destruct (greedy_dot k s g) as [r|] eqn:E.
      * intros [= <-]. destruct (IH eq_refl) as (pre & s' & -> & Hk).
        exists (String c pre), s'. auto.
      * intros H. exists EmptyString, (String c s). auto.
Qed.

Lemma search_suffix s m :
  Re.search Re.title_pattern s = Some m ->
  exists pre s', s = pre +:+ s' /\
    Re.matches Re.title_pattern (fun _ g => Some g) s' ∅ = Some m.
Proof.
  induction s as [|c s IH]; cbn [Re.search].
  - destruct (Re.matches _ _ _ _) eqn:E; [|discriminate].
    intros [= <-]. exists EmptyString, EmptyString. auto.
  - destruct (Re.matches _ _ (String c s) _) eqn:E.
    + intros [= <-]. exists EmptyString, (String c s). auto.
    + intros H. destruct (IH H) as (pre & s' & -> & Hm).
      exists (String c pre), s'. auto.
Qed.

Lemma no_slash_span s : no_slash (span_segment s) = true.
Proof.
  induction s as [|c s IH]; [reflexivity|]. cbn [span_segment].
  destruct (ascii_eqb c slash) eqn:E; [reflexivity|].
  cbn [no_slash all_chars]. rewrite E. exact IH.
Qed.

(** Lines 37-40 and 92: whatever the subject, a title that is found is a
    segment of it: it stands behind a [/], is not empty, holds no [/], and
    is followed by a [/] or by the end of the subject. *)
Theorem title_found_is_a_segment :
  forall s m,
    Re.search Re.title_pattern s = Some m ->
    exists pre t rest,
      s = pre +:+ String slash (t +:+ rest) /\
      Re.group m 1 = Some t /\
      page_title m = t /\
      t <> EmptyString /\
      no_slash t = true /\
      (rest = EmptyString \/ exists rest', rest = String slash rest').
Proof.
  intros s m Hs.
  destruct (search_suffix s m Hs) as (pre1 & s1 & -> & Hm).
  rewrite title_pattern_anchored in Hm.
  destruct (greedy_dot_suffix _ _ _ _ Hm) as (pre2 & s2 & -> & Hk).
  rewrite tail_re_spec in Hk.
  destruct (segment_here s2) eqn:Hh; [|discriminate].
  destruct s2 as [|c [|d s'']]; try discriminate.
  injection Hk as <-. cbn [segment_here] in Hh.
  apply andb_true_iff in Hh as [Hc Hd].
  apply ascii_eqb_eq in Hc. subst c. apply negb_true_iff in Hd.
  exists (pre1 +:+ pre2), (String d (span_segment s'')), (after_segment s'').
  split; [|split; [|split; [|split; [|split]]]].
  - rewrite str_app_assoc. rewrite str_app_cons, span_after. reflexivity.
  - unfold Re.group. apply lookup_insert_eq.
  - unfold page_title, Re.group. rewrite lookup_insert_eq. reflexivity.
  - discriminate.
  - cbn [no_slash all_chars]. rewrite Hd. apply no_slash_span.
  - destruct (after_segment s'') as [|a r] eqn:E; [auto|].
    right. apply after_segment_head in E. apply ascii_eqb_eq in E. subst a. eauto.
Qed.

Lemma title_found_witness :
  exists pre t rest,
    "https://en.wikipedia.org/wiki/Foo/bar?x=1//" =
      pre +:+ String slash (t +:+ rest) /\
    Re.group (<[1%nat := "bar?x=1"]> ∅) 1 = Some t /\
    page_title (<[1%nat := "bar?x=1"]> ∅) = t /\
    t <> EmptyString /\
    no_slash t = true /\
    (rest = EmptyString \/ exists rest', rest = String slash rest').
Proof.
  apply (title_found_is_a_segment "https://en.wikipedia.org/wiki/Foo/bar?x=1//").
  vm_compute. reflexivity.
Defined.

(** Lines 92-95: the list comprehension gives one title per link, in the
    order of the links, each the title of its link; it raises as soon as
    one link has no segment, and only then. *)
Theorem one_title_per_link :
  forall hrefs,
    (forall titles,
       titles_of_hrefs hrefs = Some titles ->
       length titles = length hrefs /\
       forall i h, hrefs !! i = Some h ->
         exists m, Re.search Re.title_pattern h = Some m /\
                   titles !! i = Some (page_title m)) /\
    (titles_of_hrefs hrefs = None <->
     exists h, h ∈ hrefs /\ has_segment h = false).
Proof.
  intros hrefs. split.
  - induction hrefs as [|h hrefs IH]; intros titles; cbn [titles_of_hrefs].
    + intros [= <-]. split; [reflexivity|]. intros i h0 H. discriminate.
    + unfold search_group1 at 1.
      destruct (Re.search Re.title_pattern h) as [m|] eqn:Hm; [|discriminate].
      cbn [fmap option_fmap option_map].
      destruct (titles_of_hrefs hrefs) as [ts|]; [|discriminate].
      intros [= <-]. destruct (IH ts eq_refl) as [Hlen Hall].
      split; [simpl; rewrite Hlen; reflexivity|].
      intros [|i] h0 H0; cbn in H0.
      * injection H0 as <-. exists m. split; [exact Hm|reflexivity].
      * apply (Hall i h0 H0).
  - rewrite titles_of_hrefs_none. rewrite existsb_exists. split.
    + intros (h & Hin & Hh). exists h. split; [apply list_elem_of_In, Hin|].
      apply negb_true_iff, Hh.
    + intros (h & Hin & Hh). exists h. split; [apply list_elem_of_In, Hin|].
      apply negb_true_iff, Hh.
Qed.

Lemma one_title_witness :
  length ["Foo"; "Bar"] = length ["/wiki/Foo"; "https://x/y/Bar/"] /\
  forall i h, ["/wiki/Foo"; "https://x/y/Bar/"] !! i = Some h ->
    exists m, Re.search Re.title_pattern h = Some m /\
              ["Foo"; "Bar"] !! i = Some (page_title m).
Proof.
  apply (proj1 (one_title_per_link ["/wiki/Foo"; "https://x/y/Bar/"])).
  vm_compute. reflexivity.
Defined.

(** Lines 65-66: the offset sorts like the date.  For two dates that
    dateutil can return, the offsets computed from them are in the order
    of the dates, and equal only for equal dates. *)
Theorem offsets_sort_like_dates :
  forall d1 d2 n1 n2,
    valid_datetime d1 -> valid_datetime d2 ->
    int_of_str (strftime_YmdHMS d1) = Some n1 ->
    int_of_str (strftime_YmdHMS d2) = Some n2 ->
    (n1 < n2 <-> earlier d1 d2) /\ (n1 = n2 <-> d1 = d2).
Proof.
  intros d1 d2 n1 n2 Hv1 Hv2 H1 H2.
  rewrite (int_strftime d1 Hv1) in H1. rewrite (int_strftime d2 Hv2) in H2.
  injection H1 as <-. injection H2 as <-.
  destruct d1 as [y1 mo1 da1 h1 mi1 s1], d2 as [y2 mo2 da2 h2 mi2 s2].
  unfold valid_datetime, earlier, numeral_yyyyMMddHHmmss in *.
  cbn [year month day hour minute second] in *.
  split; split.
  - intros H. lia.
  - intros H. lia.
  - intros H. assert (y1 = y2 /\ mo1 = mo2 /\ da1 = da2 /\ h1 = h2 /\ mi1 = mi2 /\ s1 = s2)
      as (-> & -> & -> & -> & -> & ->) by lia. reflexivity.
  - intros [= -> -> -> -> -> ->]. reflexivity.
Qed.

Lemma offsets_sort_witness :
  (20100101000000 < 20110504130200 <-> earlier Fixture.jan2010 Fixture.may2011) /\
  (20100101000000 = 20110504130200 <-> Fixture.jan2010 = Fixture.may2011).
Proof.
  apply (offsets_sort_like_dates Fixture.jan2010 Fixture.may2011);
    try reflexivity; vm_compute; intuition discriminate.
Defined.

Lemma join_append_data_plain f :
  Csv.has_special f = false -> Csv.join_append_data false f = f.
Proof.
  intros H. unfold Csv.join_append_data, Csv.quoted. rewrite H.
  destruct f; cbn [orb]; rewrite ?doubled_plain by exact H; reflexivity.
Qed.

Lemma writerows_plain es :
  forallb Csv.plain_entry es = true ->
  Csv.writerows (Csv.row_of <$> es) = Csv.plain_lines es.
Proof.
  induction es as [|[[e t] p] es IH]; [reflexivity|].
  cbn [forallb]. intros H. apply andb_true_iff in H as [He Hes].
  unfold Csv.plain_entry in He. cbn [fst snd] in He.
  apply andb_true_iff in He as [He Hp]. apply andb_true_iff in He as [He Ht].
  apply negb_true_iff in He, Ht, Hp.
  cbn [fmap list_fmap Csv.writerows Csv.plain_lines]. rewrite (IH Hes). f_equal.
  unfold Csv.writerow, Csv.row_of, Csv.plain_line. cbn [fst snd length Nat.eqb].
  cbn [Csv.join_append].
  rewrite !join_append_data_plain by assumption.
  rewrite !str_app_assoc, !str_app_cons, !str_app_assoc, !str_app_cons. reflexivity.
Qed.

(** Lines 116-122: entries whose fields hold no comma, no quote character
    and no line break are written as they are: the file is the header
    line and, for each entry, its three fields joined by commas and ended
    by CR LF. *)
Theorem plain_entries_are_written_verbatim :
  forall (editing_history : list entry) (output_file : string)
         (fs : Csv.filesystem),
    output_file ∉ Csv.unwritable fs ->
    forallb Csv.plain_entry editing_history = true ->
    exists fs',
      Csv.write_tuples_to_csv editing_history output_file fs = (Return tt, fs') /\
      Csv.files fs' !! output_file =
        Some ("editor,timestamp,page" +:+ Csv.lineterminator +:+
              Csv.plain_lines editing_history).
Proof.
  intros editing_history output_file fs Hw Hplain.
  eexists. split; [apply write_tuples_to_csv_run, Hw|].
  cbn [Csv.files]. rewrite lookup_insert_eq.
  cbn [Csv.writerows]. rewrite (writerows_plain _ Hplain). reflexivity.
Qed.

Lemma plain_entries_witness :
  exists fs',
    Csv.write_tuples_to_csv
      [("alice", "2020-01-01T00:00:00", "Foo"); ("bob", "2020-01-02T00:00:00", "Bar")]
      "out.csv" (Csv.Filesystem ∅ ∅) = (Return tt, fs') /\
    Csv.files fs' !! "out.csv" =
      Some ("editor,timestamp,page" +:+ Csv.lineterminator +:+
            "alice,2020-01-01T00:00:00,Foo" +:+ Csv.lineterminator +:+
            "bob,2020-01-02T00:00:00,Bar" +:+ Csv.lineterminator).
Proof.
  apply (plain_entries_are_written_verbatim
           [("alice", "2020-01-01T00:00:00", "Foo");
            ("bob", "2020-01-02T00:00:00", "Bar")] "out.csv" (Csv.Filesystem ∅ ∅)).
  - apply not_elem_of_empty.
  - reflexivity.
Defined.

(** Lines 119-122: a write replaces what an earlier write left at the same
    path, and writes to two different paths can be made in either
    order. *)
Theorem later_write_replaces_earlier :
  forall (h1 h2 : list entry) (path1 path2 : string) (fs : Csv.filesystem),
    path1 ∉ Csv.unwritable fs -> path2 ∉ Csv.unwritable fs ->
    exists fs1 fs2 fs12,
      Csv.write_tuples_to_csv h1 path1 fs = (Return tt, fs1) /\
      Csv.write_tuples_to_csv h2 path2 fs = (Return tt, fs2) /\
      Csv.write_tuples_to_csv h2 path2 fs1 = (Return tt, fs12) /\
      (path1 = path2 -> fs12 = fs2) /\
      (path1 <> path2 ->
       Csv.write_tuples_to_csv h1 path1 fs2 = (Return tt, fs12)).
Proof.
  intros h1 h2 path1 path2 fs Hw1 Hw2.
  eexists _, _, _.
  split; [apply write_tuples_to_csv_run, Hw1|].
  split; [apply write_tuples_to_csv_run, Hw2|].
  split; [apply write_tuples_to_csv_run, Hw2|].
  cbn [Csv.files Csv.unwritable]. split.
  - intros <-. rewrite insert_insert_eq. reflexivity.
  - intros Hne. rewrite write_tuples_to_csv_run by exact Hw1.
    cbn [Csv.files Csv.unwritable]. rewrite insert_insert_ne by congruence.
    reflexivity.
Qed.

Lemma later_write_witness :
  exists fs1 fs2 fs12,
    Csv.write_tuples_to_csv [("a", "b", "c")] "x.csv" (Csv.Filesystem ∅ ∅)
      = (Return tt, fs1) /\
    Csv.write_tuples_to_csv [] "x.csv" (Csv.Filesystem ∅ ∅) = (Return tt, fs2) /\
    Csv.write_tuples_to_csv [] "x.csv" fs1 = (Return tt, fs12) /\
    ("x.csv" = "x.csv" -> fs12 = fs2) /\
    ("x.csv" <> "x.csv" ->
     Csv.write_tuples_to_csv [("a", "b", "c")] "x.csv" fs2 = (Return tt, fs12)).
Proof.
  apply (later_write_replaces_earlier [("a", "b", "c")] [] "x.csv" "x.csv"
           (Csv.Filesystem ∅ ∅)); apply not_elem_of_empty.
Defined.
